(** * QtBridges: the Python/QML bridge, embedded in Rocq

    A shallow embedding of the runtime core of [src/QtBridge]:
    value marshaling ([conversion.cpp]), the error logger
    ([errorhandler.cpp]), the list model adapter
    ([autoqmlbridgemodel.cpp]), the mutation-bracket decorators
    ([updateqmldecorators/]), the two registration entry points
    ([autoqmlbridge.cpp], [helpers.cpp], [pycapsule.cpp]) and the
    callbacks of a list property ([qmllistproperty.cpp]).

    Conventions of the embedding.
    - A [PyObject*] that may be null is an [option PyObject].
    - C [int] is 32 bits wide and C [long] 64 bits (LP64); both are [Z]
      with the wrap-around written out ([static_cast_int]).
    - A [const char*] has no length: whatever is read through one stops at
      the first NUL byte ([c_str]).
    - The CPython error indicator, the Qt log, the calls made on the model's
      structural primitives and the process-wide registries are the fields
      of [World]; code that touches them runs in the state monad [M].
    - Functions of PySide, Shiboken, Qt and the interpreter whose sources are
      not part of the repository are the fields of the class
      [ExternalLibs]; every statement below holds for any instance. *)

From Stdlib Require Import ZArith String Ascii List Bool Lia.
From Stdlib Require Import Floats.SpecFloat.
From stdpp Require Import base gmap strings list fin_maps.
From stdpp Require Import pretty.

Local Open Scope Z_scope.
Set Warnings "-register-all".

(** ** Machine integers *)

Definition INT_MIN : Z := - 2 ^ 31.
Definition INT_MAX : Z := 2 ^ 31 - 1.
Definition LONG_MIN : Z := - 2 ^ 63.
Definition LONG_MAX : Z := 2 ^ 63 - 1.

(** [static_cast<int>(v)], and every implicit [long] to [int] conversion. *)
Definition static_cast_int (v : Z) : Z := (v + 2 ^ 31) mod 2 ^ 32 - 2 ^ 31.

Definition in_int_range (v : Z) : Prop := INT_MIN <= v <= INT_MAX.
Definition in_long_range (v : Z) : Prop := LONG_MIN <= v <= LONG_MAX.

(** ** C strings *)

(** The bytes a reader of a [const char*] sees: everything before the
    first NUL. *)
Fixpoint c_str (s : string) : string :=
  match s with
  | EmptyString => EmptyString
  | String c rest =>
      if Ascii.eqb c "000"%char then EmptyString else String c (c_str rest)
  end.

(** [true] when the string holds no NUL byte. *)
Fixpoint nul_free (s : string) : bool :=
  match s with
  | EmptyString => true
  | String c rest => negb (Ascii.eqb c "000"%char) && nul_free rest
  end.

(** [true] when the bytes hold a surrogate code point, U+D800 to U+DFFF,
    as the UTF-8 scheme writes one: the byte ED followed by a byte from A0
    to BF. *)
Fixpoint has_surrogate (s : string) : bool :=
  match s with
  | EmptyString => false
  | String c rest =>
      match rest with
      | String c' _ =>
          (Ascii.eqb c "237"%char
           && (160 <=? Z.of_nat (nat_of_ascii c'))
           && (Z.of_nat (nat_of_ascii c') <=? 191))
          || has_surrogate rest
      | EmptyString => false
      end
  end.

(** [qstrcmp(a, b) == 0] on two C strings. *)
Definition qstrcmp_eq (a b : string) : bool := String.eqb (c_str a) (c_str b).

(** ** Python objects *)

(** A [str] is held by the bytes the UTF-8 scheme gives for its code
    points, a surrogate included (what [encode("utf-8", "surrogatepass")]
    returns).  A [str] has a UTF-8 form, and then these bytes are it,
    exactly when it holds no surrogate; [Shiboken::String::toCString]
    hands out the UTF-8 form.  [bool] is a subclass of [int] in Python,
    which [PyLong_Check] below reflects.  Objects with identity carry their
    address. *)
Inductive PyObject : Type :=
| Py_None
| PyUnicode (utf8 : string)
| PyBool (b : bool)
| PyLong (z : Z)
| PyFloat (d : spec_float)
| PyList (items : list PyObject)
| PyTuple (items : list PyObject)
| PyDict (entries : list (PyObject * PyObject))
| PyInstance (addr : nat) (tp_name : string) (attrs : list (string * PyObject))
| PyType (addr : nat) (tp_name : string) (attrs : list (string * PyObject)).

Definition Py_True : PyObject := PyBool true.
Definition Py_False : PyObject := PyBool false.

Inductive PyExcType : Type :=
| PyExc_RuntimeError
| PyExc_TypeError
| PyExc_ValueError
| PyExc_IndexError
| PyExc_AttributeError
| PyExc_KeyError
| PyExc_OverflowError
| PyExc_Exception.

Record PyErr : Type := mkPyErr { exc_type : PyExcType; exc_msg : string }.

(** What a call through the C API hands back: a new reference, NULL with
    the error indicator set, or (against the API's contract, but tested for
    by the callers) NULL without an error. *)
Inductive PyResult : Type :=
| PyReturn (o : PyObject)
| PyRaise (e : PyErr)
| PyNullNoError.

Definition is_Py_None (o : PyObject) : bool :=
  match o with Py_None => true | _ => false end.
Definition is_Py_True (o : PyObject) : bool :=
  match o with PyBool true => true | _ => false end.
Definition PyUnicode_Check (o : PyObject) : bool :=
  match o with PyUnicode _ => true | _ => false end.
Definition PyBool_Check (o : PyObject) : bool :=
  match o with PyBool _ => true | _ => false end.
Definition PyLong_Check (o : PyObject) : bool :=
  match o with PyLong _ | PyBool _ => true | _ => false end.
Definition PyFloat_Check (o : PyObject) : bool :=
  match o with PyFloat _ => true | _ => false end.
Definition PyList_Check (o : PyObject) : bool :=
  match o with PyList _ => true | _ => false end.
Definition PyTuple_Check (o : PyObject) : bool :=
  match o with PyTuple _ => true | _ => false end.
Definition PyDict_Check (o : PyObject) : bool :=
  match o with PyDict _ => true | _ => false end.
Definition PyType_Check (o : PyObject) : bool :=
  match o with PyType _ _ _ => true | _ => false end.

(** Either the C value a conversion produced or the exception it raised. *)
Inductive Converted (A : Type) : Type :=
| Value (a : A)
| Raised (e : PyErr).
Arguments Value {A} a.
Arguments Raised {A} e.

(** [PyLong_AsLong]: an [int] outside the range of [long] raises
    [OverflowError]; an object that is no [int] raises [TypeError]
    (objects with [__index__] are outside the model). *)
Definition PyLong_AsLong (o : PyObject) : Converted Z :=
  match o with
  | PyLong z =>
      if (LONG_MIN <=? z) && (z <=? LONG_MAX) then Value z
      else Raised (mkPyErr PyExc_OverflowError "Python int too large to convert to C long")
  | PyBool b => Value (if b then 1 else 0)
  | _ => Raised (mkPyErr PyExc_TypeError "an integer is required")
  end.

(** [Shiboken::String::toCString]: NULL for anything but a [str], and
    for a [str] that has no UTF-8 form; the callers test for it.  What the
    failed encoding leaves in the error indicator is not recorded. *)
Definition toCString (o : PyObject) : option string :=
  match o with
  | PyUnicode s => if has_surrogate s then None else Some (c_str s)
  | _ => None
  end.

(** [Shiboken::String::fromCString] / [PyUnicode_FromString]. *)
Definition fromCString (s : string) : PyObject := PyUnicode (c_str s).

(** [PyDict_GetItemString] on a keyword dictionary. *)
Fixpoint PyDict_GetItemString (d : list (string * PyObject)) (key : string)
  : option PyObject :=
  match d with
  | [] => None
  | (k, v) :: rest =>
      if String.eqb k key then Some v else PyDict_GetItemString rest key
  end.

(** ** Generic values *)

(** [QString] and [QByteArray] are held by their UTF-8 bytes.  A [QVariant]
    holding a [QJSValue] is either a JS array, given by the [toVariant()] of
    its elements, or any other JS value, given by its own [toVariant()]. *)
Inductive QVariant : Type :=
| QVariant_Invalid
| QVariant_QString (s : string)
| QVariant_Int (i : Z)
| QVariant_Double (d : spec_float)
| QVariant_Bool (b : bool)
| QVariant_QVariantList (l : list QVariant)
| QVariant_QVariantMap (m : list (string * QVariant))
| QVariant_PyObjectWrapper (o : PyObject)
| QVariant_QObjectStar (ptr : option nat)
| QVariant_JSArray (elements : list QVariant)
| QVariant_JSValue (toVariant : QVariant).

Definition QVariant_isValid (v : QVariant) : bool :=
  match v with QVariant_Invalid => false | _ => true end.

(** [QString::fromUtf8 on a C string]. *)
Definition QString_fromUtf8 (utf8 : string) : string := c_str utf8.

(** [q.toUtf8().constData()], read as a C string. *)
Definition toUtf8_constData (q : string) : string := c_str q.

(** The library functions the code calls but does not define. *)
Class ExternalLibs : Type := {
  (** [PyObject_Str]: the [str()] rendering, [None] when it raises. *)
  PyObject_Str : PyObject -> option string;
  (** [PySide::Variant::convertToVariantList]. *)
  convertToVariantList : PyObject -> QVariant;
  (** [PySide::Variant::convertToVariantMap]. *)
  convertToVariantMap : PyObject -> QVariant;
  (** [Shiboken::Conversions::copyToPython] with the [QVariant] converter. *)
  copyToPython : QVariant -> option PyObject;
  (** [QVersionNumber::fromString]: the numeric segments it parsed. *)
  QVersionNumber_fromString : string -> list Z;
  (** [QQmlPrivate::qmlregister] for a type: the id the engine assigns to
      a type of this uri, version and name, [-1] when it refuses. *)
  qmlregister : string -> Z -> Z -> string -> Z;
  (** What [QDebug::operator<<] prints for a [QByteArray]: its bytes
      between double quotes, with the escapes [QDebug] applies. *)
  QDebug_QByteArray : string -> string;
}.

(** ** conversion.cpp *)

Definition pyObject2StringOpt (obj : option PyObject) : option string :=
  match obj with
  | None => None
  | Some o =>
      if is_Py_None o then None
      else if PyUnicode_Check o then
        match toCString o with
        | Some utf8 => Some (QString_fromUtf8 utf8)
        | None => None
        end
      else None
  end.

(** [PyObject_IsTrue] on the objects of the model ([-1] never arises). *)
Definition PyObject_IsTrue (o : PyObject) : bool :=
  match o with
  | Py_None => false
  | PyUnicode s => negb (String.eqb s EmptyString)
  | PyBool b => b
  | PyLong z => negb (z =? 0)
  | PyFloat d => match d with S754_zero _ => false | _ => true end
  | PyList l | PyTuple l => negb (Nat.eqb (length l) 0)
  | PyDict d => negb (Nat.eqb (length d) 0)
  | _ => true
  end.

Definition pyObject2BoolOpt (obj : option PyObject) : option bool :=
  match obj with
  | None => None
  | Some o =>
      if is_Py_None o then None
      else if PyBool_Check o then Some (is_Py_True o)
      else Some (PyObject_IsTrue o)
  end.

(** The empty optional is [None]; [return {}] in a function returning
    [std::optional<QVariant>] builds the empty optional.  The error
    indicator is clear on entry and is left clear ([PyErr_Clear]). *)
Definition pyObject2VariantOpt `{ExternalLibs} (obj : option PyObject)
  : option QVariant :=
  match obj with
  | None => None
  | Some o =>
      if is_Py_None o then None
      else if PyUnicode_Check o then
        match pyObject2StringOpt obj with
        | Some str => Some (QVariant_QString str)
        | None => None
        end
      else if PyBool_Check o then Some (QVariant_Bool (is_Py_True o))
      else
        let as_long :=
          if PyLong_Check o then
            match PyLong_AsLong o with
            | Value value => Some (QVariant_Int (static_cast_int value))
            | Raised _ => None
            end
          else None in
        match as_long with
        | Some v => Some v
        | None =>
            match o with
            | PyFloat value => Some (QVariant_Double value)
            | _ =>
                if PyList_Check o || PyTuple_Check o then
                  let list := convertToVariantList o in
                  if QVariant_isValid list then Some list else None
                else if PyDict_Check o then
                  let map := convertToVariantMap o in
                  if QVariant_isValid map then Some map else None
                else Some (QVariant_PyObjectWrapper o)
            end
        end
  end.

(** [PyDict_SetItem] with a [str] key: replace the entry or add one. *)
Fixpoint PyDict_SetItem (d : list (PyObject * PyObject)) (key : string)
  (value : PyObject) : list (PyObject * PyObject) :=
  match d with
  | [] => [(PyUnicode key, value)]
  | (k, v) :: rest =>
      match k with
      | PyUnicode k' =>
          if String.eqb k' key then (k, value) :: rest
          else (k, v) :: PyDict_SetItem rest key value
      | _ => (k, v) :: PyDict_SetItem rest key value
      end
  end.

(** [variant2PyObject], with [variantList2PyObject] and
    [variantMap2PyObject] as its two local loops.  [None] is the null
    pointer. *)
Fixpoint variant2PyObject `{ExternalLibs} (variant : QVariant)
  : option PyObject :=
  match variant with
  | QVariant_Invalid => Some Py_None
  | QVariant_QVariantList l =>
      let fix items (l : list QVariant) : option (list PyObject) :=
        match l with
        | [] => Some []
        | v :: rest =>
            match variant2PyObject v with
            | None => None
            | Some item =>
                match items rest with
                | None => None
                | Some r => Some (item :: r)
                end
            end
        end in
      match items l with
      | Some pyList => Some (PyList pyList)
      | None => None
      end
  | QVariant_QVariantMap m =>
      let fix entries (m : list (string * QVariant))
          (pyDict : list (PyObject * PyObject))
          : option (list (PyObject * PyObject)) :=
        match m with
        | [] => Some pyDict
        | (key, v) :: rest =>
            match variant2PyObject v with
            | None => None
            | Some value =>
                entries rest
                  (PyDict_SetItem pyDict (c_str (toUtf8_constData key)) value)
            end
        end in
      match entries m [] with
      | Some pyDict => Some (PyDict pyDict)
      | None => None
      end
  | QVariant_QString s => Some (fromCString (toUtf8_constData s))
  | QVariant_Int i => Some (PyLong i)
  | QVariant_Double d => Some (PyFloat d)
  | QVariant_Bool b => Some (PyBool b)
  | _ =>
      match copyToPython variant with
      | Some result => Some result
      | None => Some Py_None
      end
  end.

Definition variantList2PyObject `{ExternalLibs} (list : list QVariant)
  : option PyObject :=
  variant2PyObject (QVariant_QVariantList list).

Definition variantMap2PyObject `{ExternalLibs} (map : list (string * QVariant))
  : option PyObject :=
  variant2PyObject (QVariant_QVariantMap map).

Definition convertQVariantQJSValueToQtType (variantWithJSValue : QVariant)
  : QVariant :=
  match variantWithJSValue with
  | QVariant_JSArray elements => QVariant_QVariantList elements
  | QVariant_JSValue converted => converted
  | _ => variantWithJSValue
  end.

(** The two converters [registerPyObjectMetaTypeConversions] installs for
    [PyObject*] and [QVariant]. *)
Definition converter_PyObject_to_QVariant `{ExternalLibs} (obj : option PyObject)
  : QVariant :=
  match pyObject2VariantOpt obj with
  | Some result => result
  | None => QVariant_Invalid
  end.

Definition converter_QVariant_to_PyObject `{ExternalLibs} (variant : QVariant)
  : option PyObject :=
  variant2PyObject variant.

(** ** Python callables, backends and types *)

Record CodeObject : Type := mkCode {
  co_varnames : list string;
  co_argcount : nat;
}.

(** A Python callable as the bridge sees it: its optional [__code__], the
    ['return'] entry of its [__annotations__] when there is one, what
    [__get__(instance, type)] does and what calling the bound method does.
    What the body does to the interpreter's own state is not modelled. *)
Record PyFunctionObject : Type := mkFunction {
  func_code : option CodeObject;
  func_annotations_return : option PyObject;
  func_get : PyResult;
  func_call : list PyObject -> list (string * PyObject) -> PyResult;
}.

Inductive DecoratorKind : Type :=
| Decorator_insert
| Decorator_remove
| Decorator_move
| Decorator_edit
| Decorator_reset
| Decorator_complete.

(** What [PyObject_GetAttrString(type, name)] finds for a name of
    [dir(type)].  A decorator object is given by its kind and the address
    of its private data ([None]: no private data). *)
Inductive ClassAttr : Type :=
| Attr_function (f : PyFunctionObject)
| Attr_decorator (kind : DecoratorKind) (pData : option nat)
| Attr_property (fget_return : option PyObject)
| Attr_wrapper (annotations_return : option PyObject) (wrapped : ClassAttr)
| Attr_callable (annotations_return : option PyObject)
| Attr_value (o : PyObject).

(** A Python type: its address, [tp_name], the names of [dir(type)] with
    what each resolves to ([None]: the lookup fails), and whether
    attributes can be set on it (built-in types refuse). *)
Record PyTypeObject : Type := mkType {
  type_addr : nat;
  type_name : string;
  type_dir : list (string * option ClassAttr);
  type_setattr_ok : bool;
}.

(** The attribute [data] of a backend: whether it is callable, its
    [__annotations__] when it has that attribute, and what calling it with
    no argument does. *)
Record DataMethod : Type := mkDataMethod {
  data_callable : bool;
  data_annotations : option (list (string * PyObject));
  data_call : PyResult;
}.

(** A live Python instance used as a backend: its address, its type, its
    [data] attribute and the outcome of looking up and calling any other
    method by name. *)
Record Backend : Type := mkBackend {
  backend_addr : nat;
  backend_type : PyTypeObject;
  backend_data : option DataMethod;
  backend_method : string -> option (list PyObject -> PyResult);
}.

Definition backend_type_name (b : Backend) : string := type_name (backend_type b).

Inductive DataType : Type :=
| DataType_Unknown
| DataType_List
| DataType_DataClassList
| DataType_Table.

Definition DataType_eqb (a b : DataType) : bool :=
  match a, b with
  | DataType_Unknown, DataType_Unknown
  | DataType_List, DataType_List
  | DataType_DataClassList, DataType_DataClassList
  | DataType_Table, DataType_Table => true
  | _, _ => false
  end.

Record QMetaMethod : Type := mkMethod {
  method_signature : string;
  method_name : string;
  method_parameterCount : nat;
  method_typeName : string;
}.

Record QMetaObject : Type := mkMetaObject {
  mo_className : string;
  mo_classInfo : list (string * string);
  mo_signals : list string;
  mo_properties : list string;
  mo_methods : list QMetaMethod;
}.

(** [AutoQmlBridgeModel]; [is_BridgePyTypeObjectModel] is the dynamic type
    the [dynamic_cast] in [rowCount] and [data] asks for. *)
Record AutoQmlBridgeModel : Type := mkModel {
  m_backend : option Backend;
  m_dynamicMetaObject : option QMetaObject;
  m_datatype : DataType;
  m_dataClassRoles : gmap Z string;
  m_dataClassFieldNames : list string;
  is_BridgePyTypeObjectModel : bool;
}.

Inductive BridgeMode : Type := BridgeMode_Instance | BridgeMode_Type.

(** [PySide::MetaObjectBuilder], as far as the bridge fills it. *)
Record MetaObjectBuilder : Type := mkBuilder {
  builder_className : string;
  builder_info : list (string * string);
  builder_signals : list string;
  builder_properties : list string;
  builder_slots : list QMetaMethod;
}.

(** [UpdateQMLDecoratorPrivate]: the wrapped function and the backend
    instance the decorator is bound to. *)
Record UpdateQMLDecoratorPrivate : Type := mkDecorator {
  m_wrapped_func : option PyFunctionObject;
  m_backend_instance : option Backend;
}.

Record AutoQmlBridgePrivate : Type := mkBridge {
  m_metaObjectBuilder : option MetaObjectBuilder;
  bridge_backend : option Backend;
  m_pythonType : option PyTypeObject;
  m_model : option nat;
  m_mode : BridgeMode;
  bridge_datatype : DataType;
  m_defaultProperty : string;
}.

(** ** The world *)

Inductive QtMsgType : Type := QtWarningMsg | QtCriticalMsg.

(** Messages of the category [lcQtBridge] at its release threshold
    ([QtWarningMsg]); debug messages are not recorded. *)
Record LogRecord : Type := mkLog { log_level : QtMsgType; log_text : string }.

(** Calls that leave the bridge: the structural-change primitives of
    [QAbstractItemModel] on the adapter at [model], and calls into Python. *)
Inductive Event : Type :=
| beginInsertRows (model : nat) (first last : Z)
| endInsertRows (model : nat)
| beginRemoveRows (model : nat) (first last : Z)
| endRemoveRows (model : nat)
| beginMoveRows (model : nat) (sourceFirst sourceLast destinationRow : Z)
| endMoveRows (model : nat)
| beginResetModel (model : nat)
| endResetModel (model : nat)
| call_data (backend : nat)
| call_get (backend : nat)
| call_wrapped (args : list PyObject) (kwds : option (list (string * PyObject)))
| call_method (backend : nat) (name : string) (args : list PyObject).

Record QmlSingleton : Type := mkSingleton {
  singleton_uri : string;
  singleton_name : string;
  singleton_model : option nat;
}.

Record QmlType : Type := mkQmlType {
  qml_uri : string;
  qml_versionMajor : Z;
  qml_versionMinor : Z;
  qml_name : string;
  qml_pythonType : nat;
}.

(** The process: the CPython error indicator, the log, the trace of
    outgoing calls, the live adapters and decorators by address, the two
    identity registries, the two capsules stored on registered types and
    what has been registered with the QML engine. *)
Record World : Type := mkWorld {
  err : option PyErr;
  qt_log : list LogRecord;
  trace : list Event;
  models : gmap nat AutoQmlBridgeModel;
  decorators : gmap nat UpdateQMLDecoratorPrivate;
  s_bridgeMap : gmap nat (option AutoQmlBridgePrivate);
  s_typeModelMap : gmap nat (option nat);
  type_handler : gmap nat AutoQmlBridgePrivate;
  type_metaobject : gmap nat QMetaObject;
  qml_singletons : list QmlSingleton;
  qml_types : list QmlType;
}.

Definition M (A : Type) : Type := World -> A * World.

#[export] Instance M_ret : MRet M := fun A a w => (a, w).
#[export] Instance M_bind : MBind M :=
  fun A B f m w => let '(a, w') := m w in f a w'.

Definition set_err (e : option PyErr) (w : World) : World :=
  mkWorld e (qt_log w) (trace w) (models w) (decorators w) (s_bridgeMap w)
    (s_typeModelMap w) (type_handler w) (type_metaobject w)
    (qml_singletons w) (qml_types w).

Definition add_log (r : LogRecord) (w : World) : World :=
  mkWorld (err w) (qt_log w ++ [r]) (trace w) (models w) (decorators w)
    (s_bridgeMap w) (s_typeModelMap w) (type_handler w) (type_metaobject w)
    (qml_singletons w) (qml_types w).

Definition add_event (e : Event) (w : World) : World :=
  mkWorld (err w) (qt_log w) (trace w ++ [e]) (models w) (decorators w)
    (s_bridgeMap w) (s_typeModelMap w) (type_handler w) (type_metaobject w)
    (qml_singletons w) (qml_types w).

Definition set_models (ms : gmap nat AutoQmlBridgeModel) (w : World) : World :=
  mkWorld (err w) (qt_log w) (trace w) ms (decorators w) (s_bridgeMap w)
    (s_typeModelMap w) (type_handler w) (type_metaobject w)
    (qml_singletons w) (qml_types w).

Definition PyErr_Occurred : M (option PyErr) := fun w => (err w, w).
Definition PyErr_Set (t : PyExcType) (msg : string) : M unit :=
  fun w => (tt, set_err (Some (mkPyErr t msg)) w).
Definition PyErr_Restore (e : PyErr) : M unit :=
  fun w => (tt, set_err (Some e) w).
Definition PyErr_Clear : M unit := fun w => (tt, set_err None w).
Definition qCWarning (text : string) : M unit :=
  fun w => (tt, add_log (mkLog QtWarningMsg text) w).
Definition qCCritical (text : string) : M unit :=
  fun w => (tt, add_log (mkLog QtCriticalMsg text) w).
Definition emit (e : Event) : M unit := fun w => (tt, add_event e w).

(** A C API call in [M]: the object, or NULL after setting the error. *)
Definition returning (r : PyResult) : M (option PyObject) :=
  match r with
  | PyReturn o => mret (Some o)
  | PyRaise e => PyErr_Restore e ;; mret None
  | PyNullNoError => mret None
  end.

(** ** errorhandler.cpp *)

Definition shouldSuppressError (exc : option PyErr) : bool :=
  match exc with
  | None => false
  | Some e =>
      match exc_type e with
      | PyExc_IndexError | PyExc_ValueError | PyExc_TypeError
      | PyExc_AttributeError | PyExc_KeyError => true
      | _ => false
      end
  end.

Definition exception_type_name (t : PyExcType) : string :=
  match t with
  | PyExc_RuntimeError => "RuntimeError"
  | PyExc_TypeError => "TypeError"
  | PyExc_ValueError => "ValueError"
  | PyExc_IndexError => "IndexError"
  | PyExc_AttributeError => "AttributeError"
  | PyExc_KeyError => "KeyError"
  | PyExc_OverflowError => "OverflowError"
  | PyExc_Exception => "Exception"
  end.

(** The record [logPythonException(context, exc)] writes in a release
    build: a warning for the kinds [shouldSuppressError] names, a critical
    message with the type name for all others. *)
Definition exception_record (context : string) (e : PyErr) : LogRecord :=
  if shouldSuppressError (Some e)
  then mkLog QtWarningMsg (context +:+ ": " +:+ exc_msg e)
  else mkLog QtCriticalMsg
         (context +:+ ": " +:+ exception_type_name (exc_type e)
          +:+ ": " +:+ exc_msg e).

(** [logPythonException(context, exc)], release build. *)
Definition logPythonException_exc (context : string) (exc : option PyErr)
  : M unit :=
  match exc with
  | None => mret tt
  | Some e => fun w => (tt, add_log (exception_record context e) w)
  end.

(** [logPythonException(context)]: the [Shiboken::Errors::Stash] takes the
    pending exception and puts it back when it goes out of scope, so the
    error indicator is as it was. *)
Definition logPythonException (context : string) : M unit :=
  exc ← PyErr_Occurred;
  match exc with
  | Some e =>
      PyErr_Clear ;;
      logPythonException_exc context (Some e) ;;
      PyErr_Restore e
  | None => qCWarning "logPythonException: No Python error occurred"
  end.

(** ** Interpreter calls used by the adapter *)

Definition nl : string := String "010"%char EmptyString.

(** [PyObject_GetAttrString] on a data object, without the error. *)
Definition getattr (o : PyObject) (name : string) : option PyObject :=
  match o with
  | PyInstance _ _ attrs | PyType _ _ attrs => PyDict_GetItemString attrs name
  | _ => None
  end.

Definition PyObject_GetAttrString (o : PyObject) (name : string)
  : M (option PyObject) :=
  match getattr o name with
  | Some v => mret (Some v)
  | None =>
      PyErr_Set PyExc_AttributeError ("object has no attribute '" +:+ name +:+ "'") ;;
      mret None
  end.

(** What calling [backend.data()] does: the attribute lookup fails with
    [AttributeError] when there is no such attribute. *)
Definition data_result (backend : Backend) : PyResult :=
  match backend_data backend with
  | Some d => data_call d
  | None => PyRaise (mkPyErr PyExc_AttributeError "object has no attribute 'data'")
  end.

(** [PyObject_CallMethod(backend, "data", nullptr)]. *)
Definition PyObject_CallMethod_data (backend : Backend) : M (option PyObject) :=
  emit (call_data (backend_addr backend)) ;;
  returning (data_result backend).

(** ** Qt constants and indices *)

Definition Qt_DisplayRole : Z := 0.
Definition Qt_EditRole : Z := 2.
Definition Qt_UserRole : Z := 256.

Record QModelIndex : Type := mkIndex {
  index_isValid : bool;
  index_row : Z;
  index_column : Z;
}.

(** The default-constructed, invalid index: the root. *)
Definition QModelIndex_root : QModelIndex := mkIndex false (-1) (-1).

Definition createIndex (row column : Z) : QModelIndex :=
  mkIndex ((0 <=? row) && (0 <=? column)) row column.

(** ** helpers.cpp: dataclass inspection *)

(** [QtBridges::getDataClassFieldNames] on a Python object. *)
Definition getDataClassFieldNames_of (dataclassType : option PyObject)
  : M (list string) :=
  match dataclassType with
  | None => mret []
  | Some o =>
      match getattr o "__dataclass_fields__" with
      | None => PyErr_Clear ;; mret []
      | Some (PyDict entries) =>
          mret (omap (fun kv : PyObject * PyObject =>
                        if PyUnicode_Check (fst kv)
                        then QString_fromUtf8 <$> toCString (fst kv)
                        else None) entries)
      | Some _ => mret []
      end
  end.

Definition isDataClassInstance (obj : option PyObject) : M bool :=
  match obj with
  | None => mret false
  | Some o =>
      if is_Py_None o then mret false
      else match getattr o "__dataclass_fields__" with
           | Some _ => mret true
           | None => PyErr_Clear ;; mret false
           end
  end.

Definition isDataClassList (listObj : option PyObject) : M bool :=
  match listObj with
  | Some (PyList items) | Some (PyTuple items) =>
      match items with
      | [] => mret false
      | firstItem :: _ => isDataClassInstance (Some firstItem)
      end
  | _ => mret false
  end.

Definition getDataMethodReturnTypeHint (backend : option Backend)
  : M (option PyObject) :=
  match backend with
  | None => mret None
  | Some b =>
      match backend_data b with
      | None =>
          PyErr_Set PyExc_AttributeError "object has no attribute 'data'" ;;
          mret None
      | Some dataMethod =>
          match data_annotations dataMethod with
          | None =>
              PyErr_Set PyExc_AttributeError
                "object has no attribute '__annotations__'" ;;
              mret None
          | Some annotations => mret (PyDict_GetItemString annotations "return")
          end
      end
  end.

(** ** autoqmlbridgemodel.cpp *)

Module AutoQmlBridgeModel_.

Definition rowCount_usage_error (typeName : string) : string :=
  "Type '" +:+ typeName +:+
  "' is being used as a QML model but does not have a data() method. " +:+
  "When using bridge_type() registered types as ListView models, you must provide a data() method. " +:+
  "Please add a data() method with a return type hint, e.g.:" +:+ nl +:+
  "  def data(self) -> list[str]: ...  # For simple lists" +:+ nl +:+
  "  def data(self) -> List[MyDataClass]: ...  # For dataclass lists".

Definition rowCount (this : AutoQmlBridgeModel) (parent : QModelIndex) : M Z :=
  if index_isValid parent then mret 0
  else
    match m_backend this with
    | None => mret 0
    | Some backend =>
        if DataType_eqb (m_datatype this) DataType_Unknown
           && is_BridgePyTypeObjectModel this
        then
          PyErr_Set PyExc_TypeError
            (rowCount_usage_error (backend_type_name backend)) ;;
          logPythonException "AutoQmlBridgeModel::rowCount" ;;
          PyErr_Clear ;;
          mret 0
        else
          match m_datatype this with
          | DataType_List | DataType_DataClassList =>
              data ← PyObject_CallMethod_data backend;
              e ← PyErr_Occurred;
              match e with
              | Some _ =>
                  logPythonException
                    "AutoQmlBridgeModel::rowCount: error calling backend.data()" ;;
                  mret 0
              | None =>
                  match data with
                  | Some (PyList items) =>
                      mret (static_cast_int (Z.of_nat (length items)))
                  | _ => mret 0
                  end
              end
          | _ => mret 0
          end
    end.

Definition columnCount (this : AutoQmlBridgeModel) (parent : QModelIndex) : Z := 1.

(** [str(item)] as a [QString], or no value: the fallback shared by the
    branches of [data]. *)
Definition str_rendering `{ExternalLibs} (item : PyObject) : QVariant :=
  match PyObject_Str item with
  | Some s =>
      match toCString (PyUnicode s) with
      | Some utf8 => QVariant_QString (QString_fromUtf8 utf8)
      | None => QVariant_Invalid
      end
  | None => QVariant_Invalid
  end.

(** The conversion of one element of a primitive list, as [data] spells it
    out for [DataType::List]. *)
Definition data_List_item `{ExternalLibs} (item : PyObject) : QVariant :=
  if PyUnicode_Check item then
    match toCString item with
    | None => QVariant_Invalid
    | Some utf8 => QVariant_QString (QString_fromUtf8 utf8)
    end
  else if PyLong_Check item then
    QVariant_Int (static_cast_int
                    (match PyLong_AsLong item with
                     | Value v => v
                     | Raised _ => -1
                     end))
  else
    match item with
    | PyFloat d => QVariant_Double d
    | _ =>
        if PyBool_Check item then QVariant_Bool (is_Py_True item)
        else if is_Py_None item then QVariant_Invalid
        else
          str_rendering item
    end.

(** What the conversion of an element leaves in the error indicator: the
    exception [PyLong_AsLong] raises for an [int] beyond [long], which
    [data] does not test for.  As for [toCString], what the failed encoding
    of a [str] leaves there is not recorded. *)
Definition data_List_item_error (item : PyObject) : option PyErr :=
  if PyUnicode_Check item then None
  else if PyLong_Check item then
    match PyLong_AsLong item with
    | Value _ => None
    | Raised e => Some e
    end
  else None.

(** The conversion of an element with its effect on the error
    indicator. *)
Definition convert_item `{ExternalLibs} (item : PyObject) : M QVariant :=
  match data_List_item_error item with
  | Some e => PyErr_Restore e ;; mret (data_List_item item)
  | None => mret (data_List_item item)
  end.

(** [data]: the value of one cell.  The element conversion is written out
    twice in the source, once per classification, with the same tests in the
    same order; [data_List_item] is that chain. *)
Definition data `{ExternalLibs} (this : AutoQmlBridgeModel) (index : QModelIndex)
  (role : Z) : M QVariant :=
  if negb (index_isValid index) then mret QVariant_Invalid
  else
    match m_backend this with
    | None => mret QVariant_Invalid
    | Some backend =>
        if DataType_eqb (m_datatype this) DataType_Unknown
           && is_BridgePyTypeObjectModel this
        then mret QVariant_Invalid
        else
          match m_datatype this with
          | DataType_List =>
              if negb (role =? Qt_DisplayRole) then mret QVariant_Invalid
              else
                data ← PyObject_CallMethod_data backend;
                e ← PyErr_Occurred;
                match e with
                | Some _ =>
                    logPythonException
                      "AutoQmlBridgeModel::data: error calling backend.data() (List)" ;;
                    mret QVariant_Invalid
                | None =>
                    match data with
                    | Some (PyList items) =>
                        let row := index_row index in
                        if (row <? 0) || (Z.of_nat (length items) <=? row)
                        then mret QVariant_Invalid
                        else
                          match items !! Z.to_nat row with
                          | None => mret QVariant_Invalid
                          | Some item => convert_item item
                          end
                    | _ => mret QVariant_Invalid
                    end
                end
          | DataType_DataClassList =>
              data ← PyObject_CallMethod_data backend;
              e ← PyErr_Occurred;
              match e with
              | Some _ =>
                  logPythonException
                    "AutoQmlBridgeModel::data: error calling backend.data() (DataClassList)" ;;
                  mret QVariant_Invalid
              | None =>
                  match data with
                  | Some (PyList items) =>
                      let row := index_row index in
                      if (row <? 0) || (Z.of_nat (length items) <=? row)
                      then mret QVariant_Invalid
                      else
                        match items !! Z.to_nat row with
                        | None => mret QVariant_Invalid
                        | Some dataclassItem =>
                            let fieldName :=
                              default EmptyString (m_dataClassRoles this !! role) in
                            if String.eqb fieldName EmptyString then
                              if role =? Qt_DisplayRole
                              then mret (str_rendering dataclassItem)
                              else mret QVariant_Invalid
                            else
                              match getattr dataclassItem (c_str fieldName) with
                              | None => PyErr_Clear ;; mret QVariant_Invalid
                              | Some fieldValue => convert_item fieldValue
                              end
                        end
                  | _ => mret QVariant_Invalid
                  end
              end
          | _ => mret QVariant_Invalid
          end
    end.

(** The member function [getDataClassFieldNames() const]. *)
Definition getDataClassFieldNames (this : AutoQmlBridgeModel) : M (list string) :=
  match m_dataClassFieldNames this with
  | _ :: _ => mret (m_dataClassFieldNames this)
  | [] =>
      if (negb (DataType_eqb (m_datatype this) DataType_DataClassList)
          && negb (DataType_eqb (m_datatype this) DataType_Table))
         || negb (bool_decide (is_Some (m_backend this)))
      then mret []
      else
        returnType ← getDataMethodReturnTypeHint (m_backend this);
        fromHint ←
          match returnType with
          | None => mret []
          | Some hint =>
              args ← PyObject_GetAttrString hint "__args__";
              fieldNames ←
                match args with
                | Some (PyTuple (dataclassType :: _)) =>
                    if PyType_Check dataclassType
                    then getDataClassFieldNames_of (Some dataclassType)
                    else mret []
                | _ => mret []
                end;
              match fieldNames with
              | _ :: _ => mret fieldNames
              | [] => PyErr_Clear ;; mret []
              end
          end;
        match fromHint with
        | _ :: _ => mret fromHint
        | [] =>
            match m_backend this with
            | None => mret []
            | Some backend =>
                data ← PyObject_CallMethod_data backend;
                e ← PyErr_Occurred;
                match e with
                | Some _ =>
                    logPythonException
                      "AutoQmlBridgeModel::getDataClassFieldNames: error calling backend.data()" ;;
                    mret []
                | None =>
                    match data with
                    | Some (PyList (firstItem :: _)) =>
                        getDataClassFieldNames_of (Some firstItem)
                    | _ => mret []
                    end
                end
            end
        end
  end.

Definition baseRole : Z := Qt_UserRole + 1000.

(** The loop of [setupDataClassRoles], from index [i] on. *)
Fixpoint assign_roles (i : Z) (fieldNames : list string) (roles : gmap Z string)
  : gmap Z string :=
  match fieldNames with
  | [] => roles
  | fieldName :: rest =>
      assign_roles (i + 1) rest (<[baseRole + i := fieldName]> roles)
  end.

Definition setupDataClassRoles (this : AutoQmlBridgeModel) : M AutoQmlBridgeModel :=
  fieldNames ← getDataClassFieldNames this;
  mret (mkModel (m_backend this) (m_dynamicMetaObject this) (m_datatype this)
          (assign_roles 0 fieldNames ∅) fieldNames
          (is_BridgePyTypeObjectModel this)).

(** The public constructor. *)
Definition construct (backend : option Backend) (metaObject : option QMetaObject)
  (datatype : DataType) : M AutoQmlBridgeModel :=
  let this := mkModel backend metaObject datatype ∅ [] false in
  if DataType_eqb datatype DataType_DataClassList
  then setupDataClassRoles this
  else mret this.

Definition roleNames (this : AutoQmlBridgeModel) : gmap Z string :=
  match m_datatype this with
  | DataType_List => {[ Qt_DisplayRole := "display" ]}
  | DataType_DataClassList =>
      if negb (bool_decide (m_dataClassRoles this = ∅))
      then m_dataClassRoles this
      else {[ Qt_DisplayRole := "display" ]}
  | _ => {[ Qt_DisplayRole := "display" ]}
  end.

Definition parent (this : AutoQmlBridgeModel) (child : QModelIndex) : QModelIndex :=
  QModelIndex_root.

Definition index (this : AutoQmlBridgeModel) (row column : Z)
  (parent : QModelIndex) : QModelIndex :=
  match m_datatype this with
  | DataType_List | DataType_DataClassList =>
      if index_isValid parent || negb (column =? 0) then QModelIndex_root
      else createIndex row column
  | _ => QModelIndex_root
  end.

Definition setDynamicMetaObject (this : AutoQmlBridgeModel)
  (metaObject : option QMetaObject) : AutoQmlBridgeModel :=
  mkModel (m_backend this) metaObject (m_datatype this) (m_dataClassRoles this)
    (m_dataClassFieldNames this) (is_BridgePyTypeObjectModel this).

(** The structural-change wrappers, on the adapter at address [this].
    Their [int] parameters narrow the [long] the decorators pass. *)
Definition startInsert (this : nat) (first last : Z) : M unit :=
  emit (beginInsertRows this (static_cast_int first) (static_cast_int last)).
Definition finishInsert (this : nat) : M unit := emit (endInsertRows this).
Definition startRemove (this : nat) (first last : Z) : M unit :=
  emit (beginRemoveRows this (static_cast_int first) (static_cast_int last)).
Definition finishRemove (this : nat) : M unit := emit (endRemoveRows this).
Definition startMove (this : nat) (sourceFirst sourceLast destinationRow : Z)
  : M unit :=
  emit (beginMoveRows this (static_cast_int sourceFirst)
          (static_cast_int sourceLast) (static_cast_int destinationRow)).
Definition finishMove (this : nat) : M unit := emit (endMoveRows this).
Definition startReset (this : nat) : M unit := emit (beginResetModel this).

(** [endReset] on the adapter value: the role map is derived again only
    for a [DataClassList] whose role map is empty. *)
Definition endReset_roles (this : AutoQmlBridgeModel) : M AutoQmlBridgeModel :=
  if DataType_eqb (m_datatype this) DataType_DataClassList
     && bool_decide (m_dataClassRoles this = ∅)
  then
    setupDataClassRoles
      (mkModel (m_backend this) (m_dynamicMetaObject this) (m_datatype this)
         (m_dataClassRoles this) [] (is_BridgePyTypeObjectModel this))
  else mret this.

Definition endReset_at (this : nat) : M unit :=
  fun w =>
    match models w !! this with
    | Some m =>
        let '(m', w') := endReset_roles m w in
        (tt, set_models (<[this := m']> (models w')) w')
    | None => (tt, w)
    end.

Definition endReset (this : nat) : M unit :=
  endReset_at this ;;
  emit (endResetModel this).

(** [rowCount] through a pointer to a live adapter. *)
Definition rowCount_at (this : nat) (parent : QModelIndex) : M Z :=
  fun w =>
    match models w !! this with
    | Some m => rowCount m parent w
    | None => (0, w)
    end.

(** The address under which an object is looked up in the registries. *)
Definition PyObject_addr (o : PyObject) : option nat :=
  match o with
  | PyInstance addr _ _ | PyType addr _ _ => Some addr
  | _ => None
  end.

(** The lambda [convertVariantToModel] of [qt_metacall]: a wrapped Python
    object registered through [bridge_instance] is replaced by its adapter. *)
Definition convertVariantToModel (qvariant : QVariant) : M QVariant :=
  fun w =>
    match qvariant with
    | QVariant_PyObjectWrapper pyObj =>
        match PyObject_addr pyObj ≫= (fun a => s_bridgeMap w !! a) with
        | Some bridge =>
            (QVariant_QObjectStar (bridge ≫= m_model), w)
        | None => (qvariant, w)
        end
    | _ => (qvariant, w)
    end.

(** The loop of [qt_metacall] that fills the argument tuple; [None] when a
    conversion yields the null pointer. *)
Fixpoint convert_arguments `{ExternalLibs} (args : list QVariant)
  : option (list PyObject) :=
  match args with
  | [] => Some []
  | arg :: rest =>
      match variant2PyObject (convertQVariantQJSValueToQtType arg) with
      | None => None
      | Some pyArg =>
          match convert_arguments rest with
          | None => None
          | Some r => Some (pyArg :: r)
          end
      end
  end.

Definition QMetaObject_method (mo : option QMetaObject) (id : Z) : QMetaMethod :=
  default (mkMethod EmptyString EmptyString 0 EmptyString)
    (mo ≫= (fun m => if id <? 0 then None else mo_methods m !! Z.to_nat id)).

(** [qt_metacall] for [call == QMetaObject::InvokeMetaMethod], after the
    base class has declined the call.  [args] are the values behind
    [args[1..]], [returnValue] is the slot behind [args[0]] ([None] for a
    null pointer).  The result is the returned id and the slot. *)
Definition qt_metacall_InvokeMetaMethod `{ExternalLibs}
  (this : AutoQmlBridgeModel) (id : Z) (args : list QVariant)
  (returnValue : option QVariant) : M (Z * option QVariant) :=
  let method := QMetaObject_method (m_dynamicMetaObject this) id in
  let methodName := method_name method in
  let paramCount := method_parameterCount method in
  match m_backend this ≫= (fun b => pair b <$> backend_method b methodName) with
  | None =>
      PyErr_Set PyExc_AttributeError
        ("object has no attribute '" +:+ methodName +:+ "'") ;;
      qCWarning ("Failed to get Python method: " +:+ methodName) ;;
      logPythonException "qt_metacall: get Python method" ;;
      mret (id, returnValue)
  | Some (backend, callable) =>
      match convert_arguments (take paramCount args) with
      | None =>
          logPythonException "qt_metacall: arg conversion" ;;
          mret (id, returnValue)
      | Some pyArgs =>
          emit (call_method (backend_addr backend) methodName pyArgs) ;;
          result ← returning (callable pyArgs);
          match result with
          | None =>
              e ← PyErr_Occurred;
              match e with
              | Some exc =>
                  PyErr_Clear ;;
                  logPythonException_exc "qt_metacall: call Python method" (Some exc) ;;
                  PyErr_Restore exc
              | None =>
                  PyErr_Set PyExc_RuntimeError
                    "qt_metacall: Unknown error in Python method"
              end ;;
              mret (id, returnValue)
          | Some result =>
              let returnTypeName := method_typeName method in
              if negb (String.eqb returnTypeName "void")
                 && negb (String.eqb returnTypeName EmptyString)
                 && bool_decide (is_Some returnValue)
              then
                match pyObject2VariantOpt (Some result) with
                | Some value =>
                    value' ← convertVariantToModel value;
                    mret (id, Some value')
                | None =>
                    qCWarning ("Failed to convert return value for method "
                               +:+ QDebug_QByteArray methodName
                               +:+ " with return type "
                               +:+ QDebug_QByteArray returnTypeName) ;;
                    mret (id, returnValue)
                end
              else mret (id, returnValue)
          end
      end
  end.

End AutoQmlBridgeModel_.

(** ** updateqmldecorators/decoratorhelpers.cpp *)

Definition decorator_name (k : DecoratorKind) : string :=
  match k with
  | Decorator_insert => "insert"
  | Decorator_remove => "remove"
  | Decorator_move => "move"
  | Decorator_edit => "edit"
  | Decorator_reset => "reset"
  | Decorator_complete => "complete"
  end.

Definition validateDecoratorState (decorator : option UpdateQMLDecoratorPrivate)
  (decoratorName : string) : M bool :=
  match decorator with
  | None =>
      PyErr_Set PyExc_RuntimeError
        ("Internal error: NULL decorator instance for " +:+ decoratorName) ;;
      mret false
  | Some d =>
      match m_wrapped_func d with
      | None =>
          PyErr_Set PyExc_ValueError
            ("@" +:+ decoratorName +:+
             " decorator was not properly initialized - missing wrapped function") ;;
          mret false
      | Some _ =>
          match m_backend_instance d with
          | None =>
              PyErr_Set PyExc_RuntimeError
                ("@" +:+ decoratorName +:+
                 " decorator has no bound backend instance. " +:+
                 "Decorators must be bound to an instance via bridge_instance() or bridge_type().") ;;
              mret false
          | Some _ => mret true
          end
      end
  end.

Definition get_s_bridgeMap : M (gmap nat (option AutoQmlBridgePrivate)) :=
  fun w => (s_bridgeMap w, w).
Definition get_s_typeModelMap : M (gmap nat (option nat)) :=
  fun w => (s_typeModelMap w, w).

(** The adapter for the decorator's backend: first [s_bridgeMap], then
    [s_typeModelMap]; [None] is the null pointer. *)
Definition getModelForDecorator (decorator : UpdateQMLDecoratorPrivate)
  : M (option nat) :=
  match m_backend_instance decorator with
  | None => mret None
  | Some backend =>
      bridges ← get_s_bridgeMap;
      match bridges !! backend_addr backend with
      | Some (Some bridge) => mret (m_model bridge)
      | _ =>
          typeModels ← get_s_typeModelMap;
          match typeModels !! backend_addr backend with
          | Some model => mret model
          | None =>
              qCWarning
                "getModelForDecorator: Backend instance not found in s_bridgeMap or s_typeModelMap" ;;
              mret None
          end
      end
  end.

(** [createBoundMethod]: the bound method stands for the wrapped function
    it was made from. *)
Definition createBoundMethod (wrapped_func : PyFunctionObject)
  (backend_instance : option Backend) : M (option PyFunctionObject) :=
  match backend_instance with
  | None =>
      PyErr_Set PyExc_RuntimeError
        "Cannot create bound method: no backend instance available" ;;
      logPythonException "decoratorhelpers.cpp: no backend instance for bound method" ;;
      mret None
  | Some backend =>
      emit (call_get (backend_addr backend)) ;;
      result ← returning (func_get wrapped_func);
      match result with
      | None =>
          e ← PyErr_Occurred;
          match e with
          | None =>
              PyErr_Set PyExc_RuntimeError
                "Failed to create bound method from decorator"
          | Some _ => mret tt
          end ;;
          logPythonException "decoratorhelpers.cpp: error calling wrapped_func.__get__" ;;
          mret None
      | Some _ => mret (Some wrapped_func)
      end
  end.

(** The loop over the first [co_argcount] entries of [co_varnames]: the
    position of the first one equal to [arg_name]. *)
Fixpoint find_arg_pos (varnames : list string) (arg_name : string) (i : nat)
  : option nat :=
  match varnames with
  | [] => None
  | name :: rest =>
      if qstrcmp_eq name arg_name then Some i
      else find_arg_pos rest arg_name (S i)
  end.

(** The value of [result] at the end of the [if (code_obj)] block of
    [extractArgumentByName]: the positional argument at the parameter's
    position less one (the receiver is not passed), else the keyword. *)
Definition argument_by_name (wrapped_func : PyFunctionObject)
  (args : list PyObject) (kwds : option (list (string * PyObject)))
  (arg_name : string) : option PyObject :=
  match func_code wrapped_func with
  | None => None
  | Some code_obj =>
      let arg_pos :=
        find_arg_pos (take (co_argcount code_obj) (co_varnames code_obj))
          arg_name 0 in
      let positional :=
        match arg_pos with
        | Some (S p) => args !! p
        | _ => None
        end in
      match positional with
      | Some r => Some r
      | None =>
          match kwds with
          | Some d => PyDict_GetItemString d arg_name
          | None => None
          end
      end
  end.

Definition extractArgumentByName (wrapped_func : PyFunctionObject)
  (args : list PyObject) (kwds : option (list (string * PyObject)))
  (arg_name : string) (is_required : bool) : M (option PyObject) :=
  let result := argument_by_name wrapped_func args kwds arg_name in
  match result with
  | None =>
      if is_required
      then PyErr_Set PyExc_ValueError
             ("Required argument '" +:+ arg_name +:+ "' not found") ;;
           mret None
      else mret None
  | Some r => mret (Some r)
  end.

(** [hasArgumentByName], used by [tp_init] of [remove] and [move]. *)
Definition hasArgumentByName (func : PyFunctionObject) (arg_name : string) : bool :=
  match func_code func with
  | None => false
  | Some code_obj =>
      bool_decide
        (is_Some (find_arg_pos
                    (take (co_argcount code_obj) (co_varnames code_obj))
                    arg_name 0))
  end.

(** [PyLong_AsLong] with its effect on the error indicator. *)
Definition PyLong_AsLong_M (o : PyObject) : M Z :=
  match PyLong_AsLong o with
  | Value v => mret v
  | Raised e => PyErr_Restore e ;; mret (-1)
  end.

(** [PyObject_Call(bound_method, args, kwds)]. *)
Definition PyObject_Call (bound_method : PyFunctionObject) (args : list PyObject)
  (kwds : option (list (string * PyObject))) : M (option PyObject) :=
  emit (call_wrapped args kwds) ;;
  returning (func_call bound_method args (default [] kwds)).

(** The common tail of every [tp_call]: log a failure of the wrapped
    function, hand its result through. *)
Definition wrapped_result (context : string) (result : option PyObject)
  : M (option PyObject) :=
  match result with
  | None =>
      e ← PyErr_Occurred;
      match e with
      | Some _ => logPythonException context
      | None => mret tt
      end ;;
      mret None
  | Some r => mret (Some r)
  end.

Definition model_not_found (name : string) : string :=
  "@" +:+ name +:+ " - Model not found for the bound backend instance. " +:+
  "Ensure bridge_instance() or bridge_type() was called.".

(** ** updateqmldecorators/insertdecorator.cpp *)

Module InsertDecoratorPrivate.

Definition tp_call (this : UpdateQMLDecoratorPrivate) (args : list PyObject)
  (kwds : option (list (string * PyObject))) : M (option PyObject) :=
  valid ← validateDecoratorState (Some this) "insert";
  match valid, m_wrapped_func this with
  | true, Some wrapped_func =>
      model ← getModelForDecorator this;
      match model with
      | None =>
          PyErr_Set PyExc_RuntimeError (model_not_found "insert") ;;
          logPythonException "@insert - Model not found" ;;
          mret None
      | Some model =>
          bound_method ← createBoundMethod wrapped_func (m_backend_instance this);
          match bound_method with
          | None => mret None
          | Some bound_method =>
              index_obj ← extractArgumentByName wrapped_func args kwds "index" false;
              index ←
                match index_obj with
                | Some o => PyLong_AsLong_M o
                | None => AutoQmlBridgeModel_.rowCount_at model QModelIndex_root
                end;
              e ← (match index_obj with
                   | Some _ => PyErr_Occurred
                   | None => mret None
                   end);
              match e with
              | Some _ =>
                  logPythonException
                    "@insert - Failed to convert index argument to long" ;;
                  mret None
              | None =>
                  AutoQmlBridgeModel_.startInsert model index index ;;
                  result ← PyObject_Call bound_method args kwds;
                  AutoQmlBridgeModel_.finishInsert model ;;
                  wrapped_result "@insert - Error in wrapped function" result
              end
          end
      end
  | _, _ =>
      logPythonException "@insert - Invalid decorator state" ;;
      mret None
  end.

End InsertDecoratorPrivate.

(** ** updateqmldecorators/removedecorator.cpp *)

Module RemoveDecoratorPrivate.

Definition tp_call (this : UpdateQMLDecoratorPrivate) (args : list PyObject)
  (kwds : option (list (string * PyObject))) : M (option PyObject) :=
  valid ← validateDecoratorState (Some this) "remove";
  match valid, m_wrapped_func this with
  | true, Some wrapped_func =>
      model ← getModelForDecorator this;
      match model with
      | None =>
          PyErr_Set PyExc_RuntimeError (model_not_found "remove") ;;
          logPythonException "@remove - Model not found" ;;
          mret None
      | Some model =>
          index_obj ← extractArgumentByName wrapped_func args kwds "index" true;
          match index_obj with
          | None =>
              logPythonException "@remove - Missing index argument in remove decorator" ;;
              mret None
          | Some index_obj =>
              rowToRemove ← PyLong_AsLong_M index_obj;
              e ← PyErr_Occurred;
              match e with
              | Some _ =>
                  logPythonException
                    "@remove - Failed to convert index argument to long in remove decorator" ;;
                  mret None
              | None =>
                  AutoQmlBridgeModel_.startRemove model rowToRemove rowToRemove ;;
                  bound_method ←
                    createBoundMethod wrapped_func (m_backend_instance this);
                  match bound_method with
                  | None =>
                      AutoQmlBridgeModel_.finishRemove model ;;
                      mret None
                  | Some bound_method =>
                      result ← PyObject_Call bound_method args kwds;
                      AutoQmlBridgeModel_.finishRemove model ;;
                      wrapped_result "@remove - Error in wrapped function" result
                  end
              end
          end
      end
  | _, _ =>
      logPythonException "@remove - Invalid decorator state" ;;
      mret None
  end.

End RemoveDecoratorPrivate.

(** ** updateqmldecorators/movedecorator.cpp *)

Module MoveDecoratorPrivate.

(** [int adjustedToIndex = toIndex; if (toIndex > fromIndex)
    adjustedToIndex++;] with the narrowing to [int]; the increment of
    [INT_MAX], undefined in C++, wraps in [startMove]. *)
Definition adjustedToIndex (fromIndex toIndex : Z) : Z :=
  if toIndex >? fromIndex
  then static_cast_int toIndex + 1
  else static_cast_int toIndex.

Definition tp_call (this : UpdateQMLDecoratorPrivate) (args : list PyObject)
  (kwds : option (list (string * PyObject))) : M (option PyObject) :=
  valid ← validateDecoratorState (Some this) "move";
  match valid, m_wrapped_func this with
  | true, Some wrapped_func =>
      model ← getModelForDecorator this;
      match model with
      | None =>
          PyErr_Set PyExc_RuntimeError (model_not_found "move") ;;
          logPythonException "@move - Model not found" ;;
          mret None
      | Some model =>
          from_index_obj ←
            extractArgumentByName wrapped_func args kwds "from_index" true;
          to_index_obj ←
            extractArgumentByName wrapped_func args kwds "to_index" true;
          match from_index_obj, to_index_obj with
          | Some from_index_obj, Some to_index_obj =>
              fromIndex ← PyLong_AsLong_M from_index_obj;
              toIndex ← PyLong_AsLong_M to_index_obj;
              e ← PyErr_Occurred;
              match e with
              | Some _ =>
                  logPythonException
                    "@move - Failed to convert from_index or to_index to long in move decorator" ;;
                  mret None
              | None =>
                  AutoQmlBridgeModel_.startMove model fromIndex fromIndex
                    (adjustedToIndex fromIndex toIndex) ;;
                  bound_method ←
                    createBoundMethod wrapped_func (m_backend_instance this);
                  match bound_method with
                  | None =>
                      AutoQmlBridgeModel_.finishMove model ;;
                      mret None
                  | Some bound_method =>
                      result ← PyObject_Call bound_method args kwds;
                      AutoQmlBridgeModel_.finishMove model ;;
                      wrapped_result "@move - Error in wrapped function" result
                  end
              end
          | _, _ =>
              logPythonException
                "@move - Missing from_index or to_index argument in move decorator" ;;
              mret None
          end
      end
  | _, _ =>
      logPythonException "@move - Invalid decorator state" ;;
      mret None
  end.

End MoveDecoratorPrivate.

(** ** updateqmldecorators/resetdecorator.cpp *)

Module ResetDecoratorPrivate.

Definition tp_call (this : UpdateQMLDecoratorPrivate) (args : list PyObject)
  (kwds : option (list (string * PyObject))) : M (option PyObject) :=
  valid ← validateDecoratorState (Some this) "reset";
  match valid, m_wrapped_func this with
  | true, Some wrapped_func =>
      model ← getModelForDecorator this;
      match model with
      | None =>
          PyErr_Set PyExc_RuntimeError (model_not_found "reset") ;;
          logPythonException "@reset - Model not found" ;;
          mret None
      | Some model =>
          bound_method ← createBoundMethod wrapped_func (m_backend_instance this);
          match bound_method with
          | None => mret None
          | Some bound_method =>
              AutoQmlBridgeModel_.startReset model ;;
              result ← PyObject_Call bound_method args kwds;
              AutoQmlBridgeModel_.endReset model ;;
              wrapped_result "@reset decorator: Python method call failed" result
          end
      end
  | _, _ =>
      logPythonException "@reset - Invalid decorator state" ;;
      mret None
  end.

End ResetDecoratorPrivate.

(** The four bracket decorators behind one entry point. *)
Inductive BracketKind : Type :=
| Bracket_insert
| Bracket_remove
| Bracket_move
| Bracket_reset.

Definition bracket_tp_call (k : BracketKind) :=
  match k with
  | Bracket_insert => InsertDecoratorPrivate.tp_call
  | Bracket_remove => RemoveDecoratorPrivate.tp_call
  | Bracket_move => MoveDecoratorPrivate.tp_call
  | Bracket_reset => ResetDecoratorPrivate.tp_call
  end.

(** ** pycapsule.cpp *)

(** The handler capsule is looked up in the type's own dictionary. *)
Definition getAutoQmlBridgePrivateForType (pythonType : option PyTypeObject)
  : M (option AutoQmlBridgePrivate) :=
  fun w =>
    match pythonType with
    | None => (None, w)
    | Some t => (type_handler w !! type_addr t, w)
    end.

Definition getDynamicMetaObjectForType (pythonType : option PyTypeObject)
  : M (option QMetaObject) :=
  fun w =>
    match pythonType with
    | None => (None, w)
    | Some t => (type_metaobject w !! type_addr t, w)
    end.

Definition set_type_handler (h : gmap nat AutoQmlBridgePrivate) (w : World) : World :=
  mkWorld (err w) (qt_log w) (trace w) (models w) (decorators w) (s_bridgeMap w)
    (s_typeModelMap w) h (type_metaobject w) (qml_singletons w) (qml_types w).

Definition set_type_metaobject (h : gmap nat QMetaObject) (w : World) : World :=
  mkWorld (err w) (qt_log w) (trace w) (models w) (decorators w) (s_bridgeMap w)
    (s_typeModelMap w) (type_handler w) h (qml_singletons w) (qml_types w).

Definition storeAutoQmlBridgePrivateForType (pythonType : PyTypeObject)
  (bridge : AutoQmlBridgePrivate) : M unit :=
  if type_setattr_ok pythonType then
    fun w => (tt, set_type_handler (<[type_addr pythonType := bridge]> (type_handler w)) w)
  else
    PyErr_Set PyExc_TypeError "cannot set attribute on immutable type" ;;
    qCWarning "Failed to set AutoQmlBridgePrivate capsule attribute on Python type" ;;
    PyErr_Clear.

Definition storeDynamicMetaObjectForType (pythonType : PyTypeObject)
  (metaObject : QMetaObject) : M unit :=
  if type_setattr_ok pythonType then
    fun w => (tt, set_type_metaobject
                    (<[type_addr pythonType := metaObject]> (type_metaobject w)) w)
  else
    PyErr_Set PyExc_TypeError "cannot set attribute on immutable type" ;;
    qCWarning "Failed to set QMetaObject capsule attribute on Python type" ;;
    PyErr_Clear.

(** ** qmlregistertype.cpp *)

Definition set_qml_types (l : list QmlType) (w : World) : World :=
  mkWorld (err w) (qt_log w) (trace w) (models w) (decorators w) (s_bridgeMap w)
    (s_typeModelMap w) (type_handler w) (type_metaobject w) (qml_singletons w) l.

Definition registerQmlType `{ExternalLibs} (pythonType : PyTypeObject)
  (uri : string) (versionMajor versionMinor : Z) (qmlName : string) : M Z :=
  let qmlTypeId := qmlregister uri versionMajor versionMinor qmlName in
  if qmlTypeId =? -1 then
    qCWarning ("QML registration failed for type '" +:+ qmlName +:+ "'") ;;
    mret qmlTypeId
  else
    fun w =>
      (qmlTypeId,
       set_qml_types
         (qml_types w ++
            [mkQmlType uri versionMajor versionMinor qmlName (type_addr pythonType)])
         w).

(** ** helpers.cpp: the classification of a backend *)

Fixpoint string_contains (s sub : string) : bool :=
  String.prefix sub s
  || match s with
     | EmptyString => false
     | String _ rest => string_contains rest sub
     end.

Definition isListTypeHint (t : string) : bool :=
  string_contains t "list[" || String.prefix "typing.List" t || String.prefix "List[" t.

Definition PySequence_Check (o : PyObject) : bool :=
  match o with
  | PyUnicode _ | PyList _ | PyTuple _ => true
  | PyInstance _ _ attrs => bool_decide (is_Some (PyDict_GetItemString attrs "__getitem__"))
  | _ => false
  end.

(** The type name [inferDataType] compares with ["DataFrame"]. *)
Definition PyObject_Type_name (o : PyObject) : string :=
  match o with
  | Py_None => "NoneType"
  | PyUnicode _ => "str"
  | PyBool _ => "bool"
  | PyLong _ => "int"
  | PyFloat _ => "float"
  | PyList _ => "list"
  | PyTuple _ => "tuple"
  | PyDict _ => "dict"
  | PyInstance _ name _ => name
  | PyType _ _ _ => "type"
  end.

Definition inferDataType `{ExternalLibs} (instance : option Backend) : M DataType :=
  match instance with
  | None => mret DataType_Unknown
  | Some backend =>
      match backend_data backend with
      | None =>
          PyErr_Set PyExc_AttributeError "object has no attribute 'data'" ;;
          PyErr_Clear ;;
          mret DataType_Unknown
      | Some dataMethod =>
          if negb (data_callable dataMethod) then
            PyErr_Clear ;; mret DataType_Unknown
          else
            returnType ← getDataMethodReturnTypeHint instance;
            fromHint ←
              match returnType ≫= PyObject_Str with
              | None => mret None
              | Some typeStr =>
                  let typeString := c_str typeStr in
                  if isListTypeHint typeString
                     && negb (string_contains typeString "str")
                     && negb (string_contains typeString "int")
                     && negb (string_contains typeString "float")
                  then
                    (dataResult ← PyObject_CallMethod_data backend;
                     e ← PyErr_Occurred;
                     verified ←
                       match dataResult, e with
                       | Some _, None => isDataClassList dataResult
                       | _, _ => mret false
                       end;
                     if verified : bool then mret (Some DataType_DataClassList)
                     else PyErr_Clear ;; mret (Some DataType_DataClassList))
                  else if isListTypeHint typeString || String.eqb typeString "list"
                  then mret (Some DataType_List)
                  else mret None
              end;
            match fromHint with
            | Some t => mret t
            | None =>
                dataResult ← PyObject_CallMethod_data backend;
                e ← PyErr_Occurred;
                match e with
                | Some _ =>
                    logPythonException
                      "helpers.cpp: error calling instance.data() in inferDataType" ;;
                    mret DataType_Unknown
                | None =>
                    match dataResult with
                    | None => PyErr_Clear ;; mret DataType_Unknown
                    | Some data =>
                        if PyList_Check data || PyTuple_Check data then
                          (dc ← isDataClassList dataResult;
                           mret (if dc : bool then DataType_DataClassList
                                 else DataType_List))
                        else if String.eqb (PyObject_Type_name data) "DataFrame"
                        then mret DataType_Table
                        else if PySequence_Check data && negb (PyUnicode_Check data)
                        then mret DataType_List
                        else mret DataType_Unknown
                    end
                end
            end
      end
  end.

(** ** autoqmlbridge.cpp *)

Module AutoQmlBridgePrivate_.

(** [getReturnTypeName], on the ['return'] annotation the method exposes. *)
Definition getReturnTypeName (annotations_return : option PyObject)
  (methodName : string) : M string :=
  match annotations_return with
  | Some (PyType _ name _) =>
      if qstrcmp_eq name "list" then mret "QVariantList"
      else if qstrcmp_eq name "dict" then mret "QVariantMap"
      else mret "QVariant"
  | _ =>
      qCWarning ("Method " +:+ methodName +:+
                 " has no return type annotation, defaulting to 'void'") ;;
      mret "void"
  end.

Definition PyCallable_Check (value : ClassAttr) : bool :=
  match value with
  | Attr_function _ | Attr_decorator _ _ | Attr_wrapper _ _ | Attr_callable _ => true
  | Attr_property _ | Attr_value _ => false
  end.

Definition get_decorator (pData : option nat) : M (option UpdateQMLDecoratorPrivate) :=
  fun w => (pData ≫= (fun a => decorators w !! a), w).

Definition set_decorators (d : gmap nat UpdateQMLDecoratorPrivate) (w : World) : World :=
  mkWorld (err w) (qt_log w) (trace w) (models w) d (s_bridgeMap w)
    (s_typeModelMap w) (type_handler w) (type_metaobject w) (qml_singletons w)
    (qml_types w).

(** [pData->setBackendInstance(instance)] on the decorator at [pData]. *)
Definition setBackendInstance (pData : nat) (instance : option Backend) : M unit :=
  fun w =>
    match decorators w !! pData with
    | Some d =>
        (tt, set_decorators
               (<[pData := mkDecorator (m_wrapped_func d) instance]> (decorators w)) w)
    | None => (tt, w)
    end.

(** [pData ? pData->getWrappedFunc() : nullptr]. *)
Definition wrapped_func_of (d : option UpdateQMLDecoratorPrivate)
  : option PyFunctionObject :=
  match d with
  | Some d => m_wrapped_func d
  | None => None
  end.

(** The ['return'] annotation [PyObject_GetAttrString(value,
    "__annotations__")] leads to; a decorator object forwards the lookup to
    its wrapped function ([UpdateQMLDecoratorPrivate::tp_getattro]). *)
Definition annotations_return_of (value : ClassAttr) : M (option PyObject) :=
  match value with
  | Attr_function f => mret (func_annotations_return f)
  | Attr_decorator _ pData =>
      d ← get_decorator pData;
      mret (wrapped_func_of d ≫= func_annotations_return)
  | Attr_wrapper a _ | Attr_callable a => mret a
  | Attr_property _ | Attr_value _ => mret None
  end.

(** The [while] loop over [__wrapped__]: the [__code__] at the end of the
    chain, if there is one. *)
Fixpoint unwrap_code (funcObj : ClassAttr) : option CodeObject :=
  match funcObj with
  | Attr_function f => func_code f
  | Attr_wrapper _ wrapped => unwrap_code wrapped
  | _ => None
  end.

(** ["QVariant"] once per parameter after the receiver. *)
Fixpoint signature_parameters (n : nat) : string :=
  match n with
  | O => EmptyString
  | S O => "QVariant"
  | S n' => signature_parameters n' +:+ ", QVariant"
  end.

Definition addSlot (b : MetaObjectBuilder) (slot : QMetaMethod) : MetaObjectBuilder :=
  mkBuilder (builder_className b) (builder_info b) (builder_signals b)
    (builder_properties b) (builder_slots b ++ [slot]).

Definition addInfo (b : MetaObjectBuilder) (key value : string) : MetaObjectBuilder :=
  mkBuilder (builder_className b) (builder_info b ++ [(key, value)])
    (builder_signals b) (builder_properties b) (builder_slots b).

Definition set_builder (this : AutoQmlBridgePrivate) (b : option MetaObjectBuilder)
  : AutoQmlBridgePrivate :=
  mkBridge b (bridge_backend this) (m_pythonType this) (m_model this)
    (m_mode this) (bridge_datatype this) (m_defaultProperty this).

Definition missing_wrapped_func (methodName : string) : string :=
  "Cannot introspect Python method '" +:+ methodName +:+
  "' (missing wrapped_func attribute in insert/remove/move/edit/reset decorator)".

Definition missing_code (methodName : string) : string :=
  "Cannot introspect Python method '" +:+ methodName +:+
  "' (missing __code__ attribute)".

(** One callable attribute that passed the name filters: [Some] builder to
    go on with, [None] after the [return] that follows a [PyErr_SetString]. *)
Definition register_method (this : AutoQmlBridgePrivate) (methodName : string)
  (value : ClassAttr) (builder : MetaObjectBuilder) : M (option MetaObjectBuilder) :=
  annotations ← annotations_return_of value;
  returnType ← getReturnTypeName annotations methodName;
  codeObj ←
    match value with
    | Attr_decorator _ pData =>
        match pData, bridge_backend this with
        | Some p, Some _ => setBackendInstance p (bridge_backend this)
        | _, _ => mret tt
        end ;;
        d ← get_decorator pData;
        match wrapped_func_of d with
        | Some funcObj =>
            match func_code funcObj with
            | Some code => mret (Some (Some code))
            | None =>
                PyErr_Set PyExc_AttributeError
                  "object has no attribute '__code__'" ;;
                mret (Some None)
            end
        | None =>
            PyErr_Set PyExc_RuntimeError (missing_wrapped_func methodName) ;;
            mret None
        end
    | _ => mret (Some (unwrap_code value))
    end;
  match codeObj with
  | None => mret None
  | Some None =>
      PyErr_Set PyExc_RuntimeError (missing_code methodName) ;;
      mret None
  | Some (Some code) =>
      let signature :=
        methodName +:+ "(" +:+ signature_parameters (co_argcount code - 1) +:+ ")" in
      mret (Some (addSlot builder
                    (mkMethod signature methodName (co_argcount code - 1) returnType)))
  end.

(** The loop of [registerMethodsFromType] over [dir(type)]; it stops at the
    first [return]. *)
Fixpoint register_methods (this : AutoQmlBridgePrivate)
  (dirList : list (string * option ClassAttr)) (builder : MetaObjectBuilder)
  : M MetaObjectBuilder :=
  match dirList with
  | [] => mret builder
  | (nameObj, value) :: rest =>
      let methodName := c_str nameObj in
      match value with
      | None => register_methods this rest builder
      | Some value =>
          if negb (PyCallable_Check value) then register_methods this rest builder
          else if String.prefix "_" methodName then register_methods this rest builder
          else if qstrcmp_eq methodName "data" then register_methods this rest builder
          else
            r ← register_method this methodName value builder;
            match r with
            | Some builder' => register_methods this rest builder'
            | None => mret builder
            end
      end
  end.

Definition registerMethodsFromType (this : AutoQmlBridgePrivate)
  (type : option PyTypeObject) : M AutoQmlBridgePrivate :=
  match type, m_metaObjectBuilder this with
  | Some t, Some builder =>
      builder' ← register_methods this (type_dir t) builder;
      mret (set_builder this (Some builder'))
  | _, _ => mret this
  end.

(** [registerPropertiesFromType]: every [property] of [dir(type)] gets its
    [<name>Changed()] signal and its entry; the PySide property object
    behind the entry is not modelled. *)
Fixpoint register_properties (dirList : list (string * option ClassAttr))
  (builder : MetaObjectBuilder) : MetaObjectBuilder :=
  match dirList with
  | [] => builder
  | (nameObj, Some (Attr_property _)) :: rest =>
      let attrName := c_str nameObj in
      register_properties rest
        (mkBuilder (builder_className builder) (builder_info builder)
           (builder_signals builder ++ [attrName +:+ "Changed()"])
           (builder_properties builder ++ [attrName]) (builder_slots builder))
  | _ :: rest => register_properties rest builder
  end.

Definition registerPropertiesFromType (this : AutoQmlBridgePrivate)
  (type : option PyTypeObject) : M AutoQmlBridgePrivate :=
  match type, m_metaObjectBuilder this with
  | Some t, Some builder =>
      mret (set_builder this (Some (register_properties (type_dir t) builder)))
  | _, _ => mret this
  end.

(** [std::make_shared<AutoQmlBridgeModel>(...)]: the new adapter gets a
    fresh address. *)
Definition new_model (m : AutoQmlBridgeModel) : M nat :=
  fun w =>
    let p := fresh (dom (models w)) in
    (p, set_models (<[p := m]> (models w)) w).

Definition setupMetaObjectBuilder (this : AutoQmlBridgePrivate)
  : M AutoQmlBridgePrivate :=
  match m_pythonType this with
  | None => mret this
  | Some pythonType =>
      let b0 := mkBuilder (type_name pythonType) [] [] [] [] in
      let b1 := addInfo b0 "QML.Element" "auto" in
      let b2 := addInfo b1 "QML.ParserStatus" "QQmlParserStatus" in
      let b3 :=
        if negb (String.eqb (m_defaultProperty this) EmptyString)
        then addInfo b2 "DefaultProperty" (c_str (m_defaultProperty this))
        else b2 in
      model ←
        match m_mode this, bridge_backend this with
        | BridgeMode_Instance, Some backend =>
            m ← AutoQmlBridgeModel_.construct (Some backend) None
                  (bridge_datatype this);
            p ← new_model m;
            mret (Some p)
        | _, _ => mret (m_model this)
        end;
      let this1 :=
        mkBridge (Some b3) (bridge_backend this) (m_pythonType this) model
          (m_mode this) (bridge_datatype this) (m_defaultProperty this) in
      this2 ← registerPropertiesFromType this1 (m_pythonType this1);
      registerMethodsFromType this2 (m_pythonType this2)
  end.

(** The constructor for instance mode. *)
Definition construct_instance (backend : Backend) (datatype : DataType)
  : M AutoQmlBridgePrivate :=
  setupMetaObjectBuilder
    (mkBridge None (Some backend) (Some (backend_type backend)) None
       BridgeMode_Instance datatype EmptyString).

(** The two constructors for type mode. *)
Definition construct_type (type : PyTypeObject) (defaultProperty : string)
  : M AutoQmlBridgePrivate :=
  setupMetaObjectBuilder
    (mkBridge None None (Some type) None BridgeMode_Type DataType_Unknown
       defaultProperty).

(** [m_metaObjectBuilder->update()]. *)
Definition builder_update (b : MetaObjectBuilder) : QMetaObject :=
  mkMetaObject (builder_className b) (builder_info b) (builder_signals b)
    (builder_properties b) (builder_slots b).

Definition finalizeMetaObject (this : AutoQmlBridgePrivate) : M (option QMetaObject) :=
  match m_metaObjectBuilder this with
  | None =>
      qCWarning "finalizeMetaObject: m_metaObjectBuilder is null" ;;
      mret None
  | Some builder =>
      let newMetaObject := builder_update builder in
      match m_model this with
      | Some p =>
          fun w =>
            match models w !! p with
            | Some m =>
                (Some newMetaObject,
                 set_models
                   (<[p := AutoQmlBridgeModel_.setDynamicMetaObject m
                             (Some newMetaObject)]> (models w)) w)
            | None => (Some newMetaObject, w)
            end
      | None => mret (Some newMetaObject)
      end
  end.

Record bridge_instance_args : Type := mkInstanceArgs {
  arg_instance : Backend;
  arg_name : string;
  arg_instance_uri : option string;
}.

Definition set_qml_singletons (l : list QmlSingleton) (w : World) : World :=
  mkWorld (err w) (qt_log w) (trace w) (models w) (decorators w) (s_bridgeMap w)
    (s_typeModelMap w) (type_handler w) (type_metaobject w) l (qml_types w).

Definition set_s_bridgeMap (m : gmap nat (option AutoQmlBridgePrivate)) (w : World)
  : World :=
  mkWorld (err w) (qt_log w) (trace w) (models w) (decorators w) m
    (s_typeModelMap w) (type_handler w) (type_metaobject w) (qml_singletons w)
    (qml_types w).

(** The adapter that goes when the entry of [instance] is overwritten:
    the handler the entry holds has no other owner, and its destructor
    deletes the adapter it made ([m_model.reset()]). *)
Definition released_model (instance : Backend) (w : World) : option nat :=
  match s_bridgeMap w !! backend_addr instance with
  | Some (Some previous) => m_model previous
  | _ => None
  end.

(** [s_bridgeMap[instance] = data]: the assignment releases the handler
    the entry held before. *)
Definition s_bridgeMap_store (instance : Backend) (data : AutoQmlBridgePrivate)
  : M unit :=
  fun w =>
    let live :=
      match released_model instance w with
      | Some old => delete old (models w)
      | None => models w
      end in
    (tt, set_s_bridgeMap
           (<[backend_addr instance := Some data]> (s_bridgeMap w))
           (set_models live w)).

Definition qmlRegisterSingletonInstance (uri name : string) (model : option nat)
  : M unit :=
  fun w => (tt, set_qml_singletons (qml_singletons w ++ [mkSingleton uri name model]) w).

Definition could_not_infer : string :=
  "Could not infer data type from data() method. " +:+
  "Please add a return type hint to your data() method, e.g.:" +:+ nl +:+
  "  def data(self) -> list[str]: ...  # For simple lists" +:+ nl +:+
  "  def data(self) -> List[MyDataClass]: ...  # For dataclass lists" +:+ nl +:+ nl +:+
  "Supported return types:" +:+ nl +:+
  "  - list[str], list[int], list[float] (primitive lists)" +:+ nl +:+
  "  - List[DataClass], list[DataClass] (dataclass lists)".

(** [bridge_instance] on the outcome of [PyArg_ParseTupleAndKeywords]
    ([None]: the arguments did not parse).  The result is the returned
    [PyObject*]. *)
Definition bridge_instance `{ExternalLibs} (parsed : option bridge_instance_args)
  : M (option PyObject) :=
  match parsed with
  | None =>
      PyErr_Set PyExc_TypeError "bridge_instance: bad arguments" ;;
      mret None
  | Some a =>
      let instance := arg_instance a in
      let uri_str := default "backend" (arg_instance_uri a) in
      match backend_data instance with
      | None =>
          PyErr_Set PyExc_TypeError
            ("The class wrapped with bridge_instance must have a data() method that " +:+
             "returns the data to be passed to QML") ;;
          logPythonException "bridge_instance" ;;
          mret None
      | Some _ =>
          dataType ← inferDataType (Some instance);
          if DataType_eqb dataType DataType_Unknown then
            PyErr_Set PyExc_TypeError could_not_infer ;;
            logPythonException "bridge_instance" ;;
            mret None
          else
            data ← construct_instance instance dataType;
            newMetaObject ← finalizeMetaObject data;
            qmlRegisterSingletonInstance uri_str (arg_name a) (m_model data) ;;
            s_bridgeMap_store instance data ;;
            mret (Some Py_None)
      end
  end.

Record bridge_type_args : Type := mkTypeArgs {
  arg_type : PyTypeObject;
  arg_uri : option string;
  arg_version : option string;
  arg_qmlName : option string;
  arg_defaultProperty : option string;
}.

(** [bridge_type] on the outcome of [PyArg_ParseTupleAndKeywords]. *)
Definition bridge_type `{ExternalLibs} (parsed : option bridge_type_args)
  : M (option PyObject) :=
  match parsed with
  | None =>
      PyErr_Set PyExc_TypeError "bridge_type: bad arguments" ;;
      mret None
  | Some a =>
      let type := arg_type a in
      let uri := default "backend" (arg_uri a) in
      let version := default "1.0" (arg_version a) in
      let versionNumber := QVersionNumber_fromString (QString_fromUtf8 version) in
      match versionNumber with
      | versionMajor :: versionMinor :: _ =>
          let qml_name := default (type_name type) (arg_qmlName a) in
          registered ← getAutoQmlBridgePrivateForType (Some type);
          match registered with
          | Some _ =>
              qCWarning ("Python type " +:+ qml_name +:+ " is already registered") ;;
              mret (Some Py_None)
          | None =>
              bridge ←
                match arg_defaultProperty a with
                | Some defaultProperty =>
                    if negb (String.eqb (c_str defaultProperty) EmptyString)
                    then construct_type type (QString_fromUtf8 defaultProperty)
                    else construct_type type EmptyString
                | None => construct_type type EmptyString
                end;
              dynamicMetaObject ← finalizeMetaObject bridge;
              match dynamicMetaObject with
              | None =>
                  PyErr_Set PyExc_RuntimeError
                    "Failed to create dynamic metaObject for Python type" ;;
                  mret None
              | Some dynamicMetaObject =>
                  storeAutoQmlBridgePrivateForType type bridge ;;
                  storeDynamicMetaObjectForType type dynamicMetaObject ;;
                  result ← registerQmlType type uri versionMajor versionMinor qml_name;
                  if result =? -1 then
                    PyErr_Set PyExc_RuntimeError
                      "Failed to register type with QML engine" ;;
                    mret None
                  else mret (Some Py_None)
              end
          end
      | _ =>
          PyErr_Set PyExc_ValueError "version must be in format 'major.minor'" ;;
          mret None
      end
  end.

End AutoQmlBridgePrivate_.

(** ** updateqmldecorators/completedecorator.cpp *)

Module CompleteDecoratorPrivate.

(** [tp_call] of [complete]: no model is looked up and no structural
    primitive is called; both early failures overwrite the error with a
    [RuntimeError] of their own. *)
Definition tp_call (this : UpdateQMLDecoratorPrivate) (args : list PyObject)
  (kwds : option (list (string * PyObject))) : M (option PyObject) :=
  valid ← validateDecoratorState (Some this) "complete";
  match valid, m_wrapped_func this with
  | true, Some wrapped_func =>
      bound_method ← createBoundMethod wrapped_func (m_backend_instance this);
      match bound_method with
      | None =>
          PyErr_Set PyExc_RuntimeError
            "@complete decorator failed to create bound method" ;;
          mret None
      | Some bound_method =>
          result ← PyObject_Call bound_method args kwds;
          wrapped_result "@complete decorator: Python method call failed" result
      end
  | _, _ =>
      PyErr_Set PyExc_RuntimeError
        "@complete decorator has no bound backend instance - was bridge_instance() or bridge_type() called?" ;;
      mret None
  end.

End CompleteDecoratorPrivate.

(** ** The constructors of the decorators *)

(** What a decorator's constructor is handed: a callable, as the bridge
    sees callables, or any other object. *)
Inductive DecoratedObject : Type :=
| Decorated_callable (func : PyFunctionObject)
| Decorated_object (o : PyObject).

(** [initDecoratorCommon]: [PyArg_UnpackTuple(args, name, 1, 1, &func)],
    then [PyCallable_Check(func)]; the result is the [int] it returns. *)
Definition initDecoratorCommon (args : list DecoratedObject)
  (decorator_name : string) : M Z :=
  match args with
  | [Decorated_callable _] => mret 0
  | [Decorated_object o] =>
      PyErr_Set PyExc_TypeError
        ("@" +:+ decorator_name +:+ " can only decorate callable objects, got "
         +:+ PyObject_Type_name o) ;;
      mret (-1)
  | _ =>
      PyErr_Set PyExc_TypeError
        (decorator_name +:+ " expected 1 argument, got " +:+ pretty (length args)) ;;
      mret (-1)
  end.

(** [this->m_wrapped_func = func]. *)
Definition set_wrapped_func (this : UpdateQMLDecoratorPrivate)
  (func : PyFunctionObject) : UpdateQMLDecoratorPrivate :=
  mkDecorator (Some func) (m_backend_instance this).

(** The [tp_init] of [insert], [reset] and [complete], which differ in the
    name they pass on: the [int] returned and the decorator afterwards.  The
    second [PyArg_UnpackTuple] cannot fail where the first one succeeded. *)
Definition tp_init_any (decorator_name : string) (this : UpdateQMLDecoratorPrivate)
  (args : list DecoratedObject) : M (Z * UpdateQMLDecoratorPrivate) :=
  r ← initDecoratorCommon args decorator_name;
  if negb (r =? 0) then mret (-1, this)
  else
    match args with
    | [Decorated_callable func] => mret (0, set_wrapped_func this func)
    | _ => mret (-1, this)
    end.

Definition InsertDecoratorPrivate_tp_init := tp_init_any "insert".
Definition ResetDecoratorPrivate_tp_init := tp_init_any "reset".
Definition CompleteDecoratorPrivate_tp_init := tp_init_any "complete".

Definition RemoveDecoratorPrivate_tp_init (this : UpdateQMLDecoratorPrivate)
  (args : list DecoratedObject) : M (Z * UpdateQMLDecoratorPrivate) :=
  r ← initDecoratorCommon args "remove";
  if negb (r =? 0) then mret (-1, this)
  else
    match args with
    | [Decorated_callable func] =>
        if negb (hasArgumentByName func "index") then
          PyErr_Set PyExc_TypeError
            "@remove-decorated method must have an argument named 'index'" ;;
          mret (-1, this)
        else mret (0, set_wrapped_func this func)
    | _ => mret (-1, this)
    end.

Definition MoveDecoratorPrivate_tp_init (this : UpdateQMLDecoratorPrivate)
  (args : list DecoratedObject) : M (Z * UpdateQMLDecoratorPrivate) :=
  r ← initDecoratorCommon args "move";
  if negb (r =? 0) then mret (-1, this)
  else
    match args with
    | [Decorated_callable func] =>
        if negb (hasArgumentByName func "from_index")
           || negb (hasArgumentByName func "to_index") then
          PyErr_Set PyExc_TypeError
            "@move-decorated method must have 'from_index' and 'to_index' as parameter names" ;;
          mret (-1, this)
        else mret (0, set_wrapped_func this func)
    | _ => mret (-1, this)
    end.

(** The constructor behind each bracket decorator. *)
Definition bracket_tp_init (k : BracketKind) :=
  match k with
  | Bracket_insert => InsertDecoratorPrivate_tp_init
  | Bracket_remove => RemoveDecoratorPrivate_tp_init
  | Bracket_move => MoveDecoratorPrivate_tp_init
  | Bracket_reset => ResetDecoratorPrivate_tp_init
  end.

(** ** autoqmlbridgemodel.cpp: the decorators of a type-mode adapter *)

(** The loop of [BridgePyTypeObjectModel::bindDecoratorsToBackend] over
    [dir(type)]: every decorator object that has private data is bound to
    the backend; a name that does not resolve is skipped, and the
    [AttributeError] of the failed lookup stays behind. *)
Fixpoint bind_decorators (m_pythonType : PyTypeObject)
  (dirList : list (string * option ClassAttr)) (m_backend : Backend) : M unit :=
  match dirList with
  | [] => mret tt
  | (nameObj, value) :: rest =>
      match value with
      | None =>
          PyErr_Set PyExc_AttributeError
            ("type object '" +:+ type_name m_pythonType +:+ "' has no attribute '"
             +:+ c_str nameObj +:+ "'") ;;
          bind_decorators m_pythonType rest m_backend
      | Some (Attr_decorator _ (Some pData)) =>
          AutoQmlBridgePrivate_.setBackendInstance pData (Some m_backend) ;;
          bind_decorators m_pythonType rest m_backend
      | Some _ => bind_decorators m_pythonType rest m_backend
      end
  end.

Definition bindDecoratorsToBackend (m_pythonType : option PyTypeObject)
  (m_backend : option Backend) : M unit :=
  match m_pythonType, m_backend with
  | Some type, Some backend => bind_decorators type (type_dir type) backend
  | _, _ => mret tt
  end.

(** ** helpers.cpp: the type of a property *)

(** [isQmlRegisteredType]: the first argument of the generic annotation is
    a type that carries a stored meta-object.  The type object is looked up
    by its address, which is all the capsule lookup uses. *)
Definition isQmlRegisteredType (returnTypeAnnotation : option PyObject) : M bool :=
  match returnTypeAnnotation with
  | None => mret false
  | Some annotation =>
      args ← PyObject_GetAttrString annotation "__args__";
      match args with
      | None => PyErr_Clear ;; mret false
      | Some (PyTuple (elementTypeObj :: _)) =>
          match elementTypeObj with
          | PyType addr name _ =>
              metaObject ← getDynamicMetaObjectForType (Some (mkType addr name [] true));
              mret (bool_decide (is_Some metaObject))
          | _ => mret false
          end
      | Some _ => mret false
      end
  end.

(** [PyDict_GetItemString] on a dictionary object: the value under the
    [str] key [key]. *)
Fixpoint PyDict_GetItemString_object (entries : list (PyObject * PyObject))
  (key : string) : option PyObject :=
  match entries with
  | [] => None
  | (PyUnicode k, v) :: rest =>
      if String.eqb k key then Some v else PyDict_GetItemString_object rest key
  | _ :: rest => PyDict_GetItemString_object rest key
  end.

(** [determinePropertyType]: the type the bridge declares for a Python
    [property], read off the ['return'] annotation of its getter. *)
Definition determinePropertyType `{ExternalLibs} (propertyDescriptor : option PyObject)
  : M string :=
  match propertyDescriptor with
  | None => mret "QVariant"
  | Some descriptor =>
      getter ← PyObject_GetAttrString descriptor "fget";
      match getter with
      | None => mret "QVariant"
      | Some getter =>
          if is_Py_None getter then mret "QVariant"
          else
            annotations ← PyObject_GetAttrString getter "__annotations__";
            match annotations with
            | Some (PyDict entries) =>
                match PyDict_GetItemString_object entries "return" with
                | None => mret "QVariant"
                | Some returnType =>
                    match PyObject_Str returnType with
                    | None => mret "QVariant"
                    | Some typeStr =>
                        let typeString := c_str typeStr in
                        if isListTypeHint typeString then
                          registered ← isQmlRegisteredType (Some returnType);
                          if registered : bool
                          then mret "QQmlListProperty<QObject>"
                          else mret "QVariantList"
                        else if string_contains typeString "dict["
                                || String.prefix "typing.Dict" typeString
                        then mret "QVariantMap"
                        else mret "QVariant"
                    end
                end
            | _ => mret "QVariant"
            end
      end
  end.

(** ** qmllistproperty.cpp *)

Module PyQmlListProperty_.

(** What the callbacks of a list property work on: the world, the Python
    lists by address, and the calls of [emitPropertyChanged] made so far,
    each with the adapter it was made on and the property index.  A Python
    list is shared by all who hold a reference to it; it is held by the
    addresses of its items, which is all the callbacks look at.  An address
    without a list is an object that is no list. *)
Record ListWorld : Type := mkListWorld {
  lw_world : World;
  py_lists : gmap nat (list nat);
  emitPropertyChanged_calls : list (nat * Z);
}.

Record PyQmlListPropertyData : Type := mkListData {
  pythonList : nat;
  owner : option nat;
  propertyIndex : Z;
  propertyName : string;
}.

(** [QQmlListProperty<QObject>], as far as the callbacks read it. *)
Record QQmlListProperty : Type := mkListProperty {
  list_data : option PyQmlListPropertyData;
}.

Definition list_warning (text : string) (lw : ListWorld) : ListWorld :=
  mkListWorld (add_log (mkLog QtWarningMsg text) (lw_world lw)) (py_lists lw)
    (emitPropertyChanged_calls lw).

Definition set_py_list (addr : nat) (items : list nat) (lw : ListWorld) : ListWorld :=
  mkListWorld (lw_world lw) (<[addr := items]> (py_lists lw))
    (emitPropertyChanged_calls lw).

Definition emitListPropertyChanged (data : option PyQmlListPropertyData)
  (lw : ListWorld) : ListWorld :=
  match data with
  | None => lw
  | Some data =>
      match owner data with
      | None => lw
      | Some owner =>
          if propertyIndex data <? 0 then lw
          else mkListWorld (lw_world lw) (py_lists lw)
                 (emitPropertyChanged_calls lw ++ [(owner, propertyIndex data)])
      end
  end.

(** [value] is the address of a [QObject]; the [qobject_cast] succeeds on
    the adapters.  [PyList_Append] fails on an object that is no list. *)
Definition appendFunction (property : option QQmlListProperty) (value : option nat)
  (lw : ListWorld) : ListWorld :=
  match property ≫= list_data, value with
  | Some data, Some value =>
      match models (lw_world lw) !! value ≫= m_backend with
      | None =>
          list_warning
            "PyQmlListProperty: Could not extract Python object from QObject wrapper" lw
      | Some pythonObj =>
          match py_lists lw !! pythonList data with
          | None =>
              let lw1 :=
                list_warning "PyQmlListProperty: Failed to append item to Python list" lw in
              mkListWorld (set_err None (lw_world lw1)) (py_lists lw1)
                (emitPropertyChanged_calls lw1)
          | Some items =>
              emitListPropertyChanged (Some data)
                (set_py_list (pythonList data) (items ++ [backend_addr pythonObj]) lw)
          end
      end
  | _, _ => list_warning "PyQmlListProperty::appendFunction: Invalid parameters" lw
  end.

Definition countFunction (property : option QQmlListProperty) (lw : ListWorld)
  : Z * ListWorld :=
  match property ≫= list_data with
  | None =>
      (0, list_warning "PyQmlListProperty::countFunction: Invalid parameters" lw)
  | Some data =>
      match py_lists lw !! pythonList data with
      | None =>
          (0, list_warning
                "PyQmlListProperty::countFunction: Data is not a Python list" lw)
      | Some items => (Z.of_nat (length items), lw)
      end
  end.

(** The result is the [QObject*] handed to QML, [None] for the null
    pointer. *)
Definition atFunction (property : option QQmlListProperty) (index : Z)
  (lw : ListWorld) : option nat * ListWorld :=
  match property ≫= list_data with
  | None =>
      (None, list_warning "PyQmlListProperty::atFunction: Invalid parameters" lw)
  | Some data =>
      match py_lists lw !! pythonList data with
      | None =>
          (None, list_warning
                   "PyQmlListProperty::atFunction: Data is not a Python list" lw)
      | Some items =>
          if (index <? 0) || (Z.of_nat (length items) <=? index) then
            (None, list_warning
                     ("PyQmlListProperty::atFunction: Index " +:+ pretty index
                      +:+ " out of range") lw)
          else
            match items !! Z.to_nat index with
            | None =>
                (None, list_warning
                         ("PyQmlListProperty::atFunction: Failed to get item at index "
                          +:+ pretty index) lw)
            | Some item =>
                match s_typeModelMap (lw_world lw) !! item with
                | Some (Some qObj) => (Some qObj, lw)
                | _ =>
                    (None, list_warning
                             "PyQmlListProperty: Could not find QObject wrapper for Python object"
                             lw)
                end
            end
      end
  end.

Definition clearFunction (property : option QQmlListProperty) (lw : ListWorld)
  : ListWorld :=
  match property ≫= list_data with
  | None => list_warning "PyQmlListProperty::clearFunction: Invalid parameters" lw
  | Some data =>
      match py_lists lw !! pythonList data with
      | None =>
          list_warning "PyQmlListProperty::clearFunction: Data is not a Python list" lw
      | Some items =>
          emitListPropertyChanged (Some data) (set_py_list (pythonList data) [] lw)
      end
  end.

End PyQmlListProperty_.

(** ** Vocabulary of the statements *)

(** *** Brackets on the trace *)

Definition BracketKind_eqb (a b : BracketKind) : bool :=
  match a, b with
  | Bracket_insert, Bracket_insert | Bracket_remove, Bracket_remove
  | Bracket_move, Bracket_move | Bracket_reset, Bracket_reset => true
  | _, _ => false
  end.

(** The begin primitive an event is, with the adapter it is called on. *)
Definition begin_of (e : Event) : option (BracketKind * nat) :=
  match e with
  | beginInsertRows m _ _ => Some (Bracket_insert, m)
  | beginRemoveRows m _ _ => Some (Bracket_remove, m)
  | beginMoveRows m _ _ _ => Some (Bracket_move, m)
  | beginResetModel m => Some (Bracket_reset, m)
  | _ => None
  end.

Definition end_of (e : Event) : option (BracketKind * nat) :=
  match e with
  | endInsertRows m => Some (Bracket_insert, m)
  | endRemoveRows m => Some (Bracket_remove, m)
  | endMoveRows m => Some (Bracket_move, m)
  | endResetModel m => Some (Bracket_reset, m)
  | _ => None
  end.

(** One event against the bracket that is open ([None]: none is): a begin
    needs no open bracket, an end needs its own bracket open; the outer
    [None] is a violation. *)
Definition bracket_step (open : option (BracketKind * nat)) (e : Event)
  : option (option (BracketKind * nat)) :=
  match begin_of e, end_of e with
  | Some b, _ =>
      match open with
      | None => Some (Some b)
      | Some _ => None
      end
  | None, Some (k, m) =>
      match open with
      | Some (k', m') =>
          if BracketKind_eqb k k' && Nat.eqb m m' then Some None else None
      | None => None
      end
  | None, None => Some open
  end.

Fixpoint bracket_run (open : option (BracketKind * nat)) (es : list Event)
  : option (option (BracketKind * nat)) :=
  match es with
  | [] => Some open
  | e :: rest =>
      match bracket_step open e with
      | Some open' => bracket_run open' rest
      | None => None
      end
  end.

(** Every begin in [es] is followed by its end, and nothing else begins or
    ends in between. *)
Definition brackets_closed (es : list Event) : Prop :=
  bracket_run None es = Some None.

(** [m] only appends to the trace, and what it appends takes the bracket
    state from [s] to [s']. *)
Definition runs {A : Type} (s s' : option (BracketKind * nat)) (m : M A) : Prop :=
  forall w, exists es,
    trace (snd (m w)) = trace w ++ es /\ bracket_run s es = Some s'.

(** [m] appends no begin and no end. *)
Definition neutral {A : Type} (m : M A) : Prop := forall s, runs s s m.

(** [m] leaves the trace as it is. *)
Definition silent {A : Type} (m : M A) : Prop :=
  forall w, trace (snd (m w)) = trace w.

(** *** The round trip of a value *)

(** Python to generic and back, through the two registered converters: the
    empty optional of [pyObject2VariantOpt] is read as the invalid
    [QVariant]. *)
Definition roundtrip `{ExternalLibs} (v : PyObject) : option PyObject :=
  converter_QVariant_to_PyObject (converter_PyObject_to_QVariant (Some v)).

(** The primitive values of the claim: a string, an int representable in
    32 bits, a float, a bool, or None. *)
Inductive claimed_primitive : PyObject -> Prop :=
| claimed_str s : claimed_primitive (PyUnicode s)
| claimed_int z : in_int_range z -> claimed_primitive (PyLong z)
| claimed_float d : claimed_primitive (PyFloat d)
| claimed_bool b : claimed_primitive (PyBool b)
| claimed_None : claimed_primitive Py_None.


(** *** Sample inputs *)

(** A reading of [QVersionNumber::fromString]: decimal segments separated
    by periods, up to the first character that fits neither. *)
Definition digit_of (c : ascii) : option Z :=
  let n := Z.of_nat (nat_of_ascii c) in
  if (48 <=? n) && (n <=? 57) then Some (n - 48) else None.

Fixpoint parse_version (s : string) (cur : option Z) (acc : list Z) : list Z :=
  match s with
  | EmptyString => acc ++ option_list cur
  | String c rest =>
      match digit_of c with
      | Some d => parse_version rest (Some (10 * default 0 cur + d)) acc
      | None =>
          if Ascii.eqb c "."%char then
            match cur with
            | Some n => parse_version rest None (acc ++ [n])
            | None => acc
            end
          else acc ++ option_list cur
      end
  end.

(** The one-character string that holds a double quote. *)
Definition double_quote : string := String "034"%char EmptyString.

(** One instance of the external libraries, for the closed examples.
    [QDebug] prints a name of plain letters between quotes, as it is. *)
Definition sample_libs : ExternalLibs := {|
  PyObject_Str := fun o =>
    match o with
    | PyUnicode s => Some s
    | PyInstance _ name _ => Some ("<" +:+ name +:+ " object>")
    | _ => None
    end;
  convertToVariantList := fun _ => QVariant_Invalid;
  convertToVariantMap := fun _ => QVariant_Invalid;
  copyToPython := fun v =>
    match v with
    | QVariant_PyObjectWrapper o => Some o
    | _ => None
    end;
  QVersionNumber_fromString := fun s => parse_version s None [];
  qmlregister := fun _ _ _ _ => 0;
  QDebug_QByteArray := fun s => double_quote +:+ s +:+ double_quote;
|}.

Definition empty_world : World := mkWorld None [] [] ∅ ∅ ∅ ∅ ∅ ∅ [] [].


(** The string that holds the one code point U+D800, a surrogate on its
    own: the bytes ED A0 80. *)
Definition lone_surrogate : string :=
  String "237"%char (String "160"%char (String "128"%char EmptyString)).

(** *** Arguments by name *)

(** The parameters [extractArgumentByName] looks through: the first
    [co_argcount] names of the wrapped function's code object. *)
Definition parameter_names (f : PyFunctionObject) : list string :=
  match func_code f with
  | Some code => take (co_argcount code) (co_varnames code)
  | None => []
  end.

(** An argument named [name] is supplied with value [v]: positionally, when
    a parameter after the receiver has that name and the call has a
    positional argument for it, or by keyword. *)
Definition supplied (f : PyFunctionObject) (args : list PyObject)
  (kwds : option (list (string * PyObject))) (name : string) (v : PyObject)
  : Prop :=
  (exists p n, parameter_names f !! S p = Some n /\ qstrcmp_eq n name = true
               /\ args !! p = Some v)
  \/ (exists d, kwds = Some d /\ PyDict_GetItemString d name = Some v).

(** A function defined in Python: it has a code object, and the names of
    its parameters differ from one another. *)
Definition python_function (f : PyFunctionObject) : Prop :=
  is_Some (func_code f) /\ NoDup (c_str <$> parameter_names f).

(** The call supplies the argument [name] once, and its value is [v]. *)
Definition supplied_once (f : PyFunctionObject) (args : list PyObject)
  (kwds : option (list (string * PyObject))) (name : string) (v : PyObject)
  : Prop :=
  supplied f args kwds name v
  /\ forall v', supplied f args kwds name v' -> v' = v.

(** *** Record types *)

(** A name a field of a record type can have: an identifier, so text with
    a UTF-8 form and no NUL in it. *)
Definition field_name (n : string) : bool := nul_free n && negb (has_surrogate n).

(** [o], a dataclass or an instance of one, has the fields [names], in the
    order of their declaration: the keys of its [__dataclass_fields__]. *)
Definition has_fields (o : PyObject) (names : list string) : Prop :=
  exists fields,
    getattr o "__dataclass_fields__" = Some (PyDict fields)
    /\ fst <$> fields = PyUnicode <$> names
    /\ Forall (fun n => field_name n = true) names.

(** The first argument of a generic annotation such as [list[T]], when it
    is a type object. *)
Definition annotation_argument (hint : PyObject) : option PyObject :=
  match getattr hint "__args__" with
  | Some (PyTuple (T :: _)) => if PyType_Check T then Some T else None
  | _ => None
  end.

(** Where an adapter over [backend], set up in world [w], finds its record
    type and the fields [names] of it: the return annotation of [data()]
    names it, and it has a field; or the annotation names no type with a
    field (there is none and no exception is pending, or its first argument
    is no type object, or a type without fields) and [data()] returns a
    list whose first row is an instance of the record type. *)
Inductive record_type_found (backend : Backend) (w : World) (names : list string)
  : Prop :=
| found_by_annotation (dataMethod : DataMethod)
    (annotations : list (string * PyObject)) (hint T : PyObject) :
    backend_data backend = Some dataMethod ->
    data_annotations dataMethod = Some annotations ->
    PyDict_GetItemString annotations "return" = Some hint ->
    annotation_argument hint = Some T ->
    has_fields T names ->
    names <> [] ->
    record_type_found backend w names
| found_by_first_row (dataMethod : DataMethod)
    (annotations : list (string * PyObject)) (row : PyObject)
    (rest : list PyObject) :
    backend_data backend = Some dataMethod ->
    data_annotations dataMethod = Some annotations ->
    match PyDict_GetItemString annotations "return" with
    | None => err w = None
    | Some hint =>
        match annotation_argument hint with
        | None => True
        | Some T => getattr T "__dataclass_fields__" = None \/ has_fields T []
        end
    end ->
    data_call dataMethod = PyReturn (PyList (row :: rest)) ->
    has_fields row names ->
    record_type_found backend w names.

(** An adapter over [backend] whose roles are derived in world [w]: built
    by the constructor as a [DataClassList], or reset while its role map
    is empty. *)
Definition roles_derived (backend : Backend) (w : World)
  (this : AutoQmlBridgeModel) : Prop :=
  (exists metaObject,
     this = fst (AutoQmlBridgeModel_.construct (Some backend) metaObject DataType_DataClassList w))
  \/ (exists before,
        m_backend before = Some backend
        /\ m_datatype before = DataType_DataClassList
        /\ m_dataClassRoles before = ∅
        /\ this = fst (AutoQmlBridgeModel_.endReset_roles before w)).

(** *** The life of an adapter *)

(** A call on an adapter after its construction: the read-only queries and
    the structural-change wrappers. *)
Inductive AdapterCall : Type :=
| Call_rowCount (parent : QModelIndex)
| Call_data (index : QModelIndex) (role : Z)
| Call_roleNames
| Call_startInsert (first last : Z)
| Call_finishInsert
| Call_startRemove (first last : Z)
| Call_finishRemove
| Call_startMove (sourceFirst sourceLast destinationRow : Z)
| Call_finishMove
| Call_startReset
| Call_endReset.

Definition data_at `{ExternalLibs} (this : nat) (index : QModelIndex) (role : Z)
  : M QVariant :=
  fun w =>
    match models w !! this with
    | Some m => AutoQmlBridgeModel_.data m index role w
    | None => (QVariant_Invalid, w)
    end.

Definition roleNames_at (this : nat) (w : World) : option (gmap Z string) :=
  AutoQmlBridgeModel_.roleNames <$> models w !! this.

Definition adapter_call `{ExternalLibs} (this : nat) (c : AdapterCall) : M unit :=
  match c with
  | Call_rowCount parent =>
      AutoQmlBridgeModel_.rowCount_at this parent ≫= (fun _ => mret tt)
  | Call_data index role => data_at this index role ≫= (fun _ => mret tt)
  | Call_roleNames => mret tt
  | Call_startInsert first last => AutoQmlBridgeModel_.startInsert this first last
  | Call_finishInsert => AutoQmlBridgeModel_.finishInsert this
  | Call_startRemove first last => AutoQmlBridgeModel_.startRemove this first last
  | Call_finishRemove => AutoQmlBridgeModel_.finishRemove this
  | Call_startMove a b c => AutoQmlBridgeModel_.startMove this a b c
  | Call_finishMove => AutoQmlBridgeModel_.finishMove this
  | Call_startReset => AutoQmlBridgeModel_.startReset this
  | Call_endReset => AutoQmlBridgeModel_.endReset this
  end.

Fixpoint adapter_calls `{ExternalLibs} (this : nat) (cs : list AdapterCall)
  : M unit :=
  match cs with
  | [] => mret tt
  | c :: rest => adapter_call this c ;; adapter_calls this rest
  end.

(** [m] leaves the adapters as they are. *)
Definition keeps_models {A : Type} (m : M A) : Prop :=
  forall w, models (snd (m w)) = models w.

(** *** Sample programs *)

(** [def data(self): return ["a", "b"]] on a class [Shelf] with
    [def add(self, item)], [def insert_at(self, index, item)] and
    [def move(self, from_index, to_index)]. *)
Definition shelf_add : PyFunctionObject :=
  mkFunction (Some (mkCode ["self"; "item"] 2)) None (PyReturn Py_None)
    (fun _ _ => PyReturn Py_None).

Definition shelf_insert_at : PyFunctionObject :=
  mkFunction (Some (mkCode ["self"; "index"; "item"] 3)) None (PyReturn Py_None)
    (fun _ _ => PyReturn Py_None).

Definition shelf_move : PyFunctionObject :=
  mkFunction (Some (mkCode ["self"; "from_index"; "to_index"] 3)) None
    (PyReturn Py_None) (fun _ _ => PyReturn Py_None).

(** A built-in method descriptor: it has [__get__] but no [__code__]. *)
Definition shelf_builtin : PyFunctionObject :=
  mkFunction None None (PyReturn Py_None) (fun _ _ => PyReturn Py_None).

(** A method that always raises. *)
Definition shelf_raises : PyFunctionObject :=
  mkFunction (Some (mkCode ["self"; "index"] 2)) None (PyReturn Py_None)
    (fun _ _ => PyRaise (mkPyErr PyExc_ValueError "no room")).

Definition shelf_type : PyTypeObject :=
  mkType 20 "Shelf"
    [("add", Some (Attr_decorator Decorator_insert (Some 9%nat)));
     ("count", Some (Attr_function
                       (mkFunction (Some (mkCode ["self"] 1)) None
                          (PyReturn Py_None) (fun _ _ => PyReturn (PyLong 2)))));
     ("data", Some (Attr_function
                      (mkFunction (Some (mkCode ["self"] 1)) None
                         (PyReturn Py_None)
                         (fun _ _ => PyReturn (PyList [PyUnicode "a"; PyUnicode "b"])))))]
    true.

Definition shelf : Backend :=
  mkBackend 21 shelf_type
    (Some (mkDataMethod true (Some [])
             (PyReturn (PyList [PyUnicode "a"; PyUnicode "b"]))))
    (fun _ => None).

Definition shelf_model : AutoQmlBridgeModel :=
  mkModel (Some shelf) None DataType_List ∅ [] false.

(** The world after [bridge_instance(shelf, "shelf")]: the adapter lives at
    address 3 and the instance registry knows the backend. *)
Definition shelf_world : World :=
  mkWorld None [] [] {[ 3%nat := shelf_model ]} ∅
    {[ 21%nat := Some (mkBridge None (Some shelf) (Some shelf_type) (Some 3%nat)
                         BridgeMode_Instance DataType_List EmptyString) ]}
    ∅ ∅ ∅ [] [].

(** The world in which the [insert] decorator on [Shelf.add] was made by
    [insert.__new__(insert)] and so holds no wrapped function. *)
Definition unwrapped_world : World :=
  mkWorld None [] [] ∅ {[ 9%nat := mkDecorator None None ]} ∅ ∅ ∅ ∅ [] [].

(** A backend whose unannotated [data()] returns a [DataFrame]. *)
Definition frames : Backend :=
  mkBackend 11 (mkType 10 "Frames" [] true)
    (Some (mkDataMethod true (Some []) (PyReturn (PyInstance 12 "DataFrame" []))))
    (fun _ => None).

Definition frames_model : AutoQmlBridgeModel :=
  mkModel (Some frames) None DataType_Table ∅ [] false.

(** A backend whose [data()] returns [[True]]. *)
Definition flags_backend : Backend :=
  mkBackend 31 (mkType 30 "Flags" [] true)
    (Some (mkDataMethod true (Some []) (PyReturn (PyList [Py_True]))))
    (fun _ => None).

Definition flags_model : AutoQmlBridgeModel :=
  mkModel (Some flags_backend) None DataType_List ∅ [] false.

(** [@dataclass class Person: name: str; age: int] and
    [@dataclass class Empty: pass]. *)
Definition Person_fields : PyObject :=
  PyDict [(PyUnicode "name", Py_None); (PyUnicode "age", Py_None)].

Definition Person : PyObject :=
  PyType 40 "Person" [("__dataclass_fields__", Person_fields)].

Definition alice : PyObject :=
  PyInstance 41 "Person"
    [("__dataclass_fields__", Person_fields);
     ("name", PyUnicode "Alice"); ("age", PyLong 30)].

Definition Empty : PyObject :=
  PyType 42 "Empty" [("__dataclass_fields__", PyDict [])].

(** [def data(self) -> list[hint_arg]: return rows]. *)
Definition record_backend (hint_arg : PyObject) (rows : list PyObject) : Backend :=
  mkBackend 51 (mkType 50 "People" [] true)
    (Some (mkDataMethod true
             (Some [("return",
                     PyInstance 52 "types.GenericAlias"
                       [("__args__", PyTuple [hint_arg])])])
             (PyReturn (PyList rows))))
    (fun _ => None).

(** A forward reference: what [List["Person"]] has as its argument. *)
Definition forward_ref : PyObject := PyInstance 53 "ForwardRef" [].

(** A class without decorated methods, and [bridge_type(Plain,
    version=...)]. *)
Definition plain_type : PyTypeObject :=
  mkType 60 "Plain"
    [("count", Some (Attr_function
                       (mkFunction (Some (mkCode ["self"] 1)) None
                          (PyReturn Py_None) (fun _ _ => PyReturn (PyLong 2)))))]
    true.

Definition plain_args (version : option string)
  : AutoQmlBridgePrivate_.bridge_type_args :=
  AutoQmlBridgePrivate_.mkTypeArgs plain_type None version None None.

(** A decorator bound to a backend that neither registry knows. *)
Definition stray_decorator : UpdateQMLDecoratorPrivate :=
  mkDecorator (Some shelf_raises) (Some shelf).

(** A class [Echo] whose method [get] returns [r], declared [-> object]. *)
Definition echo_backend (r : PyObject) : Backend :=
  mkBackend 71 (mkType 70 "Echo" [] true) None
    (fun name =>
       if String.eqb name "get" then Some (fun _ => PyReturn r) else None).

Definition echo_model (r : PyObject) : AutoQmlBridgeModel :=
  mkModel (Some (echo_backend r))
    (Some (mkMetaObject "Echo" [] [] [] [mkMethod "get()" "get" 0 "QVariant"]))
    DataType_List ∅ [] false.

(** The fields of [Book]. *)
Definition three_fields : PyObject :=
  PyDict [(PyUnicode "title", Py_None); (PyUnicode "author", Py_None);
          (PyUnicode "year", Py_None)].

(** [@dataclass class Book: title: str; author: str; year: int], and an
    instance of it. *)
Definition Book : PyObject := PyType 44 "Book" [("__dataclass_fields__", three_fields)].

Definition dune : PyObject :=
  PyInstance 45 "Book"
    [("__dataclass_fields__", three_fields); ("title", PyUnicode "Dune");
     ("author", PyUnicode "Herbert"); ("year", PyLong 1965)].

(** An adapter over [[alice]], annotated [-> list[Person]]. *)
Definition people_model : AutoQmlBridgeModel :=
  mkModel (Some (record_backend Person [alice])) None DataType_DataClassList
    ∅ [] false.

(** An instance of [Empty]. *)
Definition nothing : PyObject :=
  PyInstance 43 "Empty" [("__dataclass_fields__", PyDict [])].

(** The world after [bridge_type(Plain)]. *)
Definition registered_once : World :=
  snd (@AutoQmlBridgePrivate_.bridge_type sample_libs (Some (plain_args None))
         empty_world).

(** *** Frames *)

(** [m] leaves the part [f] of the world as it is. *)
Definition preserves {A X : Type} (f : World -> X) (m : M A) : Prop :=
  forall w, f (snd (m w)) = f w.

(** *** Values that cross by value *)



(** The number of constructors of a generic value. *)
Fixpoint QVariant_size (v : QVariant) : nat :=
  match v with
  | QVariant_QVariantList l => S (list_sum (List.map QVariant_size l))
  | QVariant_QVariantMap m =>
      S (list_sum (List.map (fun kv => QVariant_size (snd kv)) m))
  | QVariant_JSArray l => S (list_sum (List.map QVariant_size l))
  | QVariant_JSValue v' => S (QVariant_size v')
  | _ => 1%nat
  end.

(** *** Results *)

(** Whatever [m] returns, in any world, satisfies [Q]. *)
Definition returns {A : Type} (Q : A -> Prop) (m : M A) : Prop :=
  forall w, Q (fst (m w)).

(** The name a bracket decorator passes to its helpers. *)
Definition bracket_name (k : BracketKind) : string :=
  match k with
  | Bracket_insert => "insert"
  | Bracket_remove => "remove"
  | Bracket_move => "move"
  | Bracket_reset => "reset"
  end.

(** The parameters the constructor of a bracket decorator insists on. *)
Definition required_parameters (k : BracketKind) : list string :=
  match k with
  | Bracket_remove => ["index"]
  | Bracket_move => ["from_index"; "to_index"]
  | Bracket_insert | Bracket_reset => []
  end.

(** What the bridge has registered: the adapters, the two identity
    registries, the capsules stored on types and what the QML engine
    knows. *)
Definition registries (w : World) :=
  (models w, s_bridgeMap w, s_typeModelMap w, type_handler w,
   type_metaobject w, qml_singletons w, qml_types w).

(** The private data of the decorator objects among the attributes of a
    type. *)
Fixpoint decorator_addresses (dirList : list (string * option ClassAttr))
  : list nat :=
  match dirList with
  | [] => []
  | (_, Some (Attr_decorator _ (Some pData))) :: rest =>
      pData :: decorator_addresses rest
  | _ :: rest => decorator_addresses rest
  end.

(** A decorator after [setBackendInstance(backend)]. *)
Definition rebound (backend : Backend) (d : UpdateQMLDecoratorPrivate)
  : UpdateQMLDecoratorPrivate :=
  mkDecorator (m_wrapped_func d) (Some backend).

(** *** More sample programs *)

(** A class [Echo] whose method [get] raises [KeyError]. *)
Definition failing_echo : Backend :=
  mkBackend 71 (mkType 70 "Echo" [] true) None
    (fun name =>
       if String.eqb name "get"
       then Some (fun _ => PyRaise (mkPyErr PyExc_KeyError "'x'"))
       else None).

(** [def count(self): return 2]. *)
Definition shelf_count : PyFunctionObject :=
  mkFunction (Some (mkCode ["self"] 1)) None (PyReturn Py_None)
    (fun _ _ => PyReturn (PyLong 2)).

(** A callable whose [__get__] raises. *)
Definition unbindable : PyFunctionObject :=
  mkFunction (Some (mkCode ["self"] 1)) None
    (PyRaise (mkPyErr PyExc_TypeError "descriptor needs an instance"))
    (fun _ _ => PyReturn Py_None).

(** [def data(self) -> "list[Point]": return [p]] with [p] a dataclass
    instance. *)
Definition points : Backend :=
  mkBackend 81 (mkType 80 "Points" [] true)
    (Some (mkDataMethod true (Some [("return", PyUnicode "list[Point]")])
             (PyReturn (PyList [PyInstance 82 "Point"
                                  [("__dataclass_fields__", PyDict [])]]))))
    (fun _ => None).

(** [def data(self) -> "list[bool]": raise KeyError]. *)
Definition broken_flags : Backend :=
  mkBackend 91 (mkType 90 "Flags" [] true)
    (Some (mkDataMethod true (Some [("return", PyUnicode "list[bool]")])
             (PyRaise (mkPyErr PyExc_KeyError "'flags'"))))
    (fun _ => None).

(** [def data(self): return []] on a class whose rows would be dataclass
    instances. *)
Definition empty_people : Backend :=
  mkBackend 51 (mkType 50 "People" [] true)
    (Some (mkDataMethod true (Some []) (PyReturn (PyList []))))
    (fun _ => None).

(** An engine that refuses every type. *)
Definition refusing_libs : ExternalLibs := {|
  PyObject_Str := @PyObject_Str sample_libs;
  convertToVariantList := @convertToVariantList sample_libs;
  convertToVariantMap := @convertToVariantMap sample_libs;
  copyToPython := @copyToPython sample_libs;
  QVersionNumber_fromString := @QVersionNumber_fromString sample_libs;
  qmlregister := fun _ _ _ _ => -1;
  QDebug_QByteArray := @QDebug_QByteArray sample_libs;
|}.

(** A type [Shelf] instantiated twice from QML, at 21 and at 22, with the
    adapters at 3 and 4. *)
Definition second_shelf : Backend :=
  mkBackend 22 shelf_type (backend_data shelf) (backend_method shelf).

Definition two_shelves : World :=
  mkWorld None [] [] ∅ {[ 9%nat := mkDecorator (Some shelf_add) None ]} ∅
    {[ 21%nat := Some 3%nat; 22%nat := Some 4%nat ]} ∅ ∅ [] [].

(** [str()] of the annotation [list[Plain]]. *)
Definition alias_libs : ExternalLibs := {|
  PyObject_Str := fun o =>
    match o with
    | PyInstance _ _ _ => Some "list[Plain]"
    | _ => @PyObject_Str sample_libs o
    end;
  convertToVariantList := @convertToVariantList sample_libs;
  convertToVariantMap := @convertToVariantMap sample_libs;
  copyToPython := @copyToPython sample_libs;
  QVersionNumber_fromString := @QVersionNumber_fromString sample_libs;
  qmlregister := @qmlregister sample_libs;
  QDebug_QByteArray := @QDebug_QByteArray sample_libs;
|}.

(** [@property def children(self) -> list[Plain]]. *)
Definition list_of_Plain : PyObject :=
  PyInstance 61 "types.GenericAlias" [("__args__", PyTuple [PyType 60 "Plain" []])].

Definition children_getter : PyObject :=
  PyInstance 62 "function"
    [("__annotations__", PyDict [(PyUnicode "return", list_of_Plain)])].

Definition children_property : PyObject :=
  PyInstance 63 "property" [("fget", children_getter)].

(** Two children of type [Shelf] made by QML, their adapters at 3 and 4,
    and the Python list at 100 that holds the first. *)
Definition children_world : PyQmlListProperty_.ListWorld :=
  PyQmlListProperty_.mkListWorld
    (mkWorld None [] []
       {[ 3%nat := mkModel (Some shelf) None DataType_List ∅ [] true;
          4%nat := mkModel (Some second_shelf) None DataType_List ∅ [] true ]}
       ∅ ∅ {[ 21%nat := Some 3%nat; 22%nat := Some 4%nat ]} ∅ ∅ [] [])
    {[ 100%nat := [21%nat] ]} [].

Definition children : PyQmlListProperty_.QQmlListProperty :=
  PyQmlListProperty_.mkListProperty
    (Some (PyQmlListProperty_.mkListData 100 (Some 7%nat) 0 "children")).

(** The same list, handed out by a second read of the property. *)
Definition children_again : PyQmlListProperty_.QQmlListProperty :=
  PyQmlListProperty_.mkListProperty
    (Some (PyQmlListProperty_.mkListData 100 (Some 7%nat) 0 "children")).

(** * Properties *)

Import AutoQmlBridgeModel_ AutoQmlBridgePrivate_.

(** ** Machine integers and C strings *)

Lemma static_cast_int_id v : in_int_range v -> static_cast_int v = v.
Proof.
  unfold in_int_range, INT_MIN, INT_MAX, static_cast_int. intros Hv.
  rewrite Z.mod_small; lia.
Qed.

Lemma static_cast_int_range v : in_int_range (static_cast_int v).
Proof.
  unfold in_int_range, INT_MIN, INT_MAX, static_cast_int.
  pose proof (Z.mod_pos_bound (v + 2 ^ 31) (2 ^ 32)). lia.
Qed.

Lemma int_in_long z :
  in_int_range z -> (LONG_MIN <=? z) && (z <=? LONG_MAX) = true.
Proof.
  unfold in_int_range, INT_MIN, INT_MAX, LONG_MIN, LONG_MAX. intros.
  apply andb_true_iff; split; apply Z.leb_le; lia.
Qed.

Lemma c_str_nul_free s : nul_free s = true -> c_str s = s.
Proof.
  induction s as [|c s IH]; simpl; [done|].
  destruct (Ascii.eqb c "000"%char); simpl; [done|].
  intros H. by rewrite IH.
Qed.

Lemma c_str_is_nul_free s : nul_free (c_str s) = true.
Proof.
  induction s as [|c s IH]; simpl; [done|].
  destruct (Ascii.eqb c "000"%char) eqn:E; simpl; [done|].
  by rewrite E, IH.
Qed.

Lemma c_str_idemp s : c_str (c_str s) = c_str s.
Proof. apply c_str_nul_free, c_str_is_nul_free. Qed.

Lemma eqb_neq_false (a b : string) : a <> b -> String.eqb a b = false.
Proof. intros. by apply String.eqb_neq. Qed.

(** ** Running the monad *)

Lemma bind_eq {A B} (m : M A) (f : A -> M B) w a w' :
  m w = (a, w') -> (m ≫= f) w = f a w'.
Proof. intros H. unfold mbind, M_bind. by rewrite H. Qed.

Ltac run :=
  unfold mbind, M_bind, mret, M_ret, emit, returning, PyErr_Occurred,
    PyErr_Set, PyErr_Restore, PyErr_Clear, qCWarning, qCCritical,
    logPythonException, logPythonException_exc, get_s_bridgeMap,
    get_s_typeModelMap in *;
  simpl in *.

(** ** Value marshaling *)




(** It fails as well for a string without a UTF-8 form: [toCString] gives
    the null pointer for it, the conversion gives the empty optional, and
    the string comes back as None. *)
Lemma roundtrip_string_without_utf8 :
  claimed_primitive (PyUnicode lone_surrogate)
  /\ nul_free lone_surrogate = true
  /\ toCString (PyUnicode lone_surrogate) = None
  /\ @pyObject2VariantOpt sample_libs (Some (PyUnicode lone_surrogate)) = None
  /\ @roundtrip sample_libs (PyUnicode lone_surrogate) = Some Py_None.
Proof. split; [constructor|]. repeat split. Qed.

#[local] Arguments pyObject2VariantOpt : simpl never.

(** C10.  [pyObject2VariantOpt] gives the empty optional for None, as it
    does for the null pointer and for a value it cannot convert; so when a
    method invoked from the UI has a declared return type other than void
    and returns None (or a value that cannot be converted), the call takes
    the conversion-failure path: one warning that the return value could
    not be converted is logged, the return slot keeps what it held, and
    nothing else changes besides the recorded call. *)
Theorem None_result_is_conversion_failure `{ExternalLibs}
  (this : AutoQmlBridgeModel) (id : Z) (args : list QVariant) (slot : QVariant)
  (w : World) (backend : Backend) (callable : list PyObject -> PyResult)
  (pyArgs : list PyObject) (result : PyObject) :
  let method := QMetaObject_method (m_dynamicMetaObject this) id in
  m_backend this = Some backend ->
  backend_method backend (method_name method) = Some callable ->
  convert_arguments (take (method_parameterCount method) args) = Some pyArgs ->
  callable pyArgs = PyReturn result ->
  result = Py_None \/ pyObject2VariantOpt (Some result) = None ->
  method_typeName method <> "void" ->
  method_typeName method <> EmptyString ->
  pyObject2VariantOpt (Some Py_None) = None /\
  pyObject2VariantOpt (Some Py_None) = pyObject2VariantOpt None /\
  qt_metacall_InvokeMetaMethod this id args (Some slot) w =
    ((id, Some slot),
     add_log
       (mkLog QtWarningMsg
          ("Failed to convert return value for method "
           +:+ QDebug_QByteArray (method_name method)
           +:+ " with return type " +:+ QDebug_QByteArray (method_typeName method)))
       (add_event (call_method (backend_addr backend) (method_name method) pyArgs) w)).
Proof.
  intros method Hb Hm Hargs Hcall Hres Hvoid Hempty.
  split; [done|]. split; [done|].
  assert (Hconv : pyObject2VariantOpt (Some result) = None).
  { destruct Hres as [->|]; done. }
  unfold qt_metacall_InvokeMetaMethod. fold method.
  rewrite Hb. simpl. rewrite Hm. simpl. rewrite Hargs.
  unfold mbind, M_bind, emit, returning. simpl. rewrite Hcall. simpl.
  rewrite (eqb_neq_false _ _ Hvoid), (eqb_neq_false _ _ Hempty). simpl.
  rewrite Hconv. reflexivity.
Qed.

Lemma None_result_is_conversion_failure_witness :
  m_backend (echo_model Py_None) = Some (echo_backend Py_None)
  /\ method_typeName
       (QMetaObject_method (m_dynamicMetaObject (echo_model Py_None)) 0)
     = "QVariant"
  /\ @qt_metacall_InvokeMetaMethod sample_libs (echo_model Py_None) 0 []
       (Some (QVariant_Int 5)) empty_world =
     ((0, Some (QVariant_Int 5)),
      add_log
        (mkLog QtWarningMsg
           ("Failed to convert return value for method "
            +:+ double_quote +:+ "get" +:+ double_quote
            +:+ " with return type "
            +:+ double_quote +:+ "QVariant" +:+ double_quote))
        (add_event (call_method 71 "get" []) empty_world)).
Proof.
  split; [reflexivity|]. split; [reflexivity|].
  exact (proj2 (proj2
    (@None_result_is_conversion_failure sample_libs (echo_model Py_None) 0 []
       (QVariant_Int 5) empty_world (echo_backend Py_None)
       (fun _ => PyReturn Py_None) [] Py_None eq_refl eq_refl eq_refl eq_refl
       (or_introl eq_refl) ltac:(discriminate) ltac:(discriminate)))).
Defined.

(** ** The model adapter: rows *)

(** C5, as amended.  [rowCount] yields 0 for a valid (non-root) parent
    and, next, for an adapter without a backend; for [Unknown] on a
    type-mode adapter it reports the usage error once, leaves no exception
    behind and yields 0; for [Table], and for [Unknown] on any other
    adapter, it yields 0; none of these calls [data()].  For [List] and
    [DataClassList] it calls [data()] once: when an exception is pending
    after the call, as it is when [data()] raised, that exception is logged
    and the result is 0; when none is, a result that is no list yields 0
    and a list yields its length as an [int], which is the length itself up
    to [INT_MAX]. *)
Theorem rowCount_cases (this : AutoQmlBridgeModel) (parent : QModelIndex)
  (w : World) :
  (index_isValid parent = true -> rowCount this parent w = (0, w)) /\
  (index_isValid parent = false -> m_backend this = None ->
   rowCount this parent w = (0, w)) /\
  (forall backend,
     index_isValid parent = false -> m_backend this = Some backend ->
     (m_datatype this = DataType_Unknown ->
      is_BridgePyTypeObjectModel this = true ->
      rowCount this parent w =
        (0, add_log
              (mkLog QtWarningMsg
                 ("AutoQmlBridgeModel::rowCount: " +:+
                  rowCount_usage_error (backend_type_name backend)))
              (set_err None w))) /\
     (m_datatype this = DataType_Table
      \/ (m_datatype this = DataType_Unknown /\
          is_BridgePyTypeObjectModel this = false) ->
      rowCount this parent w = (0, w)) /\
     (m_datatype this = DataType_List \/ m_datatype this = DataType_DataClassList ->
      let r := rowCount this parent w in
      let logged e :=
        fst r = 0
        /\ qt_log (snd r) =
           qt_log w ++
           [exception_record
              "AutoQmlBridgeModel::rowCount: error calling backend.data()" e] in
      trace (snd r) = trace w ++ [call_data (backend_addr backend)]
      /\ match data_result backend, err w with
         | PyRaise e, _ => logged e
         | _, Some e => logged e
         | PyReturn (PyList items), None =>
             r = (static_cast_int (Z.of_nat (length items)),
                  add_event (call_data (backend_addr backend)) w)
             /\ (Z.of_nat (length items) <= INT_MAX ->
                 fst r = Z.of_nat (length items))
         | _, None => r = (0, add_event (call_data (backend_addr backend)) w)
         end)).
Proof.
  destruct w as [e l t ms ds bm tm th tmo qs qt].
  split; [|split].
  - intros Hp. unfold rowCount. by rewrite Hp.
  - intros Hp Hb. unfold rowCount. by rewrite Hp, Hb.
  - intros backend Hp Hb. unfold rowCount. rewrite Hp, Hb. split; [|split].
    + intros Hd Ht. rewrite Hd, Ht. reflexivity.
    + intros [Hd|[Hd Ht]]; rewrite Hd; [|rewrite Ht]; reflexivity.
    + intros Hd.
      assert (E : DataType_eqb (m_datatype this) DataType_Unknown = false)
        by (destruct Hd as [-> | ->]; reflexivity).
      rewrite E. simpl.
      assert (Hint : forall n : nat,
                Z.of_nat n <= INT_MAX -> static_cast_int (Z.of_nat n) = Z.of_nat n).
      { intros n Hn. apply static_cast_int_id. unfold in_int_range, INT_MIN. lia. }
      destruct Hd as [Hd | Hd]; rewrite Hd; unfold PyObject_CallMethod_data; run;
        destruct (data_result backend) as [o|ex|]; destruct e as [e|]; simpl;
        try (destruct o; simpl); repeat split; auto.
Qed.

Lemma rowCount_cases_witness :
  index_isValid QModelIndex_root = false
  /\ m_backend shelf_model = Some shelf
  /\ m_datatype shelf_model = DataType_List
  /\ data_result shelf = PyReturn (PyList [PyUnicode "a"; PyUnicode "b"])
  /\ rowCount shelf_model QModelIndex_root empty_world =
     (2, add_event (call_data 21) empty_world).
Proof.
  repeat (split; [reflexivity|]).
  pose proof (rowCount_cases shelf_model QModelIndex_root empty_world)
    as (_ & _ & H).
  destruct (H shelf eq_refl eq_refl) as (_ & _ & Hl).
  exact (proj1 (proj2 (Hl (or_introl eq_refl)))).
Defined.

(** C5 as stated fails: [bridge_instance] classifies a backend whose
    [data()] returns a [DataFrame] as [Table]; on its adapter, which is not
    the [Unknown]-on-type-mode case, [rowCount] of the root yields 0
    without calling [data()]. *)
Lemma rowCount_Table_does_not_call_data :
  fst (@inferDataType sample_libs (Some frames) empty_world) = DataType_Table
  /\ index_isValid QModelIndex_root = false
  /\ m_datatype frames_model = DataType_Table
  /\ rowCount frames_model QModelIndex_root empty_world = (0, empty_world)
  /\ ~ In (call_data 11)
       (trace (snd (rowCount frames_model QModelIndex_root empty_world))).
Proof. repeat (split; [reflexivity|]). vm_compute. tauto. Qed.

(** What the statement above leaves open is what [rowCount] leaves in the
    error indicator after [data()] raised: the branch logs the exception
    and returns without the [PyErr_Clear] that the branch for the usage
    error has, so the exception is still pending, and it is what the next
    [rowCount], on any adapter, finds after its own call of [data()]. *)
Lemma rowCount_after_data_raised :
  let this := mkModel (Some broken_flags) None DataType_List ∅ [] false in
  let w := snd (rowCount this QModelIndex_root empty_world) in
  err w = Some (mkPyErr PyExc_KeyError "'flags'")
  /\ fst (rowCount shelf_model QModelIndex_root w) = 0
  /\ fst (rowCount shelf_model QModelIndex_root empty_world) = 2.
Proof. repeat split. Qed.

(** ** The model adapter: cells *)

(** What [data] makes of one element of a primitive list, by the element's
    runtime type. *)
Lemma data_List_item_cases `{ExternalLibs} :
  (forall s, data_List_item (PyUnicode s) =
             if has_surrogate s then QVariant_Invalid
             else QVariant_QString (c_str s)) /\
  (forall z, in_long_range z ->
             data_List_item (PyLong z) = QVariant_Int (static_cast_int z)) /\
  (forall d, data_List_item (PyFloat d) = QVariant_Double d) /\
  data_List_item Py_None = QVariant_Invalid /\
  (forall l, data_List_item (PyList l) = str_rendering (PyList l)).
Proof.
  repeat split; try done.
  - intros s. unfold data_List_item, QString_fromUtf8. simpl.
    destruct (has_surrogate s); [done|]. by rewrite c_str_idemp.
  - intros z [Hlo Hhi]. unfold data_List_item. simpl.
    destruct (LONG_MIN <=? z) eqn:E1; [|apply Z.leb_gt in E1; lia].
    destruct (z <=? LONG_MAX) eqn:E2; [done|apply Z.leb_gt in E2; lia].
Qed.

(** C7, where the code departs from it.  In [data] the test
    [PyLong_Check] comes before [PyBool_Check], and a Python bool is an
    int: a bool element of a primitive list is served as the integer 1 or
    0, never as a boolean, while [pyObject2VariantOpt], which tests for
    bool first, makes a boolean of the same value.  For the list [[True]]
    the cell at row 0 is the integer 1. *)
Theorem data_List_bool_is_served_as_int `{ExternalLibs} (b : bool) :
  data_List_item (PyBool b) = QVariant_Int (if b then 1 else 0)
  /\ pyObject2VariantOpt (Some (PyBool b)) = Some (QVariant_Bool b)
  /\ fst (data flags_model (createIndex 0 0) Qt_DisplayRole empty_world)
     = QVariant_Int 1.
Proof.
  split; [|split].
  - by destruct b.
  - by destruct b.
  - reflexivity.
Qed.

(** ** The model adapter: roles *)

Lemma keeps_ret {A} (a : A) : keeps_models (mret a).
Proof. by intros w. Qed.

Lemma keeps_bind {A B} (m : M A) (f : A -> M B) :
  keeps_models m -> (forall a, keeps_models (f a)) -> keeps_models (m ≫= f).
Proof.
  intros Hm Hf w. unfold mbind, M_bind. specialize (Hm w).
  destruct (m w) as [a w1]. simpl in Hm. by rewrite Hf.
Qed.

Ltac keeps_step :=
  match goal with
  | |- keeps_models (mret _) => apply keeps_ret
  | |- keeps_models (_ ≫= _) => apply keeps_bind; [|intros ?]
  | |- keeps_models (match ?x with _ => _ end) => destruct x
  | |- keeps_models (if ?x then _ else _) => destruct x
  | |- keeps_models _ => intros ?; reflexivity
  end.

Create HintDb keeps.

Ltac keeps_auto := repeat first [ solve [auto with keeps] | keeps_step ].

Lemma keeps_logPythonException c : keeps_models (logPythonException c).
Proof. unfold logPythonException, logPythonException_exc. keeps_auto. Qed.
Lemma keeps_returning r : keeps_models (returning r).
Proof. unfold returning. keeps_auto. Qed.
#[local] Hint Resolve keeps_logPythonException keeps_returning : keeps.
Lemma keeps_call_data b : keeps_models (PyObject_CallMethod_data b).
Proof. unfold PyObject_CallMethod_data. keeps_auto. Qed.
#[local] Hint Resolve keeps_call_data : keeps.
Lemma keeps_rowCount this parent : keeps_models (rowCount this parent).
Proof. unfold rowCount. keeps_auto. Qed.
Lemma keeps_convert_item `{ExternalLibs} item : keeps_models (convert_item item).
Proof. unfold convert_item. keeps_auto. Qed.
#[local] Hint Resolve keeps_convert_item : keeps.
Lemma keeps_data `{ExternalLibs} this index role : keeps_models (data this index role).
Proof. unfold data. keeps_auto. Qed.

(** The role map [setupDataClassRoles] builds: field [i] sits at
    [baseRole + i], and nothing sits elsewhere. *)
Lemma assign_roles_lookup names : forall i roles k,
  assign_roles i names roles !! k =
  if decide (baseRole + i <= k < baseRole + i + Z.of_nat (length names))
  then names !! Z.to_nat (k - baseRole - i)
  else roles !! k.
Proof.
  induction names as [|n names IH]; intros i roles k; simpl assign_roles.
  - case_decide; [simpl in *; lia | done].
  - rewrite IH. rewrite length_cons.
    case_decide as H1; case_decide as H2; try lia.
    + replace (Z.to_nat (k - baseRole - i)) with (S (Z.to_nat (k - baseRole - (i + 1))))
        by lia. done.
    + assert (k = baseRole + i) as -> by lia.
      rewrite lookup_insert_eq.
      by replace (baseRole + i - baseRole - i) with 0 by lia.
    + rewrite lookup_insert_ne by lia. done.
Qed.

Lemma assign_roles_empty names :
  assign_roles 0 names ∅ = ∅ <-> names = [].
Proof.
  split; [|by intros ->].
  destruct names as [|n names]; [done|]. intros H.
  assert (E : assign_roles 0 (n :: names) ∅ !! baseRole = Some n).
  { rewrite assign_roles_lookup, length_cons. case_decide; [|lia].
    by replace (baseRole - baseRole - 0) with 0 by lia. }
  by rewrite H in E.
Qed.

Lemma endReset_roles_stable this w :
  m_datatype this <> DataType_DataClassList \/ m_dataClassRoles this <> ∅ ->
  endReset_roles this w = (this, w).
Proof.
  intros H. unfold endReset_roles.
  destruct H as [H|H].
  - destruct (m_datatype this); done.
  - rewrite (bool_decide_eq_false_2 _ H). by rewrite andb_false_r.
Qed.

Lemma adapter_call_stable `{ExternalLibs} p c m w :
  models w !! p = Some m ->
  m_datatype m <> DataType_DataClassList \/ m_dataClassRoles m <> ∅ ->
  models (snd (adapter_call p c w)) !! p = Some m.
Proof.
  intros Hm Hs. destruct c as [pa|ix role| | | | | | | | |]; simpl; try done.
  - unfold rowCount_at, mbind, M_bind. rewrite Hm.
    pose proof (keeps_rowCount m pa w) as K.
    destruct (rowCount m pa w). simpl in *. by rewrite K.
  - unfold data_at, mbind, M_bind. rewrite Hm.
    pose proof (keeps_data m ix role w) as K.
    destruct (data m ix role w). simpl in *. by rewrite K.
  - unfold endReset, endReset_at, mbind, M_bind. rewrite Hm.
    rewrite (endReset_roles_stable m w Hs). simpl.
    by rewrite lookup_insert_eq.
Qed.

Lemma adapter_calls_stable `{ExternalLibs} p cs : forall m w,
  models w !! p = Some m ->
  m_datatype m <> DataType_DataClassList \/ m_dataClassRoles m <> ∅ ->
  models (snd (adapter_calls p cs w)) !! p = Some m.
Proof.
  induction cs as [|c cs IH]; intros m w Hm Hs; simpl; [done|].
  unfold mbind, M_bind.
  pose proof (adapter_call_stable p c m w Hm Hs) as K.
  destruct (adapter_call p c w) as [u w1]. simpl in K. by apply IH.
Qed.

Lemma field_names_of_record o names w :
  has_fields o names ->
  getDataClassFieldNames_of (Some o) w = (names, w).
Proof.
  intros (fields & Hg & Hk & Hn). unfold getDataClassFieldNames_of. rewrite Hg.
  simpl. f_equal. clear Hg. revert fields Hk.
  induction Hn as [|n names Hn _ IH]; intros [|[k v] fields] Hk; try done.
  simpl in Hk. injection Hk as -> Hk. simpl.
  unfold field_name in Hn. apply andb_true_iff in Hn as [Hnul Hsur].
  apply negb_true_iff in Hsur. rewrite Hsur. simpl.
  unfold QString_fromUtf8. rewrite c_str_idemp, (c_str_nul_free n Hnul).
  f_equal. by apply IH.
Qed.

Lemma annotation_argument_Some hint T :
  annotation_argument hint = Some T ->
  exists more, getattr hint "__args__" = Some (PyTuple (T :: more))
               /\ PyType_Check T = true.
Proof.
  unfold annotation_argument. intros H.
  destruct (getattr hint "__args__") as [[| | | | | |[|T' more]| | |]|]; try done.
  destruct (PyType_Check T') eqn:E; [|done]. injection H as ->. by exists more.
Qed.

Lemma getDataClassFieldNames_found `{ExternalLibs} this backend w names :
  m_dataClassFieldNames this = [] ->
  m_datatype this = DataType_DataClassList ->
  m_backend this = Some backend ->
  record_type_found backend w names ->
  fst (getDataClassFieldNames this w) = names.
Proof.
  intros Hf Hd Hb Hfound. unfold getDataClassFieldNames.
  rewrite Hf, Hd, Hb. simpl. unfold getDataMethodReturnTypeHint.
  destruct Hfound as [dm ann hint T Hdm Hann Hret Harg Hfields Hne
                     |dm ann row rest Hdm Hann Hret Hcall Hfields].
  - rewrite Hdm, Hann, Hret. run.
    apply annotation_argument_Some in Harg as (more & Hargs & Hty).
    unfold PyObject_GetAttrString. rewrite Hargs. run. rewrite Hty.
    rewrite (field_names_of_record T names _ Hfields).
    destruct names; [done|]. by run.
  - rewrite Hdm, Hann.
    assert (Hrows : forall w1, err w1 = None ->
      fst ((data ← PyObject_CallMethod_data backend;
            e ← PyErr_Occurred;
            match e with
            | Some _ =>
                logPythonException
                  "AutoQmlBridgeModel::getDataClassFieldNames: error calling backend.data()" ;;
                mret []
            | None =>
                match data with
                | Some (PyList (firstItem :: _)) =>
                    getDataClassFieldNames_of (Some firstItem)
                | _ => mret []
                end
            end) w1) = names).
    { intros w1 He. unfold PyObject_CallMethod_data, data_result.
      rewrite Hdm, Hcall. run. rewrite He.
      by rewrite (field_names_of_record row names _ Hfields). }
    destruct (PyDict_GetItemString ann "return") as [hint|].
    + rewrite bind_eq with (a := Some hint) (w' := w) by done. cbv beta iota.
      unfold annotation_argument in Hret. unfold PyObject_GetAttrString.
      destruct (getattr hint "__args__") as [[| | | | | |[|T' more]| | |]|];
        try (rewrite bind_eq with (a := []) (w' := set_err None w);
             [by apply Hrows | by run]).
      rewrite bind_eq with (a := []) (w' := set_err None w);
        [by apply Hrows|].
      rewrite bind_eq with (a := Some (PyTuple (T' :: more))) (w' := w) by done.
      cbv beta iota. destruct (PyType_Check T'); [|by run].
      destruct Hret as [Hnone|(fields & Hg & Hk & _)].
      * rewrite Hnone. by run.
      * rewrite Hg. destruct fields; [by run | done].
    + rewrite bind_eq with (a := None) (w' := w) by done. cbv beta iota.
      rewrite bind_eq with (a := []) (w' := w) by done. by apply Hrows.
Qed.

Lemma setupDataClassRoles_found `{ExternalLibs} this backend w names :
  m_dataClassFieldNames this = [] ->
  m_datatype this = DataType_DataClassList ->
  m_backend this = Some backend ->
  record_type_found backend w names ->
  let this' := fst (setupDataClassRoles this w) in
  m_datatype this' = DataType_DataClassList
  /\ m_dataClassFieldNames this' = names
  /\ m_dataClassRoles this' = assign_roles 0 names ∅.
Proof.
  intros Hf Hd Hb Hfound.
  pose proof (getDataClassFieldNames_found this backend w names Hf Hd Hb Hfound) as E.
  unfold setupDataClassRoles, mbind, M_bind.
  destruct (getDataClassFieldNames this w) as [fieldNames w1]. simpl in *.
  by subst fieldNames.
Qed.

Lemma roles_derived_found `{ExternalLibs} backend w this names :
  roles_derived backend w this ->
  record_type_found backend w names ->
  m_datatype this = DataType_DataClassList
  /\ m_dataClassFieldNames this = names
  /\ m_dataClassRoles this = assign_roles 0 names ∅.
Proof.
  intros [[mo ->]|(before & Hb & Hd & Hr & ->)] Hfound.
  - unfold construct. simpl. by apply (setupDataClassRoles_found _ backend).
  - unfold endReset_roles. rewrite Hd, Hr. simpl.
    by apply (setupDataClassRoles_found _ backend).
Qed.

(** C6, as amended.  Let the record type of a [DataClassList] adapter have
    the fields [names], N of them, and be found where the adapter looks for
    it when its roles are derived (by the constructor, or by [endReset]
    while the role map is empty): in the return annotation of [data()], or
    in the first row that [data()] returns.  If N >= 1, [roleNames()] maps
    exactly the ids [UserRole+1000 .. UserRole+1000+N-1], in the order of
    the fields, to their names, and every later sequence of queries and
    structural-change wrappers, resets included, leaves that mapping as it
    is.  If N = 0, and whenever no field name has been found,
    [roleNames()] is [{DisplayRole -> display}].  For a [List] adapter
    [roleNames()] is [{DisplayRole -> display}], whatever is called on
    it. *)
Theorem dataclass_roles_follow_fields_and_stay `{ExternalLibs}
  (backend : Backend) (w : World) :
  (forall (names : list string) (this : AutoQmlBridgeModel),
     record_type_found backend w names ->
     roles_derived backend w this ->
     (names <> [] ->
      (forall i : nat,
         roleNames this !! (Qt_UserRole + 1000 + Z.of_nat i) = names !! i)
      /\ (forall k, k < Qt_UserRole + 1000 \/
                    Qt_UserRole + 1000 + Z.of_nat (length names) <= k ->
                    roleNames this !! k = None)
      /\ (forall (p : nat) (cs : list AdapterCall) (w' : World),
            models w' !! p = Some this ->
            roleNames_at p (snd (adapter_calls p cs w')) = Some (roleNames this)))
     /\ (names = [] -> roleNames this = {[ Qt_DisplayRole := "display" ]}))
  /\ (forall this : AutoQmlBridgeModel,
        m_datatype this = DataType_DataClassList ->
        m_dataClassRoles this = ∅ ->
        roleNames this = {[ Qt_DisplayRole := "display" ]})
  /\ (forall this : AutoQmlBridgeModel,
        m_datatype this = DataType_List ->
        roleNames this = {[ Qt_DisplayRole := "display" ]}
        /\ forall (p : nat) (cs : list AdapterCall) (w' : World),
             models w' !! p = Some this ->
             roleNames_at p (snd (adapter_calls p cs w')) = Some (roleNames this)).
Proof.
  split; [|split].
  - intros names this Hfound Hder.
    destruct (roles_derived_found backend w this names Hder Hfound)
      as (Hd & _ & Hroles).
    split.
    + intros Hn.
      assert (Hne : m_dataClassRoles this <> ∅).
      { intros E. rewrite Hroles in E. by apply assign_roles_empty in E. }
      unfold roleNames at 1 2. rewrite Hd.
      rewrite (bool_decide_eq_false_2 _ Hne). simpl. rewrite Hroles.
      split; [|split].
      * intros i. rewrite assign_roles_lookup. unfold baseRole.
        case_decide as Hi.
        -- f_equal. lia.
        -- rewrite lookup_empty. symmetry. apply lookup_ge_None. lia.
      * intros k Hk. rewrite assign_roles_lookup. unfold baseRole.
        case_decide; [lia | apply lookup_empty].
      * intros p cs w' Hm. unfold roleNames_at.
        by rewrite (adapter_calls_stable p cs this w' Hm (or_intror Hne)).
    + intros ->. unfold roleNames. by rewrite Hd, Hroles.
  - intros this Hd Hr. unfold roleNames. by rewrite Hd, Hr.
  - intros this Hd. split.
    + unfold roleNames. by rewrite Hd.
    + intros p cs w' Hm. unfold roleNames_at.
      rewrite (adapter_calls_stable p cs this w' Hm); [done|].
      left. by rewrite Hd.
Qed.

Lemma dataclass_roles_follow_fields_and_stay_witness :
  let by_hint := fst (construct (Some (record_backend Book [])) None
                        DataType_DataClassList empty_world) in
  let by_row := fst (construct (Some (record_backend forward_ref [dune])) None
                       DataType_DataClassList empty_world) in
  record_type_found (record_backend Book []) empty_world ["title"; "author"; "year"]
  /\ record_type_found (record_backend forward_ref [dune]) empty_world
       ["title"; "author"; "year"]
  /\ roleNames by_hint !! (Qt_UserRole + 1000 + Z.of_nat 2) = Some "year"
  /\ roleNames by_hint !! (Qt_UserRole + 1000 + 3) = None
  /\ roleNames by_row !! (Qt_UserRole + 1000 + Z.of_nat 2) = Some "year".
Proof.
  intros by_hint by_row.
  assert (Hbook : forall o, getattr o "__dataclass_fields__" = Some three_fields ->
                            has_fields o ["title"; "author"; "year"]).
  { intros o Ho. exists [(PyUnicode "title", Py_None); (PyUnicode "author", Py_None);
                         (PyUnicode "year", Py_None)].
    split; [exact Ho|]. split; [reflexivity|]. repeat constructor. }
  assert (Hhint : record_type_found (record_backend Book []) empty_world
                    ["title"; "author"; "year"]).
  { eapply found_by_annotation with (T := Book); try reflexivity.
    - by apply Hbook.
    - discriminate. }
  assert (Hrow : record_type_found (record_backend forward_ref [dune]) empty_world
                   ["title"; "author"; "year"]).
  { eapply found_by_first_row with (row := dune);
      first [reflexivity | exact I | by apply Hbook]. }
  split; [exact Hhint|]. split; [exact Hrow|].
  assert (Hne : ["title"; "author"; "year"] <> ([] : list string)) by discriminate.
  destruct (@dataclass_roles_follow_fields_and_stay sample_libs
              (record_backend Book []) empty_world) as [H1 _].
  destruct (H1 _ by_hint Hhint (or_introl (ex_intro _ None eq_refl)))
    as [Hroles _].
  destruct (Hroles Hne) as (Hin & Hout & _).
  destruct (@dataclass_roles_follow_fields_and_stay sample_libs
              (record_backend forward_ref [dune]) empty_world) as [H2 _].
  destruct (H2 _ by_row Hrow (or_introl (ex_intro _ None eq_refl)))
    as [Hroles2 _].
  destruct (Hroles2 Hne) as (Hin2 & _).
  split; [exact (Hin 2%nat)|]. split; [|exact (Hin2 2%nat)].
  apply Hout. right. vm_compute. discriminate.
Defined.

(** C6 as stated fails where no field name is at hand: for a record type
    without fields (N = 0) the role ids are not the empty set but
    [{DisplayRole}], and for a record type with two fields whose adapter was
    built over empty data and a forward-reference annotation they are
    [{DisplayRole}] as well, until a reset finds the two names. *)
Lemma roleNames_without_fields_is_display :
  roleNames (fst (construct (Some (record_backend Empty [nothing])) None
                    DataType_DataClassList empty_world))
    = {[ Qt_DisplayRole := "display" ]}
  /\ roleNames (fst (construct (Some (record_backend forward_ref [])) None
                       DataType_DataClassList empty_world))
       = {[ Qt_DisplayRole := "display" ]}
  /\ roleNames (fst (endReset_roles
                       (mkModel (Some (record_backend forward_ref [alice])) None
                          DataType_DataClassList ∅ [] false) empty_world))
       = {[ 1256 := "name"; 1257 := "age" ]}.
Proof. repeat split; vm_compute; reflexivity. Qed.

(** ** The bracket decorators: what reaches the trace *)

(** Bracket runs compose. *)
Lemma bracket_run_app s es1 es2 :
  bracket_run s (es1 ++ es2) =
  match bracket_run s es1 with
  | Some s' => bracket_run s' es2
  | None => None
  end.
Proof.
  revert s. induction es1 as [|e es1 IH]; intros s; simpl; [done|].
  destruct (bracket_step s e); [apply IH | done].
Qed.

Lemma runs_ret {A} s (a : A) : runs s s (mret a).
Proof. intros w. exists []. simpl. by rewrite app_nil_r. Qed.

Lemma runs_bind {A B} s1 s2 s3 (m : M A) (f : A -> M B) :
  runs s1 s2 m -> (forall a, runs s2 s3 (f a)) -> runs s1 s3 (m ≫= f).
Proof.
  intros Hm Hf w. unfold mbind, M_bind.
  destruct (Hm w) as (es1 & E1 & R1). destruct (m w) as [a w1]. simpl in E1.
  destruct (Hf a w1) as (es2 & E2 & R2).
  exists (es1 ++ es2). split.
  - by rewrite E2, E1, app_assoc.
  - by rewrite bracket_run_app, R1.
Qed.

Lemma silent_runs {A} s (m : M A) : silent m -> runs s s m.
Proof. intros Hm w. exists []. by rewrite Hm, app_nil_r. Qed.

Lemma runs_emit s s' e : bracket_step s e = Some s' -> runs s s' (emit e).
Proof. intros H w. exists [e]. simpl. by rewrite H. Qed.

Lemma neutral_ret {A} (a : A) : neutral (mret a).
Proof. intros s. apply runs_ret. Qed.

Lemma neutral_bind {A B} (m : M A) (f : A -> M B) :
  neutral m -> (forall a, neutral (f a)) -> neutral (m ≫= f).
Proof. intros Hm Hf s. eapply runs_bind; [apply Hm | intros; apply Hf]. Qed.

Lemma neutral_silent {A} (m : M A) : silent m -> neutral m.
Proof. intros H s. by apply silent_runs. Qed.

Lemma neutral_emit e : begin_of e = None -> end_of e = None -> neutral (emit e).
Proof.
  intros Hb He s. apply runs_emit. unfold bracket_step. by rewrite Hb, He.
Qed.

Lemma neutral_runs {A} s (m : M A) : neutral m -> runs s s m.
Proof. intros H. apply H. Qed.

(** Solves [neutral m] for straight-line code over the primitives. *)
Ltac neutral_step :=
  match goal with
  | |- neutral (mret _) => apply neutral_ret
  | |- neutral (_ ≫= _) => apply neutral_bind; [|intros ?]
  | |- neutral (emit _) => apply neutral_emit; reflexivity
  | |- neutral (match ?x with _ => _ end) => destruct x
  | |- neutral (if ?x then _ else _) => destruct x
  | |- neutral _ => apply neutral_silent; intros ?; reflexivity
  end.

Ltac neutral_tac := repeat neutral_step.

Lemma neutral_logPythonException c : neutral (logPythonException c).
Proof. unfold logPythonException, logPythonException_exc. neutral_tac. Qed.

Lemma neutral_returning r : neutral (returning r).
Proof. unfold returning. neutral_tac. Qed.

Lemma neutral_call_data b : neutral (PyObject_CallMethod_data b).
Proof.
  unfold PyObject_CallMethod_data.
  apply neutral_bind; [apply neutral_emit; reflexivity | intros; apply neutral_returning].
Qed.

Create HintDb neutral.
#[local] Hint Resolve neutral_logPythonException neutral_returning
  neutral_call_data : neutral.

Ltac neutral_auto :=
  repeat first [ solve [auto with neutral] | neutral_step ].

Lemma neutral_rowCount this parent : neutral (rowCount this parent).
Proof. unfold rowCount. neutral_auto. Qed.

Lemma neutral_getDataClassFieldNames_of o : neutral (getDataClassFieldNames_of o).
Proof. unfold getDataClassFieldNames_of. neutral_auto. Qed.

Lemma neutral_getDataMethodReturnTypeHint b : neutral (getDataMethodReturnTypeHint b).
Proof. unfold getDataMethodReturnTypeHint. neutral_auto. Qed.

Lemma neutral_PyObject_GetAttrString o n : neutral (PyObject_GetAttrString o n).
Proof. unfold PyObject_GetAttrString. neutral_auto. Qed.

#[local] Hint Resolve neutral_getDataClassFieldNames_of
  neutral_getDataMethodReturnTypeHint neutral_PyObject_GetAttrString : neutral.

Lemma neutral_getDataClassFieldNames this : neutral (getDataClassFieldNames this).
Proof. unfold getDataClassFieldNames. neutral_auto. Qed.

#[local] Hint Resolve neutral_getDataClassFieldNames neutral_rowCount : neutral.

Lemma neutral_setupDataClassRoles this : neutral (setupDataClassRoles this).
Proof. unfold setupDataClassRoles. neutral_auto. Qed.

#[local] Hint Resolve neutral_setupDataClassRoles : neutral.

Lemma neutral_endReset_roles this : neutral (endReset_roles this).
Proof. unfold endReset_roles. neutral_auto. Qed.

Lemma neutral_endReset_at p : neutral (endReset_at p).
Proof.
  intros s w. unfold endReset_at.
  destruct (models w !! p) as [m|]; [|exists []; simpl; by rewrite app_nil_r].
  destruct (neutral_endReset_roles m s w) as (es & E & R).
  destruct (endReset_roles m w) as [m' w']. simpl in *. by exists es.
Qed.

Lemma neutral_rowCount_at p parent : neutral (rowCount_at p parent).
Proof.
  intros s w. unfold rowCount_at.
  destruct (models w !! p) as [m|]; [apply neutral_rowCount|].
  exists []. simpl. by rewrite app_nil_r.
Qed.

Lemma neutral_validateDecoratorState d n : neutral (validateDecoratorState d n).
Proof. unfold validateDecoratorState. neutral_auto. Qed.

Lemma neutral_getModelForDecorator d : neutral (getModelForDecorator d).
Proof. unfold getModelForDecorator. neutral_auto. Qed.

Lemma neutral_createBoundMethod f b : neutral (createBoundMethod f b).
Proof. unfold createBoundMethod. neutral_auto. Qed.

Lemma neutral_extractArgumentByName f a k n r :
  neutral (extractArgumentByName f a k n r).
Proof. unfold extractArgumentByName. neutral_auto. Qed.

Lemma neutral_PyLong_AsLong_M o : neutral (PyLong_AsLong_M o).
Proof. unfold PyLong_AsLong_M. neutral_auto. Qed.

Lemma neutral_PyObject_Call f a k : neutral (PyObject_Call f a k).
Proof. unfold PyObject_Call. neutral_auto. Qed.

Lemma neutral_wrapped_result c r : neutral (wrapped_result c r).
Proof. unfold wrapped_result. neutral_auto. Qed.

#[local] Hint Resolve neutral_endReset_at neutral_rowCount_at
  neutral_validateDecoratorState neutral_getModelForDecorator
  neutral_createBoundMethod neutral_extractArgumentByName
  neutral_PyLong_AsLong_M neutral_PyObject_Call neutral_wrapped_result : neutral.

Lemma bracket_end k p :
  BracketKind_eqb k k && Nat.eqb p p = true.
Proof. rewrite Nat.eqb_refl. by destruct k. Qed.

Lemma runs_startInsert p a b :
  runs None (Some (Bracket_insert, p)) (startInsert p a b).
Proof. by apply runs_emit. Qed.
Lemma runs_finishInsert p : runs (Some (Bracket_insert, p)) None (finishInsert p).
Proof. apply runs_emit. unfold bracket_step. simpl. by rewrite Nat.eqb_refl. Qed.
Lemma runs_startRemove p a b :
  runs None (Some (Bracket_remove, p)) (startRemove p a b).
Proof. by apply runs_emit. Qed.
Lemma runs_finishRemove p : runs (Some (Bracket_remove, p)) None (finishRemove p).
Proof. apply runs_emit. unfold bracket_step. simpl. by rewrite Nat.eqb_refl. Qed.
Lemma runs_startMove p a b c :
  runs None (Some (Bracket_move, p)) (startMove p a b c).
Proof. by apply runs_emit. Qed.
Lemma runs_finishMove p : runs (Some (Bracket_move, p)) None (finishMove p).
Proof. apply runs_emit. unfold bracket_step. simpl. by rewrite Nat.eqb_refl. Qed.
Lemma runs_startReset p : runs None (Some (Bracket_reset, p)) (startReset p).
Proof. by apply runs_emit. Qed.
Lemma runs_endReset p : runs (Some (Bracket_reset, p)) None (endReset p).
Proof.
  unfold endReset. eapply runs_bind; [apply neutral_runs, neutral_endReset_at|].
  intros _. apply runs_emit. unfold bracket_step. simpl. by rewrite Nat.eqb_refl.
Qed.

Ltac runs_step :=
  match goal with
  | |- runs ?s ?s (mret _) => apply runs_ret
  | |- runs _ _ (startInsert _ _ _ ≫= _) =>
      eapply runs_bind; [apply runs_startInsert | intros ?]
  | |- runs _ _ (finishInsert _ ≫= _) =>
      eapply runs_bind; [apply runs_finishInsert | intros ?]
  | |- runs _ _ (startRemove _ _ _ ≫= _) =>
      eapply runs_bind; [apply runs_startRemove | intros ?]
  | |- runs _ _ (finishRemove _ ≫= _) =>
      eapply runs_bind; [apply runs_finishRemove | intros ?]
  | |- runs _ _ (startMove _ _ _ _ ≫= _) =>
      eapply runs_bind; [apply runs_startMove | intros ?]
  | |- runs _ _ (finishMove _ ≫= _) =>
      eapply runs_bind; [apply runs_finishMove | intros ?]
  | |- runs _ _ (startReset _ ≫= _) =>
      eapply runs_bind; [apply runs_startReset | intros ?]
  | |- runs _ _ (endReset _ ≫= _) =>
      eapply runs_bind; [apply runs_endReset | intros ?]
  | |- runs ?s _ (_ ≫= _) =>
      apply (runs_bind s s); [apply neutral_runs; solve [neutral_auto] | intros ?]
  | |- runs _ _ (match ?x with _ => _ end) => destruct x
  | |- runs ?s ?s _ => apply neutral_runs; solve [neutral_auto]
  end.

Lemma insert_runs this args kwds :
  runs None None (InsertDecoratorPrivate.tp_call this args kwds).
Proof. unfold InsertDecoratorPrivate.tp_call. repeat runs_step. Qed.

Lemma remove_runs this args kwds :
  runs None None (RemoveDecoratorPrivate.tp_call this args kwds).
Proof. unfold RemoveDecoratorPrivate.tp_call. repeat runs_step. Qed.

Lemma move_runs this args kwds :
  runs None None (MoveDecoratorPrivate.tp_call this args kwds).
Proof. unfold MoveDecoratorPrivate.tp_call. repeat runs_step. Qed.

Lemma reset_runs this args kwds :
  runs None None (ResetDecoratorPrivate.tp_call this args kwds).
Proof. unfold ResetDecoratorPrivate.tp_call. repeat runs_step. Qed.

(** A decorator whose model cannot be resolved gives up before anything
    reaches the trace. *)
Lemma unresolved_model_aborts k this args kwds w :
  fst (getModelForDecorator this w) = None ->
  fst (bracket_tp_call k this args kwds w) = None /\
  is_Some (err (snd (bracket_tp_call k this args kwds w))) /\
  trace (snd (bracket_tp_call k this args kwds w)) = trace w.
Proof.
  intros Hm.
  destruct this as [[wf|] [b|]]; destruct k;
    unfold bracket_tp_call, InsertDecoratorPrivate.tp_call,
      RemoveDecoratorPrivate.tp_call, MoveDecoratorPrivate.tp_call,
      ResetDecoratorPrivate.tp_call, validateDecoratorState,
      getModelForDecorator in *; run;
    repeat case_match; simplify_eq/=; eauto.
Qed.

(** C1.  Whatever a call of [insert], [remove], [move] or [reset] makes of
    its arguments, its registries and its wrapped method (which may raise,
    or fail to bind), the calls it makes on the model are bracketed: every
    begin primitive it invokes is followed, before it returns, by the
    matching end primitive on the same adapter, with no other begin or end
    in between.  And when neither registry yields a model for the
    decorator, the call returns the null pointer with a Python error set
    and leaves the trace as it was: no begin primitive and no call of the
    wrapped method. *)
Theorem bracket_decorators_close_what_they_open (k : BracketKind)
  (this : UpdateQMLDecoratorPrivate) (args : list PyObject)
  (kwds : option (list (string * PyObject))) (w : World) :
  (exists es,
     trace (snd (bracket_tp_call k this args kwds w)) = trace w ++ es
     /\ brackets_closed es)
  /\ (fst (getModelForDecorator this w) = None ->
      fst (bracket_tp_call k this args kwds w) = None
      /\ is_Some (err (snd (bracket_tp_call k this args kwds w)))
      /\ trace (snd (bracket_tp_call k this args kwds w)) = trace w).
Proof.
  split.
  - destruct k; simpl.
    + apply insert_runs.
    + apply remove_runs.
    + apply move_runs.
    + apply reset_runs.
  - apply unresolved_model_aborts.
Qed.

Lemma bracket_decorators_close_what_they_open_witness :
  fst (getModelForDecorator stray_decorator empty_world) = None
  /\ fst (bracket_tp_call Bracket_remove stray_decorator [PyLong 0] None empty_world)
     = None
  /\ is_Some (err (snd (bracket_tp_call Bracket_remove stray_decorator [PyLong 0]
                          None empty_world)))
  /\ trace (snd (bracket_tp_call Bracket_remove stray_decorator [PyLong 0] None
                   empty_world)) = trace empty_world.
Proof.
  split; [reflexivity|].
  apply (proj2 (bracket_decorators_close_what_they_open Bracket_remove
                  stray_decorator [PyLong 0] None empty_world)).
  reflexivity.
Defined.

(** A wrapped method that raises: the bracket is still closed. *)
Example remove_closes_when_the_method_raises :
  trace (snd (RemoveDecoratorPrivate.tp_call
                (mkDecorator (Some shelf_raises) (Some shelf))
                [PyLong 1] None shelf_world)) =
  [beginRemoveRows 3 1 1; call_get 21; call_wrapped [PyLong 1] None;
   endRemoveRows 3].
Proof. reflexivity. Qed.

(** ** The bracket decorators: arguments by name *)

Lemma find_arg_pos_lookup names name i j :
  find_arg_pos names name i = Some j ->
  (i <= j)%nat /\ exists n, names !! (j - i)%nat = Some n /\ qstrcmp_eq n name = true.
Proof.
  revert i. induction names as [|n names IH]; intros i; simpl; [done|].
  destruct (qstrcmp_eq n name) eqn:E.
  - intros [= <-]. split; [lia|]. exists n. by rewrite Nat.sub_diag.
  - intros H. destruct (IH _ H) as (Hle & n' & Hn & Hq). split; [lia|].
    exists n'. split; [|done].
    replace (j - i)%nat with (S (j - S i)) by lia. done.
Qed.

Lemma not_supplied_argument_by_name f args kwds name :
  (forall v, ~ supplied f args kwds name v) ->
  argument_by_name f args kwds name = None.
Proof.
  intros Hno. unfold argument_by_name.
  destruct (func_code f) as [code|] eqn:Hc; [|done].
  destruct (find_arg_pos _ name 0) as [[|p]|] eqn:Hp; simpl.
  - destruct kwds as [d|]; [|done].
    destruct (PyDict_GetItemString d name) as [v|] eqn:Hk; [|done].
    exfalso. apply (Hno v). right. by exists d.
  - destruct (args !! p) as [v|] eqn:Ha.
    + exfalso. apply (Hno v). left.
      destruct (find_arg_pos_lookup _ _ _ _ Hp) as (_ & n & Hn & Hq).
      exists p, n. unfold parameter_names. rewrite Hc.
      by rewrite Nat.sub_0_r in Hn.
    + destruct kwds as [d|]; [|done].
      destruct (PyDict_GetItemString d name) as [v|] eqn:Hk; [|done].
      exfalso. apply (Hno v). right. by exists d.
  - destruct kwds as [d|]; [|done].
    destruct (PyDict_GetItemString d name) as [v|] eqn:Hk; [|done].
    exfalso. apply (Hno v). right. by exists d.
Qed.

Lemma argument_by_name_supplied f args kwds name v :
  argument_by_name f args kwds name = Some v -> supplied f args kwds name v.
Proof.
  unfold argument_by_name, supplied, parameter_names.
  destruct (func_code f) as [code|]; [|done].
  destruct (find_arg_pos _ name 0) as [[|p]|] eqn:Hp; simpl.
  - destruct kwds as [d|]; [|done]. intros H. right. by exists d.
  - destruct (args !! p) as [v'|] eqn:Ha.
    + intros [= ->]. left.
      destruct (find_arg_pos_lookup _ _ _ _ Hp) as (_ & n & Hn & Hq).
      exists p, n. by rewrite Nat.sub_0_r in Hn.
    + destruct kwds as [d|]; [|done]. intros H. right. by exists d.
  - destruct kwds as [d|]; [|done]. intros H. right. by exists d.
Qed.

Lemma getModel_found this w model :
  fst (getModelForDecorator this w) = Some model ->
  getModelForDecorator this w = (Some model, w).
Proof.
  unfold getModelForDecorator. run.
  destruct (m_backend_instance this) as [b|]; [|done].
  destruct (s_bridgeMap w !! backend_addr b) as [[br|]|]; simpl.
  - intros ->. done.
  - destruct (s_typeModelMap w !! backend_addr b); simpl; [intros ->; done | done].
  - destruct (s_typeModelMap w !! backend_addr b); simpl; [intros ->; done | done].
Qed.

Lemma validate_ok this f b n w :
  m_wrapped_func this = Some f -> m_backend_instance this = Some b ->
  validateDecoratorState (Some this) n w = (true, w).
Proof. intros Hf Hb. unfold validateDecoratorState. by rewrite Hf, Hb. Qed.

Lemma extract_found f args kwds n r o w :
  argument_by_name f args kwds n = Some o ->
  extractArgumentByName f args kwds n r w = (Some o, w).
Proof. intros H. unfold extractArgumentByName. by rewrite H. Qed.

Lemma extract_optional_missing f args kwds n w :
  argument_by_name f args kwds n = None ->
  extractArgumentByName f args kwds n false w = (None, w).
Proof. intros H. unfold extractArgumentByName. by rewrite H. Qed.

Lemma AsLong_int z w :
  in_int_range z -> PyLong_AsLong_M (PyLong z) w = (z, w).
Proof.
  intros H. unfold PyLong_AsLong_M, PyLong_AsLong. by rewrite (int_in_long z H).
Qed.


Lemma find_arg_pos_complete names name : forall i j n,
  NoDup (c_str <$> names) ->
  names !! j = Some n -> qstrcmp_eq n name = true ->
  find_arg_pos names name i = Some (i + j)%nat.
Proof.
  induction names as [|h names IH]; intros i j n Hnd Hj Hq; [done|].
  simpl. rewrite fmap_cons in Hnd. apply NoDup_cons in Hnd as [Hh Hnd].
  destruct j as [|j]; simpl in Hj.
  - injection Hj as ->. rewrite Hq. f_equal. lia.
  - destruct (qstrcmp_eq h name) eqn:E.
    + exfalso. apply Hh. unfold qstrcmp_eq in *.
      apply String.eqb_eq in E, Hq. rewrite E, <- Hq.
      apply list_elem_of_fmap. exists n. split; [done|].
      by apply list_elem_of_lookup_2 with j.
    + rewrite (IH (S i) j n Hnd Hj Hq). f_equal. lia.
Qed.

Lemma supplied_argument_by_name f args kwds name v :
  python_function f ->
  supplied_once f args kwds name v ->
  argument_by_name f args kwds name = Some v.
Proof.
  intros [[code Hc] Hnd] [Hs Hu].
  destruct (argument_by_name f args kwds name) as [r|] eqn:E.
  - f_equal. apply Hu. by apply argument_by_name_supplied.
  - exfalso. unfold argument_by_name in E. rewrite Hc in E.
    unfold parameter_names in *. rewrite Hc in *.
    destruct Hs as [(p & n & Hn & Hq & Ha)|(d & -> & Hk)].
    + unfold parameter_names in Hn. rewrite Hc in Hn.
      rewrite (find_arg_pos_complete _ _ 0 (S p) n Hnd Hn Hq) in E.
      simpl in E. by rewrite Ha in E.
    + rewrite Hk in E. by destruct (find_arg_pos _ name 0) as [[|p]|];
        simpl in E; try destruct (args !! p).
Qed.

Lemma supplied_once_positional f args name p n v :
  python_function f ->
  parameter_names f !! S p = Some n -> qstrcmp_eq n name = true ->
  args !! p = Some v ->
  supplied_once f args None name v.
Proof.
  intros [_ Hnd] Hn Hq Ha. split.
  - left. by exists p, n.
  - intros v' [(p' & n' & Hn' & Hq' & Ha')|(d & Hd & _)]; [|done].
    assert (E : S p' = S p).
    { apply (NoDup_lookup _ _ _ (c_str name) Hnd);
        rewrite list_lookup_fmap; [rewrite Hn' | rewrite Hn]; simpl; f_equal;
        unfold qstrcmp_eq in *; by apply String.eqb_eq. }
    injection E as ->. congruence.
Qed.






(** With an exception pending when the decorator is called, the test after
    the two conversions sees it: the call is given up and nothing reaches
    the model. *)
Lemma move_with_exception_pending_opens_no_bracket :
  let stale := mkPyErr PyExc_KeyError "stale" in
  let r := MoveDecoratorPrivate.tp_call
             (mkDecorator (Some shelf_move) (Some shelf))
             [PyLong 2; PyLong 5] None (set_err (Some stale) shelf_world) in
  fst r = None /\ trace (snd r) = [] /\ err (snd r) = Some stale.
Proof. repeat split; reflexivity. Qed.

Lemma rowCount_in_int_range this parent w :
  in_int_range (fst (rowCount this parent w)).
Proof.
  assert (H0 : in_int_range 0) by (unfold in_int_range, INT_MIN, INT_MAX; lia).
  unfold rowCount. run. repeat case_match; simpl; try done;
    apply static_cast_int_range.
Qed.

Lemma rowCount_at_in_int_range p parent w :
  in_int_range (fst (rowCount_at p parent w)).
Proof.
  unfold rowCount_at. destruct (models w !! p); [apply rowCount_in_int_range|].
  unfold in_int_range, INT_MIN, INT_MAX; simpl; lia.
Qed.

Lemma createBoundMethod_ok f b o w :
  func_get f = PyReturn o ->
  createBoundMethod f (Some b) w = (Some f, add_event (call_get (backend_addr b)) w).
Proof. intros H. unfold createBoundMethod. run. by rewrite H. Qed.

Lemma trace_after_call f args kwds ctx p w :
  trace (snd ((result ← PyObject_Call f args kwds;
               finishInsert p ;; wrapped_result ctx result) w)) =
  trace w ++ [call_wrapped args kwds; endInsertRows p].
Proof.
  destruct w as [[e|] l t ms ds bm tm th tmo qs qt];
    unfold PyObject_Call, finishInsert, wrapped_result; run;
    destruct (func_call f args (default [] kwds)); simpl;
    by rewrite <- app_assoc.
Qed.

(** C3, as amended.  For a bound [insert] decorator whose model resolves
    and whose wrapped function binds: when no argument named [index] is
    supplied, positionally or by keyword, the calls on the model after the
    row count has been taken are [beginInsertRows(n, n)], the wrapped
    method, [endInsertRows], with [n] the row count taken before the
    wrapped method runs.  When the wrapped function is a Python function
    and [index] is supplied once: if it converts to an integer [i] and no
    Python exception is pending, the calls are [beginInsertRows(i, i)], the
    wrapped method, [endInsertRows], with [i] narrowed to [int], so [i]
    itself when it fits in 32 bits; if it does not convert, the call
    returns NULL with the error of the conversion set and no bracket is
    opened.  For a wrapped callable without [__code__] the arguments are
    not looked at, and the row count is used as when no [index] is
    supplied. *)
Theorem insert_brackets_at_index_or_row_count
  (this : UpdateQMLDecoratorPrivate) (wrapped : PyFunctionObject)
  (backend : Backend) (bound : PyObject) (args : list PyObject)
  (kwds : option (list (string * PyObject))) (w : World) (model : nat) :
  m_wrapped_func this = Some wrapped ->
  m_backend_instance this = Some backend ->
  fst (getModelForDecorator this w) = Some model ->
  func_get wrapped = PyReturn bound ->
  let r := InsertDecoratorPrivate.tp_call this args kwds w in
  let w0 := add_event (call_get (backend_addr backend)) w in
  let n := fst (rowCount_at model QModelIndex_root w0) in
  let w1 := snd (rowCount_at model QModelIndex_root w0) in
  ((forall v, ~ supplied wrapped args kwds "index" v) ->
   trace (snd r) =
     trace w1 ++
     [beginInsertRows model n n; call_wrapped args kwds; endInsertRows model])
  /\ (forall index_obj i,
        python_function wrapped ->
        supplied_once wrapped args kwds "index" index_obj ->
        PyLong_AsLong index_obj = Value i ->
        err w = None ->
        (in_int_range i ->
         trace (snd r) =
           trace w ++
           [call_get (backend_addr backend); beginInsertRows model i i;
            call_wrapped args kwds; endInsertRows model])
        /\ trace (snd r) =
             trace w ++
             [call_get (backend_addr backend);
              beginInsertRows model (static_cast_int i) (static_cast_int i);
              call_wrapped args kwds; endInsertRows model])
  /\ (forall index_obj e,
        python_function wrapped ->
        supplied_once wrapped args kwds "index" index_obj ->
        PyLong_AsLong index_obj = Raised e ->
        fst r = None
        /\ trace (snd r) = trace w ++ [call_get (backend_addr backend)]
        /\ err (snd r) = Some e)
  /\ (func_code wrapped = None ->
      trace (snd r) =
        trace w1 ++
        [beginInsertRows model n n; call_wrapped args kwds; endInsertRows model]).
Proof.
  intros Hw Hb Hm Hg r w0 n w1.
  apply getModel_found in Hm.
  assert (Hstart : r =
    (index_obj ← extractArgumentByName wrapped args kwds "index" false;
     index ← match index_obj with
             | Some o => PyLong_AsLong_M o
             | None => rowCount_at model QModelIndex_root
             end;
     e ← match index_obj with
         | Some _ => PyErr_Occurred
         | None => mret None
         end;
     match e with
     | Some _ =>
         logPythonException "@insert - Failed to convert index argument to long" ;;
         mret None
     | None =>
         startInsert model index index ;;
         result ← PyObject_Call wrapped args kwds;
         finishInsert model ;;
         wrapped_result "@insert - Error in wrapped function" result
     end) w0).
  { subst r. unfold InsertDecoratorPrivate.tp_call.
    rewrite (bind_eq _ _ _ _ _ (validate_ok _ _ _ _ w Hw Hb)), Hw.
    rewrite (bind_eq _ _ _ _ _ Hm). rewrite Hb.
    by rewrite (bind_eq _ _ _ _ _ (createBoundMethod_ok _ _ _ w Hg)). }
  assert (Happend : argument_by_name wrapped args kwds "index" = None ->
    trace (snd r) =
      trace w1 ++
      [beginInsertRows model n n; call_wrapped args kwds; endInsertRows model]).
  { intros Hnone. rewrite Hstart.
    rewrite (bind_eq _ _ _ _ _ (extract_optional_missing _ _ _ _ w0 Hnone)).
    pose proof (rowCount_at_in_int_range model QModelIndex_root w0) as Hn.
    subst n w1. destruct (rowCount_at model QModelIndex_root w0) as [n w1] eqn:E.
    simpl in *. rewrite (bind_eq _ _ _ _ _ E).
    rewrite (bind_eq (mret None) _ w1 None w1 eq_refl).
    unfold startInsert. rewrite (static_cast_int_id n Hn).
    rewrite (bind_eq _ _ _ _ _ (eq_refl : emit _ w1 = (tt, add_event _ w1))).
    rewrite trace_after_call. simpl. by rewrite <- app_assoc. }
  split; [|split; [|split]].
  - intros Hno. apply Happend. by apply not_supplied_argument_by_name.
  - intros index_obj i Hpy Hs Hi Herr.
    pose proof (supplied_argument_by_name _ _ _ _ _ Hpy Hs) as Ha.
    assert (Hcast : trace (snd r) =
      trace w ++
      [call_get (backend_addr backend);
       beginInsertRows model (static_cast_int i) (static_cast_int i);
       call_wrapped args kwds; endInsertRows model]).
    { rewrite Hstart.
      rewrite (bind_eq _ _ _ _ _ (extract_found _ _ _ _ _ _ w0 Ha)).
      assert (E : PyLong_AsLong_M index_obj w0 = (i, w0))
        by (unfold PyLong_AsLong_M; by rewrite Hi).
      rewrite (bind_eq _ _ _ _ _ E).
      assert (E0 : PyErr_Occurred w0 = (None, w0))
        by (unfold PyErr_Occurred; simpl; by rewrite Herr).
      rewrite (bind_eq _ _ _ _ _ E0).
      unfold startInsert.
      rewrite (bind_eq _ _ _ _ _ (eq_refl : emit _ w0 = (tt, add_event _ w0))).
      rewrite trace_after_call. simpl. by rewrite <- !app_assoc. }
    split; [|exact Hcast].
    intros Ri. rewrite Hcast. by rewrite (static_cast_int_id i Ri).
  - intros index_obj e Hpy Hs Hi.
    pose proof (supplied_argument_by_name _ _ _ _ _ Hpy Hs) as Ha.
    rewrite Hstart.
    rewrite (bind_eq _ _ _ _ _ (extract_found _ _ _ _ _ _ w0 Ha)).
    assert (E : PyLong_AsLong_M index_obj w0 = (-1, set_err (Some e) w0))
      by (unfold PyLong_AsLong_M; by rewrite Hi).
    rewrite (bind_eq _ _ _ _ _ E). by run.
  - intros Hc. apply Happend. unfold argument_by_name. by rewrite Hc.
Qed.

Lemma insert_brackets_at_index_or_row_count_witness :
  (python_function shelf_insert_at
   /\ supplied_once shelf_insert_at [PyLong 1; PyUnicode "x"] None "index" (PyLong 1)
   /\ trace (snd (InsertDecoratorPrivate.tp_call
                    (mkDecorator (Some shelf_insert_at) (Some shelf))
                    [PyLong 1; PyUnicode "x"] None shelf_world)) =
      trace shelf_world ++
      [call_get 21; beginInsertRows 3 1 1;
       call_wrapped [PyLong 1; PyUnicode "x"] None; endInsertRows 3])
  /\ ((forall v, ~ supplied shelf_add [PyUnicode "x"] None "index" v)
      /\ trace (snd (InsertDecoratorPrivate.tp_call
                       (mkDecorator (Some shelf_add) (Some shelf))
                       [PyUnicode "x"] None shelf_world)) =
         [call_get 21; call_data 21; beginInsertRows 3 2 2;
          call_wrapped [PyUnicode "x"] None; endInsertRows 3]).
Proof.
  assert (Hpy : python_function shelf_insert_at).
  { split; [by eexists|].
    apply (bool_decide_unpack (NoDup (c_str <$> parameter_names shelf_insert_at))).
    vm_compute. exact I. }
  assert (Hs : supplied_once shelf_insert_at [PyLong 1; PyUnicode "x"] None "index"
                 (PyLong 1))
    by (by apply (supplied_once_positional _ _ _ 0 "index")).
  assert (Hno : forall v, ~ supplied shelf_add [PyUnicode "x"] None "index" v).
  { intros v [(p & n & Hn & Hq & Ha)|(d & Hd & _)]; [|discriminate Hd].
    destruct p as [|p]; [|destruct p; discriminate Hn].
    injection Hn as <-. discriminate Hq. }
  assert (R1 : in_int_range 1) by (unfold in_int_range, INT_MIN, INT_MAX; lia).
  split.
  - split; [exact Hpy|]. split; [exact Hs|].
    exact (proj1 (proj1 (proj2 (insert_brackets_at_index_or_row_count
                    (mkDecorator (Some shelf_insert_at) (Some shelf))
                    shelf_insert_at shelf Py_None [PyLong 1; PyUnicode "x"] None
                    shelf_world 3 eq_refl eq_refl eq_refl eq_refl))
                  (PyLong 1) 1 Hpy Hs eq_refl eq_refl) R1).
  - split; [exact Hno|].
    exact (proj1 (insert_brackets_at_index_or_row_count
                    (mkDecorator (Some shelf_add) (Some shelf))
                    shelf_add shelf Py_None [PyUnicode "x"] None
                    shelf_world 3 eq_refl eq_refl eq_refl eq_refl) Hno).
Defined.

(** C3 as stated fails twice: an [index] supplied by keyword to a wrapped
    callable without [__code__] is not looked at and the row is appended
    at the row count 2; and an [index] of [2^32], supplied positionally, is
    bracketed at row 0. *)
Lemma insert_index_lost_or_wrapped :
  (supplied shelf_builtin [] (Some [("index", PyLong 1)]) "index" (PyLong 1)
   /\ trace (snd (InsertDecoratorPrivate.tp_call
                    (mkDecorator (Some shelf_builtin) (Some shelf))
                    [] (Some [("index", PyLong 1)]) shelf_world)) =
      [call_get 21; call_data 21; beginInsertRows 3 2 2;
       call_wrapped [] (Some [("index", PyLong 1)]); endInsertRows 3])
  /\ (supplied shelf_insert_at [PyLong (2 ^ 32); PyUnicode "x"] None "index"
        (PyLong (2 ^ 32))
      /\ trace (snd (InsertDecoratorPrivate.tp_call
                       (mkDecorator (Some shelf_insert_at) (Some shelf))
                       [PyLong (2 ^ 32); PyUnicode "x"] None shelf_world)) =
         [call_get 21; beginInsertRows 3 0 0;
          call_wrapped [PyLong (2 ^ 32); PyUnicode "x"] None; endInsertRows 3]).
Proof.
  split; split; try reflexivity.
  - right. by eexists.
  - left. exists 0%nat, "index". done.
Qed.

(** With an exception pending when the decorator is called, the test after
    the conversion of [index] sees it: the call is given up and no bracket
    is opened. *)
Lemma insert_with_exception_pending_opens_no_bracket :
  let stale := mkPyErr PyExc_KeyError "stale" in
  let r := InsertDecoratorPrivate.tp_call
             (mkDecorator (Some shelf_insert_at) (Some shelf))
             [PyLong 1; PyUnicode "x"] None (set_err (Some stale) shelf_world) in
  fst r = None /\ trace (snd r) = [call_get 21] /\ err (snd r) = Some stale.
Proof. repeat split; reflexivity. Qed.

(** ** Registration *)

(** A decorator without a wrapped function stops the registration of
    methods with the error set and without a slot for the method. *)
Lemma register_method_unwrappable (this : AutoQmlBridgePrivate)
  (methodName : string) (kind : DecoratorKind) (pData : nat)
  (builder : MetaObjectBuilder) (w : World) :
  decorators w !! pData = Some (mkDecorator None None) ->
  fst (register_method this methodName (Attr_decorator kind (Some pData))
         builder w) = None
  /\ err (snd (register_method this methodName (Attr_decorator kind (Some pData))
                 builder w))
     = Some (mkPyErr PyExc_RuntimeError (missing_wrapped_func methodName)).
Proof.
  intros Hd. unfold register_method, annotations_return_of, get_decorator,
    getReturnTypeName, setBackendInstance.
  destruct (bridge_backend this); run; rewrite Hd; simpl;
    rewrite ?Hd; simpl; rewrite ?lookup_insert_eq; simpl; done.
Qed.

(** C8, where the code departs from it.  The class [Shelf] has an [insert]
    decorator that holds no wrapped function on its method [add].
    Introspection sets the error naming [add] and registers no slot (the
    loop stops there, so [count] gets none either), but
    [registerMethodsFromType] returns nothing to its caller and
    [bridge_instance] does not look at the error indicator: it goes on to
    register the adapter as a singleton, stores the bridge in the instance
    registry and returns None, not the null pointer. *)
Theorem bridge_instance_completes_with_error_set :
  let r := @bridge_instance sample_libs
             (Some (mkInstanceArgs shelf "shelf" None)) unwrapped_world in
  fst r = Some Py_None
  /\ err (snd r) =
     Some (mkPyErr PyExc_RuntimeError (missing_wrapped_func "add"))
  /\ qml_singletons (snd r) = [mkSingleton "backend" "shelf" (Some 0%nat)]
  /\ (exists bridge,
        s_bridgeMap (snd r) !! 21%nat = Some (Some bridge)
        /\ (builder_slots <$> m_metaObjectBuilder bridge) = Some []).
Proof.
  split; [reflexivity|]. split; [reflexivity|]. split; [reflexivity|].
  eexists. split; [vm_compute; reflexivity | reflexivity].
Qed.

(** The same through [bridge_type]: the type is registered with the QML
    engine and None is returned with the error set. *)
Example bridge_type_completes_with_error_set :
  let r := @bridge_type sample_libs
             (Some (mkTypeArgs shelf_type None None None None)) unwrapped_world in
  fst r = Some Py_None
  /\ err (snd r) =
     Some (mkPyErr PyExc_RuntimeError (missing_wrapped_func "add"))
  /\ qml_types (snd r) = [mkQmlType "backend" 1 0 "Shelf" 20].
Proof. repeat split; reflexivity. Qed.

(** C9.  When [bridge_type] is called with arguments that parse and a
    version of the form major.minor for a type that already carries a
    handler, it returns None and changes nothing but the log, which gains
    the one warning that the type is already registered: the error
    indicator, the stored handler and description, and the types known to
    the QML engine are as before. *)
Theorem bridge_type_registered_twice `{ExternalLibs}
  (a : bridge_type_args) (w : World) (bridge : AutoQmlBridgePrivate)
  (major minor : Z) (rest : list Z) :
  type_handler w !! type_addr (arg_type a) = Some bridge ->
  QVersionNumber_fromString (QString_fromUtf8 (default "1.0" (arg_version a)))
    = major :: minor :: rest ->
  bridge_type (Some a) w =
    (Some Py_None,
     add_log
       (mkLog QtWarningMsg
          ("Python type " +:+ default (type_name (arg_type a)) (arg_qmlName a)
           +:+ " is already registered")) w).
Proof.
  intros Hreg Hver. unfold bridge_type. rewrite Hver.
  unfold getAutoQmlBridgePrivateForType, mbind, M_bind. rewrite Hreg.
  reflexivity.
Qed.

Lemma bridge_type_registered_twice_witness :
  fst (@bridge_type sample_libs (Some (plain_args None)) empty_world) = Some Py_None
  /\ is_Some (type_handler registered_once !! 60%nat)
  /\ @bridge_type sample_libs (Some (plain_args None)) registered_once =
     (Some Py_None,
      add_log (mkLog QtWarningMsg "Python type Plain is already registered")
        registered_once).
Proof.
  split; [reflexivity|]. split; [vm_compute; eauto|].
  destruct (type_handler registered_once !! 60%nat) as [bridge|] eqn:E;
    [|vm_compute in E; discriminate E].
  exact (@bridge_type_registered_twice sample_libs (plain_args None)
           registered_once bridge 1 0 [] E eq_refl).
Defined.

(** The version is checked before the registry is: a second call with a
    malformed version is turned away. *)
Example bridge_type_checks_the_version_first :
  fst (@bridge_type sample_libs (Some (plain_args (Some "1"))) registered_once)
    = None
  /\ err (snd (@bridge_type sample_libs (Some (plain_args (Some "1")))
                 registered_once))
     = Some (mkPyErr PyExc_ValueError "version must be in format 'major.minor'").
Proof. split; reflexivity. Qed.

(** * Further properties of the code *)

(** ** Results of a computation *)

Lemma returns_ret {A} (Q : A -> Prop) (a : A) : Q a -> returns Q (mret a).
Proof. by intros H w. Qed.

Lemma returns_bind {A B} (Q : B -> Prop) (m : M A) (f : A -> M B) :
  (forall a, returns Q (f a)) -> returns Q (m ≫= f).
Proof. intros Hf w. unfold mbind, M_bind. destruct (m w) as [a w1]. apply Hf. Qed.

Lemma returns_bind_post {A B} (P : A -> Prop) (Q : B -> Prop) (m : M A)
  (f : A -> M B) :
  returns P m -> (forall a, P a -> returns Q (f a)) -> returns Q (m ≫= f).
Proof.
  intros Hm Hf w. unfold mbind, M_bind. specialize (Hm w).
  destruct (m w) as [a w1]. by apply Hf.
Qed.

Ltac returns_none :=
  solve [ repeat first
            [ apply returns_ret; intros ? [=]
            | apply returns_bind; intros ? ] ].

(** ** The conversions, beyond 32 bits *)

Lemma long_range_leb z :
  in_long_range z -> (LONG_MIN <=? z) && (z <=? LONG_MAX) = true.
Proof.
  intros [H1 H2]. apply andb_true_iff; split; by apply Z.leb_le.
Qed.

Lemma roundtrip_int `{ExternalLibs} z :
  in_long_range z -> roundtrip (PyLong z) = Some (PyLong (static_cast_int z)).
Proof.
  intros Hz. unfold roundtrip, converter_QVariant_to_PyObject,
    converter_PyObject_to_QVariant, pyObject2VariantOpt. simpl.
  by rewrite (long_range_leb z Hz).
Qed.

(** X1. A Python int within the range of a C long, sent to a QVariant and
    back through the two registered converters, comes back as its low 32
    bits read as a signed int; it comes back unchanged exactly when it
    fits a 32-bit int. *)
Theorem int_roundtrip_narrows_to_int `{ExternalLibs} (z : Z) :
  in_long_range z ->
  roundtrip (PyLong z) = Some (PyLong (static_cast_int z))
  /\ (roundtrip (PyLong z) = Some (PyLong z) <-> in_int_range z).
Proof.
  intros Hz. rewrite (roundtrip_int z Hz). split; [done|]. split.
  - intros [= E]. rewrite <- E. apply static_cast_int_range.
  - intros Hi. by rewrite (static_cast_int_id z Hi).
Qed.

Lemma int_roundtrip_narrows_to_int_witness :
  in_long_range (2 ^ 32)
  /\ @roundtrip sample_libs (PyLong (2 ^ 32)) = Some (PyLong 0)
  /\ ~ in_int_range (2 ^ 32).
Proof.
  assert (Hz : in_long_range (2 ^ 32))
    by (unfold in_long_range, LONG_MIN, LONG_MAX; lia).
  split; [exact Hz|].
  split; [exact (proj1 (@int_roundtrip_narrows_to_int sample_libs (2 ^ 32) Hz))|].
  unfold in_int_range, INT_MIN, INT_MAX. lia.
Defined.





(** X3. pyObject2VariantOpt gives the empty optional only for the null
    pointer, for None, for a str that has no UTF-8 form, for a list or
    tuple that convertToVariantList turns into an invalid QVariant, and for
    a dict that convertToVariantMap turns into an invalid QVariant; every
    other object gets a value, an int beyond the range of long included (it
    is wrapped as a Python object). *)
Theorem pyObject2VariantOpt_is_empty_only_for `{ExternalLibs} (obj : option PyObject) :
  pyObject2VariantOpt obj = None <->
  obj = None \/ obj = Some Py_None
  \/ (exists s, obj = Some (PyUnicode s) /\ toCString (PyUnicode s) = None)
  \/ (exists o, obj = Some o /\ PyList_Check o || PyTuple_Check o = true
                /\ convertToVariantList o = QVariant_Invalid)
  \/ (exists o, obj = Some o /\ PyDict_Check o = true
                /\ convertToVariantMap o = QVariant_Invalid).
Proof.
  unfold pyObject2VariantOpt. split.
  - destruct obj as [o|]; [|by left].
    destruct o as [|s|b|z|d|l|l|d|a n attrs|a n attrs]; simpl; try done.
    + by right; left.
    + destruct (has_surrogate s) eqn:E; [|done].
      intros _. right; right; left. exists s. by rewrite E.
    + by destruct ((LONG_MIN <=? z) && (z <=? LONG_MAX)).
    + destruct (convertToVariantList (PyList l)) eqn:E; simpl; try done.
      intros _. right; right; right; left. by exists (PyList l).
    + destruct (convertToVariantList (PyTuple l)) eqn:E; simpl; try done.
      intros _. right; right; right; left. by exists (PyTuple l).
    + destruct (convertToVariantMap (PyDict d)) eqn:E; simpl; try done.
      intros _. right; right; right; right. by exists (PyDict d).
  - intros [->|[->|[(s & -> & E)|[(o & -> & Hc & E)|(o & -> & Hc & E)]]]];
      try done.
    + simpl in *. by destruct (has_surrogate s).
    + destruct o; simpl in *; try done; by rewrite E.
    + destruct o; simpl in *; try done; by rewrite E.
Qed.

Lemma list_sum_elem (f : QVariant -> nat) l v :
  In v l -> (f v <= list_sum (List.map f l))%nat.
Proof.
  induction l as [|x l IH]; simpl; [done|].
  intros [->|Hin]; [lia|]. specialize (IH Hin). lia.
Qed.

Lemma variantList2PyObject_items `{ExternalLibs} (l : list QVariant) :
  Forall (fun v => is_Some (variant2PyObject v)) l ->
  exists items,
    variant2PyObject (QVariant_QVariantList l) = Some (PyList items)
    /\ Forall2 (fun v item => variant2PyObject v = Some item) l items.
Proof.
  induction 1 as [|v l [item Hv] Hl (items & IH & Hall)].
  - exists []. split; [done | constructor].
  - exists (item :: items). split; [|by constructor].
    simpl in *. rewrite Hv.
    match goal with
    | H : match ?F l with _ => _ end = _ |- context [?G l] =>
        change (G l) with (F l); destruct (F l); [|done]
    end.
    by injection IH as ->.
Qed.

Lemma variantMap2PyObject_some `{ExternalLibs} (m : list (string * QVariant)) :
  Forall (fun kv => is_Some (variant2PyObject (snd kv))) m ->
  is_Some (variant2PyObject (QVariant_QVariantMap m)).
Proof.
  intros Hm. simpl.
  generalize (@nil (PyObject * PyObject)) as pyDict.
  induction Hm as [|[k v] m [value Hv] Hm IH]; intros pyDict.
  - by eexists.
  - simpl in *. rewrite Hv. apply IH.
Qed.

(** X4. Allocation failures apart, variant2PyObject never returns the null
    pointer: every QVariant, however deep its lists and maps nest,
    converts to an object. The invalid QVariant gives None, and a
    QVariantList gives a list of the same length that holds the
    conversions of its elements in order. *)
Theorem variant2PyObject_never_null `{ExternalLibs} (variant : QVariant) :
  is_Some (variant2PyObject variant)
  /\ variant2PyObject QVariant_Invalid = Some Py_None
  /\ forall l, exists items,
       variantList2PyObject l = Some (PyList items)
       /\ Forall2 (fun v item => variant2PyObject v = Some item) l items.
Proof.
  assert (Hall : forall n v, (QVariant_size v <= n)%nat -> is_Some (variant2PyObject v)).
  { induction n as [|n IH]; intros v Hn.
    - destruct v; simpl in Hn; lia.
    - destruct v as [|s|i|d|b|l|m|o|p|l|v']; try (by eexists).
      + destruct (variantList2PyObject_items l) as (items & E & _); [|by eexists].
        apply Forall_forall. intros v Hin. apply IH. simpl in Hn.
        pose proof (list_sum_elem QVariant_size l v
                      (proj1 (list_elem_of_In _ _) Hin)). lia.
      + apply variantMap2PyObject_some. apply Forall_forall. intros [k v] Hin.
        apply IH. simpl in *.
        pose proof (list_sum_elem (fun v => QVariant_size v) (List.map snd m) v) as Hs.
        rewrite List.map_map in Hs.
        assert (Hv : In v (List.map snd m)).
        { apply in_map_iff. exists (k, v). split; [done|].
          by apply list_elem_of_In. }
        specialize (Hs Hv). lia.
      + simpl. destruct (copyToPython _); by eexists.
      + simpl. destruct (copyToPython _); by eexists.
      + simpl. destruct (copyToPython _); by eexists.
      + simpl. destruct (copyToPython _); by eexists. }
  split; [by eapply Hall|]. split; [done|].
  intros l. apply variantList2PyObject_items, Forall_forall.
  intros v _. by eapply Hall.
Qed.

(** ** The logger and the adapter *)

(** X5. logPythonException(context) appends exactly one log record and
    changes nothing else; in particular a pending exception is still
    pending afterwards. With an exception pending the record describes it,
    as a warning exactly when shouldSuppressError holds for it; with none
    pending the record is the warning that no Python error occurred. *)
Theorem logPythonException_leaves_the_error_pending (context : string) (w : World) :
  logPythonException context w =
    (tt, add_log
           (match err w with
            | Some e => exception_record context e
            | None =>
                mkLog QtWarningMsg "logPythonException: No Python error occurred"
            end) w)
  /\ err (snd (logPythonException context w)) = err w
  /\ forall e, log_level (exception_record context e) = QtWarningMsg
               <-> shouldSuppressError (Some e) = true.
Proof.
  destruct w as [[e|] l t ms ds bm tm th tmo qs qt]; (split; [reflexivity|]);
    (split; [reflexivity|]); intros e'; unfold exception_record;
    destruct (shouldSuppressError (Some e')); simpl; split; done.
Qed.

Lemma convert_item_value `{ExternalLibs} item w :
  fst (convert_item item w) = data_List_item item.
Proof. unfold convert_item. by destruct (data_List_item_error item). Qed.

Lemma data_list_run `{ExternalLibs} this backend items w :
  m_backend this = Some backend -> err w = None ->
  data_result backend = PyReturn (PyList items) ->
  PyObject_CallMethod_data backend w =
    (Some (PyList items), add_event (call_data (backend_addr backend)) w)
  /\ err (add_event (call_data (backend_addr backend)) w) = None.
Proof.
  intros Hb Herr Hd. unfold PyObject_CallMethod_data. run. by rewrite Hd.
Qed.

(** X6. For a List adapter with no exception pending whose backend's
    data() returns a list of at most INT_MAX items: rowCount of the root
    is the length of that list; data at index(row, 0) under the display
    role is the conversion of the item in that row; data for a row out of
    range, or under any other role, is the invalid QVariant; and index()
    for any column but 0 is the invalid index. *)
Theorem list_adapter_serves_the_rows_of_data `{ExternalLibs}
  (this : AutoQmlBridgeModel) (backend : Backend) (items : list PyObject)
  (w : World) :
  m_backend this = Some backend ->
  m_datatype this = DataType_List ->
  err w = None ->
  data_result backend = PyReturn (PyList items) ->
  Z.of_nat (length items) <= INT_MAX ->
  fst (rowCount this QModelIndex_root w) = Z.of_nat (length items)
  /\ (forall (row : nat) (item : PyObject),
        items !! row = Some item ->
        fst (data this (index this (Z.of_nat row) 0 QModelIndex_root)
               Qt_DisplayRole w) = data_List_item item)
  /\ (forall (row role : Z),
        row < 0 \/ Z.of_nat (length items) <= row \/ role <> Qt_DisplayRole ->
        fst (data this (index this row 0 QModelIndex_root) role w)
          = QVariant_Invalid)
  /\ (forall (row column : Z),
        column <> 0 -> index this row column QModelIndex_root = QModelIndex_root).
Proof.
  intros Hb Hd Herr Hdata Hlen.
  destruct (data_list_run this backend items w Hb Herr Hdata) as [Hrun Herr1].
  split; [|split; [|split]].
  - unfold rowCount. simpl. rewrite Hb, Hd. simpl.
    rewrite (bind_eq _ _ _ _ _ Hrun). unfold PyErr_Occurred, mbind, M_bind.
    rewrite Herr1. simpl. apply static_cast_int_id.
    unfold in_int_range, INT_MIN. lia.
  - intros row item Hrow. unfold index, data. rewrite Hd, Hb. simpl.
    unfold createIndex. simpl.
    replace (0 <=? Z.of_nat row) with true by (symmetry; apply Z.leb_le; lia).
    simpl. rewrite (bind_eq _ _ _ _ _ Hrun). unfold PyErr_Occurred, mbind, M_bind.
    rewrite Herr1. simpl.
    pose proof (lookup_lt_Some _ _ _ Hrow) as Hlt.
    replace (Z.of_nat row <? 0) with false by (symmetry; apply Z.ltb_ge; lia).
    replace (Z.of_nat (length items) <=? Z.of_nat row) with false
      by (symmetry; apply Z.leb_gt; lia).
    simpl. rewrite Nat2Z.id, Hrow. apply convert_item_value.
  - intros row role Hout. unfold index, data. rewrite Hd, Hb. simpl.
    unfold createIndex. simpl.
    destruct (0 <=? row) eqn:Hr; simpl; [|done].
    destruct (role =? Qt_DisplayRole) eqn:Hrole; simpl; [|done].
    rewrite (bind_eq _ _ _ _ _ Hrun). unfold PyErr_Occurred, mbind, M_bind.
    rewrite Herr1. simpl.
    apply Z.leb_le in Hr. apply Z.eqb_eq in Hrole.
    destruct Hout as [?|[Hge|?]]; [lia| |done].
    replace (Z.of_nat (length items) <=? row) with true
      by (symmetry; apply Z.leb_le; lia).
    by rewrite orb_true_r.
  - intros row column Hc. unfold index. rewrite Hd. simpl.
    by rewrite (proj2 (Z.eqb_neq column 0) Hc).
Qed.

Lemma list_adapter_serves_the_rows_of_data_witness :
  m_backend shelf_model = Some shelf
  /\ m_datatype shelf_model = DataType_List
  /\ err empty_world = None
  /\ data_result shelf = PyReturn (PyList [PyUnicode "a"; PyUnicode "b"])
  /\ fst (rowCount shelf_model QModelIndex_root empty_world) = 2
  /\ fst (@data sample_libs shelf_model
            (index shelf_model 1 0 QModelIndex_root) Qt_DisplayRole empty_world)
     = QVariant_QString "b"
  /\ fst (@data sample_libs shelf_model
            (index shelf_model 2 0 QModelIndex_root) Qt_DisplayRole empty_world)
     = QVariant_Invalid.
Proof.
  do 4 (split; [reflexivity|]).
  assert (Hlen : Z.of_nat (length [PyUnicode "a"; PyUnicode "b"]) <= INT_MAX)
    by (unfold INT_MAX; simpl; lia).
  pose proof (@list_adapter_serves_the_rows_of_data sample_libs shelf_model shelf
                [PyUnicode "a"; PyUnicode "b"] empty_world eq_refl eq_refl
                eq_refl eq_refl Hlen) as (Hrows & Hcell & Hout & _).
  split; [exact Hrows|]. split.
  - exact (Hcell 1%nat (PyUnicode "b") eq_refl).
  - apply (Hout 2 Qt_DisplayRole). right. left. simpl. lia.
Defined.

(** X7. For a DataClassList adapter with no exception pending whose
    backend's data() returns a list, and a role that the adapter's role
    map sends to a non-empty field name: roleNames() has that name under
    the role, and data() for a row of the list under that role is the
    conversion of the row item's attribute of that name, or the invalid
    QVariant when the item has no such attribute. *)
Theorem dataclass_adapter_serves_fields_by_role `{ExternalLibs}
  (this : AutoQmlBridgeModel) (backend : Backend) (items : list PyObject)
  (w : World) (role : Z) (name : string) :
  m_backend this = Some backend ->
  m_datatype this = DataType_DataClassList ->
  err w = None ->
  data_result backend = PyReturn (PyList items) ->
  m_dataClassRoles this !! role = Some name ->
  name <> EmptyString ->
  roleNames this !! role = Some name
  /\ forall (row : nat) (item : PyObject),
       items !! row = Some item ->
       fst (data this (createIndex (Z.of_nat row) 0) role w) =
       match getattr item (c_str name) with
       | Some fieldValue => data_List_item fieldValue
       | None => QVariant_Invalid
       end.
Proof.
  intros Hb Hd Herr Hdata Hrole Hname.
  destruct (data_list_run this backend items w Hb Herr Hdata) as [Hrun Herr1].
  split.
  - unfold roleNames. rewrite Hd.
    rewrite bool_decide_eq_false_2; [done|].
    intros E. by rewrite E in Hrole.
  - intros row item Hrow. unfold data, createIndex. rewrite Hd, Hb. simpl.
    replace (0 <=? Z.of_nat row) with true by (symmetry; apply Z.leb_le; lia).
    simpl. rewrite (bind_eq _ _ _ _ _ Hrun). unfold PyErr_Occurred, mbind, M_bind.
    rewrite Herr1. simpl.
    pose proof (lookup_lt_Some _ _ _ Hrow) as Hlt.
    replace (Z.of_nat row <? 0) with false by (symmetry; apply Z.ltb_ge; lia).
    replace (Z.of_nat (length items) <=? Z.of_nat row) with false
      by (symmetry; apply Z.leb_gt; lia).
    simpl. rewrite Nat2Z.id, Hrow, Hrole. simpl.
    rewrite (eqb_neq_false _ _ Hname).
    destruct (getattr item (c_str name)); [apply convert_item_value | done].
Qed.

Lemma dataclass_adapter_serves_fields_by_role_witness :
  let people := fst (setupDataClassRoles people_model empty_world) in
  m_dataClassRoles people !! 1257 = Some "age"
  /\ roleNames people !! 1257 = Some "age"
  /\ fst (@data sample_libs people (createIndex 0 0) 1257 empty_world)
     = QVariant_Int 30.
Proof.
  intros people.
  assert (Hrole : m_dataClassRoles people !! 1257 = Some "age")
    by (vm_compute; reflexivity).
  split; [exact Hrole|].
  destruct (@dataclass_adapter_serves_fields_by_role sample_libs people
              (record_backend Person [alice]) [alice] empty_world 1257 "age"
              eq_refl eq_refl eq_refl eq_refl Hrole ltac:(discriminate))
    as [Hnames Hcell].
  split; [exact Hnames|]. exact (Hcell 0%nat alice eq_refl).
Defined.

(** ** Invoked methods *)

(** X8. When the Python method behind an invoked slot raises, qt_metacall
    returns the method id and leaves the return slot as it was; the
    exception is logged once under 'qt_metacall: call Python method' and
    is left pending in the error indicator. *)
Theorem invoked_method_that_raises_is_logged_and_pending `{ExternalLibs}
  (this : AutoQmlBridgeModel) (id : Z) (args : list QVariant)
  (returnValue : option QVariant) (w : World) (backend : Backend)
  (callable : list PyObject -> PyResult) (pyArgs : list PyObject) (e : PyErr) :
  let method := QMetaObject_method (m_dynamicMetaObject this) id in
  m_backend this = Some backend ->
  backend_method backend (method_name method) = Some callable ->
  convert_arguments (take (method_parameterCount method) args) = Some pyArgs ->
  callable pyArgs = PyRaise e ->
  qt_metacall_InvokeMetaMethod this id args returnValue w =
    ((id, returnValue),
     add_log (exception_record "qt_metacall: call Python method" e)
       (set_err (Some e)
          (add_event
             (call_method (backend_addr backend) (method_name method) pyArgs) w))).
Proof.
  intros method Hb Hm Hargs Hcall.
  unfold qt_metacall_InvokeMetaMethod. fold method.
  rewrite Hb. simpl. rewrite Hm. simpl. rewrite Hargs.
  unfold mbind, M_bind, emit, returning. simpl. rewrite Hcall. reflexivity.
Qed.

Lemma invoked_method_that_raises_is_logged_and_pending_witness :
  let this := mkModel (Some failing_echo)
                (m_dynamicMetaObject (echo_model Py_None)) DataType_List ∅ [] false in
  @qt_metacall_InvokeMetaMethod sample_libs this 0 [] (Some (QVariant_Int 5))
    empty_world =
  ((0, Some (QVariant_Int 5)),
   add_log (mkLog QtWarningMsg "qt_metacall: call Python method: 'x'")
     (set_err (Some (mkPyErr PyExc_KeyError "'x'"))
        (add_event (call_method 71 "get" []) empty_world))).
Proof.
  intros this.
  exact (@invoked_method_that_raises_is_logged_and_pending sample_libs this 0 []
           (Some (QVariant_Int 5)) empty_world failing_echo
           (fun _ => PyRaise (mkPyErr PyExc_KeyError "'x'")) []
           (mkPyErr PyExc_KeyError "'x'") eq_refl eq_refl eq_refl eq_refl).
Defined.

Lemma void_method_keeps_the_slot `{ExternalLibs} (this : AutoQmlBridgeModel)
  (id : Z) (args : list QVariant) (returnValue : option QVariant) (w : World) :
  method_typeName (QMetaObject_method (m_dynamicMetaObject this) id) = "void" ->
  fst (qt_metacall_InvokeMetaMethod this id args returnValue w) = (id, returnValue).
Proof.
  intros Hvoid. unfold qt_metacall_InvokeMetaMethod. rewrite Hvoid.
  destruct w as [e l t ms ds bm tm th tmo qs qt].
  destruct (m_backend this ≫= _) as [[b c]|];
    [destruct (convert_arguments _) as [pyArgs|];
       [run; destruct (c pyArgs) as [o|ex|]; simpl|]|];
    run; try destruct e; reflexivity.
Qed.

(** X9. A Python function with a code object whose 'return' annotation is
    missing or is not a type object is registered as one slot under its
    own name, with co_argcount - 1 parameters and the return type 'void';
    invoking such a slot never writes the return slot, whatever the Python
    method returns. *)
Theorem method_without_type_annotation_returns_nothing `{ExternalLibs}
  (bridge : AutoQmlBridgePrivate) (methodName : string) (f : PyFunctionObject)
  (code : CodeObject) (builder : MetaObjectBuilder) (w : World) :
  func_code f = Some code ->
  (forall a n attrs, func_annotations_return f <> Some (PyType a n attrs)) ->
  exists slot,
    fst (register_method bridge methodName (Attr_function f) builder w)
      = Some (addSlot builder slot)
    /\ method_name slot = methodName
    /\ method_parameterCount slot = (co_argcount code - 1)%nat
    /\ method_typeName slot = "void"
    /\ forall (this : AutoQmlBridgeModel) (id : Z) (args : list QVariant)
         (returnValue : option QVariant) (w' : World),
         QMetaObject_method (m_dynamicMetaObject this) id = slot ->
         fst (qt_metacall_InvokeMetaMethod this id args returnValue w')
           = (id, returnValue).
Proof.
  intros Hc Hann.
  eexists (mkMethod _ methodName (co_argcount code - 1) "void").
  split; [|split; [reflexivity|split; [reflexivity|split; [reflexivity|]]]].
  - unfold register_method, annotations_return_of, getReturnTypeName. simpl.
    rewrite Hc.
    destruct (func_annotations_return f) as [[]|] eqn:E; try reflexivity.
    by destruct (Hann addr tp_name attrs).
  - intros this id args rv w' Hslot. apply void_method_keeps_the_slot.
    by rewrite Hslot.
Qed.

Lemma method_without_type_annotation_returns_nothing_witness :
  exists slot,
    fst (register_method
           (mkBridge None None None None BridgeMode_Type DataType_Unknown EmptyString)
           "add" (Attr_function shelf_add)
           (mkBuilder "Shelf" [] [] [] []) empty_world)
      = Some (addSlot (mkBuilder "Shelf" [] [] [] []) slot)
    /\ method_name slot = "add"
    /\ method_parameterCount slot = 1%nat
    /\ method_typeName slot = "void".
Proof.
  destruct (@method_without_type_annotation_returns_nothing sample_libs
              (mkBridge None None None None BridgeMode_Type DataType_Unknown EmptyString)
              "add" shelf_add (mkCode ["self"; "item"] 2)
              (mkBuilder "Shelf" [] [] [] []) empty_world eq_refl
              ltac:(discriminate))
    as (slot & H1 & H2 & H3 & H4 & _).
  exists slot. repeat split; assumption.
Defined.

(** X10. When an invoked method with a return type other than void returns
    a Python instance, the return slot receives the adapter pointer that
    the instance registry holds for that object if bridge_instance
    registered it, and the object wrapped as a Python object otherwise;
    nothing is logged and the error indicator is not touched. *)
Theorem returned_backend_is_replaced_by_its_adapter `{ExternalLibs}
  (this : AutoQmlBridgeModel) (id : Z) (args : list QVariant) (slot : QVariant)
  (w : World) (backend : Backend) (callable : list PyObject -> PyResult)
  (pyArgs : list PyObject) (addr : nat) (tp_name : string)
  (attrs : list (string * PyObject)) :
  let method := QMetaObject_method (m_dynamicMetaObject this) id in
  let result := PyInstance addr tp_name attrs in
  m_backend this = Some backend ->
  backend_method backend (method_name method) = Some callable ->
  convert_arguments (take (method_parameterCount method) args) = Some pyArgs ->
  callable pyArgs = PyReturn result ->
  method_typeName method <> "void" ->
  method_typeName method <> EmptyString ->
  qt_metacall_InvokeMetaMethod this id args (Some slot) w =
    ((id, Some (match s_bridgeMap w !! addr with
                | Some bridge => QVariant_QObjectStar (bridge ≫= m_model)
                | None => QVariant_PyObjectWrapper result
                end)),
     add_event (call_method (backend_addr backend) (method_name method) pyArgs) w).
Proof.
  intros method result Hb Hm Hargs Hcall Hvoid Hempty.
  unfold qt_metacall_InvokeMetaMethod. fold method.
  rewrite Hb. simpl. rewrite Hm. simpl. rewrite Hargs.
  unfold mbind, M_bind, emit, returning. simpl. rewrite Hcall. simpl.
  rewrite (eqb_neq_false _ _ Hvoid), (eqb_neq_false _ _ Hempty). simpl.
  unfold pyObject2VariantOpt, convertVariantToModel. simpl.
  by destruct (s_bridgeMap w !! addr).
Qed.

Lemma returned_backend_is_replaced_by_its_adapter_witness :
  let shelf_object := PyInstance 21 "Shelf" [] in
  @qt_metacall_InvokeMetaMethod sample_libs (echo_model shelf_object) 0 []
    (Some QVariant_Invalid) shelf_world =
  ((0, Some (QVariant_QObjectStar (Some 3%nat))),
   add_event (call_method 71 "get" []) shelf_world).
Proof.
  intros shelf_object.
  exact (@returned_backend_is_replaced_by_its_adapter sample_libs
           (echo_model shelf_object) 0 [] QVariant_Invalid shelf_world
           (echo_backend shelf_object) (fun _ => PyReturn shelf_object) []
           21%nat "Shelf" [] eq_refl eq_refl eq_refl eq_refl
           ltac:(discriminate) ltac:(discriminate)).
Defined.

(** ** The remove decorator *)

(** X11. A call of a bound remove decorator whose model resolves, with no
    exception pending and an int index i that fits 32 bits, does in this
    order: beginRemoveRows(i, i), bind the wrapped function, call it with
    the arguments given, endRemoveRows. It returns what the function
    returned; when the function raised, it returns NULL with that
    exception pending and logged, and the rows are still closed. *)
Theorem remove_brackets_the_row_it_is_given
  (this : UpdateQMLDecoratorPrivate) (wrapped : PyFunctionObject)
  (backend : Backend) (bound : PyObject) (args : list PyObject)
  (kwds : option (list (string * PyObject))) (w : World) (model : nat) (i : Z) :
  m_wrapped_func this = Some wrapped ->
  m_backend_instance this = Some backend ->
  err w = None ->
  fst (getModelForDecorator this w) = Some model ->
  argument_by_name wrapped args kwds "index" = Some (PyLong i) ->
  in_int_range i ->
  func_get wrapped = PyReturn bound ->
  let r := RemoveDecoratorPrivate.tp_call this args kwds w in
  trace (snd r) =
    trace w ++ [beginRemoveRows model i i; call_get (backend_addr backend);
                call_wrapped args kwds; endRemoveRows model]
  /\ match func_call wrapped args (default [] kwds) with
     | PyReturn result =>
         fst r = Some result /\ err (snd r) = None /\ qt_log (snd r) = qt_log w
     | PyRaise e =>
         fst r = None /\ err (snd r) = Some e
         /\ qt_log (snd r) =
            qt_log w ++ [exception_record "@remove - Error in wrapped function" e]
     | PyNullNoError =>
         fst r = None /\ err (snd r) = None /\ qt_log (snd r) = qt_log w
     end.
Proof.
  intros Hw Hb Herr Hm Ha Ri Hg r.
  apply getModel_found in Hm.
  assert (E : RemoveDecoratorPrivate.tp_call this args kwds w =
    (result ← PyObject_Call wrapped args kwds;
     finishRemove model ;;
     wrapped_result "@remove - Error in wrapped function" result)
      (add_event (call_get (backend_addr backend))
         (add_event (beginRemoveRows model i i) w))).
  { unfold RemoveDecoratorPrivate.tp_call.
    rewrite (bind_eq _ _ _ _ _ (validate_ok _ _ _ _ w Hw Hb)), Hw.
    rewrite (bind_eq _ _ _ _ _ Hm).
    rewrite (bind_eq _ _ _ _ _ (extract_found _ _ _ _ _ _ w Ha)).
    rewrite (bind_eq _ _ _ _ _ (AsLong_int _ w Ri)).
    assert (E0 : PyErr_Occurred w = (None, w))
      by (unfold PyErr_Occurred; by rewrite Herr).
    rewrite (bind_eq _ _ _ _ _ E0).
    unfold startRemove. rewrite (static_cast_int_id _ Ri).
    rewrite (bind_eq _ _ _ _ _
               (eq_refl : emit _ w = (tt, add_event (beginRemoveRows model i i) w))).
    rewrite Hb.
    by rewrite (bind_eq _ _ _ _ _ (createBoundMethod_ok _ _ _ _ Hg)). }
  subst r. rewrite E. clear E Hm.
  destruct w as [e l t ms ds bm tm th tmo qs qt]. simpl in Herr. subst e.
  unfold PyObject_Call, wrapped_result, finishRemove. run.
  destruct (func_call wrapped args (default [] kwds)) as [res|ex|]; simpl;
    rewrite <- !app_assoc; simpl; done.
Qed.

Lemma remove_brackets_the_row_it_is_given_witness :
  let this := mkDecorator (Some shelf_raises) (Some shelf) in
  let r := RemoveDecoratorPrivate.tp_call this [PyLong 1] None shelf_world in
  fst (getModelForDecorator this shelf_world) = Some 3%nat
  /\ in_int_range 1
  /\ trace (snd r) =
     trace shelf_world ++ [beginRemoveRows 3 1 1; call_get 21;
                           call_wrapped [PyLong 1] None; endRemoveRows 3]
  /\ fst r = None
  /\ err (snd r) = Some (mkPyErr PyExc_ValueError "no room").
Proof.
  intros this r.
  assert (Ri : in_int_range 1) by (unfold in_int_range, INT_MIN, INT_MAX; lia).
  split; [reflexivity|]. split; [exact Ri|].
  destruct (remove_brackets_the_row_it_is_given this shelf_raises shelf Py_None
              [PyLong 1] None shelf_world 3 1 eq_refl eq_refl eq_refl eq_refl
              eq_refl Ri eq_refl) as [Ht Hr].
  split; [exact Ht|]. simpl in Hr. destruct Hr as (Hf & He & _). by split.
Defined.

(** X12. A call of a bound remove decorator whose model resolves but which
    has no argument named index, or one that PyLong_AsLong rejects,
    returns NULL with the error set (ValueError 'Required argument 'index'
    not found', or the error of the conversion) and logged; the wrapped
    method is not called and no begin or end primitive is invoked. *)
Theorem remove_without_an_integer_index_changes_nothing
  (this : UpdateQMLDecoratorPrivate) (wrapped : PyFunctionObject)
  (backend : Backend) (args : list PyObject)
  (kwds : option (list (string * PyObject))) (w : World) (model : nat) :
  m_wrapped_func this = Some wrapped ->
  m_backend_instance this = Some backend ->
  fst (getModelForDecorator this w) = Some model ->
  (argument_by_name wrapped args kwds "index" = None ->
   let e := mkPyErr PyExc_ValueError "Required argument 'index' not found" in
   RemoveDecoratorPrivate.tp_call this args kwds w =
     (None,
      add_log (exception_record
                 "@remove - Missing index argument in remove decorator" e)
        (set_err (Some e) w)))
  /\ (forall index_obj e,
        argument_by_name wrapped args kwds "index" = Some index_obj ->
        PyLong_AsLong index_obj = Raised e ->
        RemoveDecoratorPrivate.tp_call this args kwds w =
          (None,
           add_log (exception_record
                      "@remove - Failed to convert index argument to long in remove decorator" e)
             (set_err (Some e) w))).
Proof.
  intros Hw Hb Hm. apply getModel_found in Hm.
  split.
  - intros Ha e. unfold RemoveDecoratorPrivate.tp_call.
    rewrite (bind_eq _ _ _ _ _ (validate_ok _ _ _ _ w Hw Hb)), Hw.
    rewrite (bind_eq _ _ _ _ _ Hm).
    unfold extractArgumentByName. rewrite Ha.
    destruct w as [e0 l t ms ds bm tm th tmo qs qt]. reflexivity.
  - intros index_obj e Ha Hl. unfold RemoveDecoratorPrivate.tp_call.
    rewrite (bind_eq _ _ _ _ _ (validate_ok _ _ _ _ w Hw Hb)), Hw.
    rewrite (bind_eq _ _ _ _ _ Hm).
    rewrite (bind_eq _ _ _ _ _ (extract_found _ _ _ _ _ _ w Ha)).
    unfold PyLong_AsLong_M. rewrite Hl.
    destruct w as [e0 l t ms ds bm tm th tmo qs qt]. reflexivity.
Qed.

Lemma remove_without_an_integer_index_changes_nothing_witness :
  let this := mkDecorator (Some shelf_raises) (Some shelf) in
  fst (getModelForDecorator this shelf_world) = Some 3%nat
  /\ argument_by_name shelf_raises [] (Some [("row", PyLong 1)]) "index" = None
  /\ fst (RemoveDecoratorPrivate.tp_call this [] (Some [("row", PyLong 1)])
            shelf_world) = None
  /\ trace (snd (RemoveDecoratorPrivate.tp_call this [] (Some [("row", PyLong 1)])
                   shelf_world)) = trace shelf_world.
Proof.
  intros this. split; [reflexivity|]. split; [reflexivity|].
  pose proof (proj1 (remove_without_an_integer_index_changes_nothing this
                       shelf_raises shelf [] (Some [("row", PyLong 1)])
                       shelf_world 3 eq_refl eq_refl eq_refl) eq_refl) as H.
  simpl in H. rewrite H. split; reflexivity.
Defined.

(** ** What a decorated call returns *)

(** The bound method is the wrapped function. *)
Lemma createBoundMethod_returns f b :
  returns (fun bound => forall g, bound = Some g -> g = f) (createBoundMethod f b).
Proof.
  intros [[e0|] l t ms ds bm tm th tmo qs qt]; unfold createBoundMethod; run;
    (destruct b as [b|]; simpl; [|done]);
    destruct (func_get f) as [o|e|]; simpl; try done; intros g; congruence.
Qed.

Lemma PyObject_Call_returns f args kwds :
  returns (fun result => forall r, result = Some r ->
             func_call f args (default [] kwds) = PyReturn r)
    (PyObject_Call f args kwds).
Proof.
  intros w. unfold PyObject_Call. run.
  destruct (func_call f args (default [] kwds)) as [o|e|]; simpl; try done.
  by intros r [= <-].
Qed.

Lemma wrapped_result_returns ctx result :
  returns (fun res => res = result) (wrapped_result ctx result).
Proof.
  intros [[e0|] l t ms ds bm tm th tmo qs qt]; unfold wrapped_result; run;
    by destruct result.
Qed.

(** What every [tp_call] ends with. *)
Lemma call_and_finish_returns f args kwds (finish : M unit) ctx :
  returns (fun res => forall r, res = Some r ->
             func_call f args (default [] kwds) = PyReturn r)
    (result ← PyObject_Call f args kwds; finish ;; wrapped_result ctx result).
Proof.
  eapply returns_bind_post; [apply PyObject_Call_returns|].
  intros result Hres. apply returns_bind. intros _ w.
  rewrite (wrapped_result_returns ctx result w). exact Hres.
Qed.

(** X13. Whenever a call of an insert, remove, move or reset decorator
    returns an object, the decorator holds a wrapped function and the
    object is what that function returned for the same positional and
    keyword arguments: the decorators never put a result of their own in
    its place. *)
Theorem decorated_call_hands_back_what_the_method_returned (k : BracketKind)
  (this : UpdateQMLDecoratorPrivate) (args : list PyObject)
  (kwds : option (list (string * PyObject))) (w : World) (r : PyObject) :
  fst (bracket_tp_call k this args kwds w) = Some r ->
  exists wrapped,
    m_wrapped_func this = Some wrapped
    /\ func_call wrapped args (default [] kwds) = PyReturn r.
Proof.
  intros Hr.
  destruct (m_wrapped_func this) as [wrapped|] eqn:Hw.
  - exists wrapped. split; [done|]. revert w r Hr.
    change (returns (fun res => forall r, res = Some r ->
                       func_call wrapped args (default [] kwds) = PyReturn r)
              (bracket_tp_call k this args kwds)).
    destruct k; simpl.
    + unfold InsertDecoratorPrivate.tp_call. rewrite Hw.
      apply returns_bind; intros [|]; [|returns_none].
      apply returns_bind; intros [model|]; [|returns_none].
      eapply returns_bind_post; [apply createBoundMethod_returns|].
      intros [bound|] Hbound; [|returns_none].
      rewrite (Hbound bound eq_refl).
      apply returns_bind; intros index_obj.
      apply returns_bind; intros index.
      apply returns_bind; intros [e|]; [returns_none|].
      apply returns_bind; intros _. apply call_and_finish_returns.
    + unfold RemoveDecoratorPrivate.tp_call. rewrite Hw.
      apply returns_bind; intros [|]; [|returns_none].
      apply returns_bind; intros [model|]; [|returns_none].
      apply returns_bind; intros [index_obj|]; [|returns_none].
      apply returns_bind; intros rowToRemove.
      apply returns_bind; intros [e|]; [returns_none|].
      apply returns_bind; intros _.
      eapply returns_bind_post; [apply createBoundMethod_returns|].
      intros [bound|] Hbound; [|returns_none].
      rewrite (Hbound bound eq_refl). apply call_and_finish_returns.
    + unfold MoveDecoratorPrivate.tp_call. rewrite Hw.
      apply returns_bind; intros [|]; [|returns_none].
      apply returns_bind; intros [model|]; [|returns_none].
      apply returns_bind; intros from_index_obj.
      apply returns_bind; intros to_index_obj.
      destruct from_index_obj, to_index_obj; try returns_none.
      apply returns_bind; intros fromIndex.
      apply returns_bind; intros toIndex.
      apply returns_bind; intros [e|]; [returns_none|].
      apply returns_bind; intros _.
      eapply returns_bind_post; [apply createBoundMethod_returns|].
      intros [bound|] Hbound; [|returns_none].
      rewrite (Hbound bound eq_refl). apply call_and_finish_returns.
    + unfold ResetDecoratorPrivate.tp_call. rewrite Hw.
      apply returns_bind; intros [|]; [|returns_none].
      apply returns_bind; intros [model|]; [|returns_none].
      eapply returns_bind_post; [apply createBoundMethod_returns|].
      intros [bound|] Hbound; [|returns_none].
      rewrite (Hbound bound eq_refl).
      apply returns_bind; intros _. apply call_and_finish_returns.
  - exfalso. revert w r Hr.
    change (returns (fun res => forall r, res = Some r -> False)
              (bracket_tp_call k this args kwds)).
    destruct k; simpl;
      unfold InsertDecoratorPrivate.tp_call, RemoveDecoratorPrivate.tp_call,
        MoveDecoratorPrivate.tp_call, ResetDecoratorPrivate.tp_call;
      rewrite Hw; apply returns_bind; intros [|]; returns_none.
Qed.

Lemma decorated_call_hands_back_what_the_method_returned_witness :
  let this := mkDecorator (Some shelf_count) (Some shelf) in
  fst (bracket_tp_call Bracket_reset this [] None shelf_world) = Some (PyLong 2)
  /\ exists wrapped,
       m_wrapped_func this = Some wrapped
       /\ func_call wrapped [] (default [] None) = PyReturn (PyLong 2).
Proof.
  intros this. split; [reflexivity|].
  apply (decorated_call_hands_back_what_the_method_returned Bracket_reset this []
           None shelf_world (PyLong 2)).
  reflexivity.
Defined.

(** ** The complete decorator and the constructors *)

(** X14. A call of the complete decorator never changes an adapter and
    never invokes a begin or end primitive of the model; when it returns
    an object, all it did was bind the wrapped function to the backend
    instance and call it with the arguments given. *)
Theorem complete_never_calls_the_model (this : UpdateQMLDecoratorPrivate)
  (args : list PyObject) (kwds : option (list (string * PyObject))) (w : World) :
  let r := CompleteDecoratorPrivate.tp_call this args kwds w in
  models (snd r) = models w
  /\ exists es,
       trace (snd r) = trace w ++ es
       /\ Forall (fun e => begin_of e = None /\ end_of e = None) es
       /\ (is_Some (fst r) ->
           exists backend,
             m_backend_instance this = Some backend
             /\ es = [call_get (backend_addr backend); call_wrapped args kwds]).
Proof.
  destruct this as [[wrapped|] [backend|]];
    destruct w as [[e0|] l t ms ds bm tm th tmo qs qt];
    unfold CompleteDecoratorPrivate.tp_call, validateDecoratorState,
      createBoundMethod, PyObject_Call, wrapped_result; run;
    try (split; [reflexivity|]; exists []; rewrite app_nil_r;
         split; [reflexivity|]; split; [constructor|]; by intros [? [=]]).
  all: destruct (func_get wrapped) as [o|e|]; simpl;
    [destruct (func_call wrapped args (default [] kwds)) as [r|e|]; simpl|..];
    (split; [reflexivity|]);
    rewrite <- ?app_assoc; simpl;
    eexists; (split; [reflexivity|]);
    (split; [repeat constructor|]);
    first [ by intros [? [=]] | intros _; by eexists ].
Qed.

(** X15. A complete decorator without a wrapped function or without a
    backend instance returns NULL with the RuntimeError '@complete
    decorator has no bound backend instance - was bridge_instance() or
    bridge_type() called?' and logs nothing (the more specific error of
    the state check is overwritten); when binding the wrapped function
    fails, it returns NULL with the RuntimeError '@complete decorator
    failed to create bound method' in place of the binding's own error,
    after one log record about the failed binding. *)
Theorem complete_reports_early_failures_as_its_own
  (this : UpdateQMLDecoratorPrivate) (args : list PyObject)
  (kwds : option (list (string * PyObject))) (w : World) :
  (m_wrapped_func this = None \/ m_backend_instance this = None ->
   CompleteDecoratorPrivate.tp_call this args kwds w =
     (None,
      set_err
        (Some (mkPyErr PyExc_RuntimeError
                 "@complete decorator has no bound backend instance - was bridge_instance() or bridge_type() called?"))
        w))
  /\ (forall wrapped backend,
        m_wrapped_func this = Some wrapped ->
        m_backend_instance this = Some backend ->
        (forall bound, func_get wrapped <> PyReturn bound) ->
        let r := CompleteDecoratorPrivate.tp_call this args kwds w in
        fst r = None
        /\ err (snd r) =
           Some (mkPyErr PyExc_RuntimeError
                   "@complete decorator failed to create bound method")
        /\ trace (snd r) = trace w ++ [call_get (backend_addr backend)]
        /\ exists record, qt_log (snd r) = qt_log w ++ [record]).
Proof.
  split.
  - intros Hmiss.
    destruct this as [[wrapped|] [backend|]];
      destruct w as [e0 l t ms ds bm tm th tmo qs qt];
      simpl in Hmiss; try (destruct Hmiss; discriminate); reflexivity.
  - intros wrapped backend Hw Hb Hget r. subst r.
    destruct this as [wf bi]. simpl in Hw, Hb. subst wf bi.
    destruct w as [[e0|] l t ms ds bm tm th tmo qs qt];
      unfold CompleteDecoratorPrivate.tp_call, validateDecoratorState,
        createBoundMethod; run;
      destruct (func_get wrapped) as [o|e|] eqn:Hg; simpl;
      try (by destruct (Hget o));
      repeat (split; [reflexivity|]); by eexists.
Qed.

Lemma complete_reports_early_failures_as_its_own_witness :
  let r := CompleteDecoratorPrivate.tp_call
             (mkDecorator (Some unbindable) (Some shelf)) [] None empty_world in
  fst r = None
  /\ err (snd r) =
     Some (mkPyErr PyExc_RuntimeError
             "@complete decorator failed to create bound method")
  /\ trace (snd r) = trace empty_world ++ [call_get 21]
  /\ exists record, qt_log (snd r) = qt_log empty_world ++ [record].
Proof.
  apply (proj2 (complete_reports_early_failures_as_its_own
                  (mkDecorator (Some unbindable) (Some shelf)) [] None empty_world)
           unbindable shelf eq_refl eq_refl).
  intros bound. discriminate.
Defined.

(** ** The constructors *)

(** X16. The constructor of insert, remove, move or reset succeeds exactly
    on one callable argument that has the parameters the decorator insists
    on (index for remove, from_index and to_index for move, none for
    insert and reset): it then returns 0, stores the callable as the
    wrapped function and leaves the error indicator alone. On anything
    else it returns -1 with a TypeError set and leaves the decorator as it
    was. *)
Theorem decorator_constructors_accept_only_fitting_callables (k : BracketKind)
  (this : UpdateQMLDecoratorPrivate) (args : list DecoratedObject) (w : World) :
  let r := bracket_tp_init k this args w in
  (forall func,
     args = [Decorated_callable func] ->
     Forall (fun name => hasArgumentByName func name = true)
       (required_parameters k) ->
     r = ((0, set_wrapped_func this func), w))
  /\ ((forall func,
         args = [Decorated_callable func] ->
         ~ Forall (fun name => hasArgumentByName func name = true)
             (required_parameters k)) ->
      fst r = (-1, this)
      /\ exists msg, snd r = set_err (Some (mkPyErr PyExc_TypeError msg)) w).
Proof.
  intros r. subst r. split.
  - intros func -> Hreq.
    destruct k; simpl in *; try reflexivity.
    + apply Forall_cons in Hreq as [H1 _].
      unfold RemoveDecoratorPrivate_tp_init. run. by rewrite H1.
    + apply Forall_cons in Hreq as [H1 Hreq].
      apply Forall_cons in Hreq as [H2 _].
      unfold MoveDecoratorPrivate_tp_init. run. by rewrite H1, H2.
  - intros Hbad.
    destruct args as [|[func|o] [|? ?]];
      try (destruct k; (split; [reflexivity|]); by eexists).
    specialize (Hbad func eq_refl).
    destruct k; simpl in *.
    + destruct Hbad. constructor.
    + unfold RemoveDecoratorPrivate_tp_init. run.
      destruct (hasArgumentByName func "index") eqn:E; simpl.
      * destruct Hbad. by repeat constructor.
      * split; [reflexivity|]. by eexists.
    + unfold MoveDecoratorPrivate_tp_init. run.
      destruct (hasArgumentByName func "from_index") eqn:E1;
        destruct (hasArgumentByName func "to_index") eqn:E2; simpl;
        try (split; [reflexivity|]; by eexists).
      destruct Hbad. by repeat constructor.
    + destruct Hbad. constructor.
Qed.

Lemma decorator_constructors_accept_only_fitting_callables_witness :
  Forall (fun name => hasArgumentByName shelf_move name = true)
    (required_parameters Bracket_move)
  /\ bracket_tp_init Bracket_move (mkDecorator None None)
       [Decorated_callable shelf_move] empty_world
     = ((0, mkDecorator (Some shelf_move) None), empty_world)
  /\ fst (bracket_tp_init Bracket_move (mkDecorator None None)
            [Decorated_callable shelf_add] empty_world)
     = (-1, mkDecorator None None).
Proof.
  assert (Hreq : Forall (fun name => hasArgumentByName shelf_move name = true)
                   (required_parameters Bracket_move))
    by (repeat constructor).
  split; [exact Hreq|]. split.
  - exact (proj1 (decorator_constructors_accept_only_fitting_callables
                    Bracket_move (mkDecorator None None)
                    [Decorated_callable shelf_move] empty_world)
             shelf_move eq_refl Hreq).
  - apply (proj2 (decorator_constructors_accept_only_fitting_callables
                    Bracket_move (mkDecorator None None)
                    [Decorated_callable shelf_add] empty_world)).
    intros func [= <-] H. apply Forall_cons in H as [H _]. discriminate H.
Defined.

(** X17. A bracket decorator as its constructor leaves it, with no backend
    instance bound yet, fails on every call: it returns NULL with the
    RuntimeError '@<name> decorator has no bound backend instance. ...',
    logs it as critical, and neither calls the wrapped method nor invokes
    any primitive. *)
Theorem decorated_method_needs_a_bridged_object (k : BracketKind)
  (this0 this : UpdateQMLDecoratorPrivate) (init_args : list DecoratedObject)
  (w0 w0' : World) (args : list PyObject)
  (kwds : option (list (string * PyObject))) (w : World) :
  m_backend_instance this0 = None ->
  bracket_tp_init k this0 init_args w0 = ((0, this), w0') ->
  let e := mkPyErr PyExc_RuntimeError
             ("@" +:+ bracket_name k +:+
              " decorator has no bound backend instance. " +:+
              "Decorators must be bound to an instance via bridge_instance() or bridge_type().") in
  bracket_tp_call k this args kwds w =
    (None,
     add_log
       (mkLog QtCriticalMsg
          ("@" +:+ bracket_name k +:+ " - Invalid decorator state: RuntimeError: "
           +:+ exc_msg e))
       (set_err (Some e) w)).
Proof.
  intros Hb0 Hinit e.
  assert (Hthis : exists func, this = mkDecorator (Some func) None).
  { destruct this0 as [wf0 bi0]. simpl in Hb0. subst bi0.
    destruct init_args as [|[func|o] [|? ?]];
      try (destruct k; discriminate Hinit).
    exists func. destruct k; simpl in Hinit.
    - by injection Hinit as <- _.
    - unfold RemoveDecoratorPrivate_tp_init in Hinit. run.
      destruct (hasArgumentByName func "index"); simpl in Hinit; [|discriminate].
      by injection Hinit as <- _.
    - unfold MoveDecoratorPrivate_tp_init in Hinit. run.
      destruct (hasArgumentByName func "from_index"),
        (hasArgumentByName func "to_index"); simpl in Hinit; try discriminate.
      by injection Hinit as <- _.
    - by injection Hinit as <- _. }
  destruct Hthis as [func ->].
  destruct w as [e0 l t ms ds bm tm th tmo qs qt].
  destruct k; reflexivity.
Qed.

Lemma decorated_method_needs_a_bridged_object_witness :
  bracket_tp_init Bracket_insert (mkDecorator None None)
    [Decorated_callable shelf_add] empty_world
  = ((0, mkDecorator (Some shelf_add) None), empty_world)
  /\ fst (bracket_tp_call Bracket_insert (mkDecorator (Some shelf_add) None)
            [PyUnicode "c"] None shelf_world) = None
  /\ trace (snd (bracket_tp_call Bracket_insert (mkDecorator (Some shelf_add) None)
                   [PyUnicode "c"] None shelf_world)) = trace shelf_world.
Proof.
  split; [reflexivity|].
  rewrite (decorated_method_needs_a_bridged_object Bracket_insert
             (mkDecorator None None) (mkDecorator (Some shelf_add) None)
             [Decorated_callable shelf_add] empty_world empty_world
             [PyUnicode "c"] None shelf_world eq_refl eq_refl).
  split; reflexivity.
Defined.

(** ** The classification of a backend *)

Lemma hint_found (backend : Backend) dataMethod annotations w :
  backend_data backend = Some dataMethod ->
  data_annotations dataMethod = Some annotations ->
  getDataMethodReturnTypeHint (Some backend) w
    = (PyDict_GetItemString annotations "return", w).
Proof.
  intros Hd Ha. unfold getDataMethodReturnTypeHint. by rewrite Hd, Ha.
Qed.

(** X18. When the return annotation of a callable data() reads as a list
    hint whose text contains 'str', 'int' or 'float' anywhere,
    inferDataType answers List without calling data() and without touching
    anything; the test is on the text, so a hint such as list[Point] is a
    List too, even when the rows are dataclass instances. *)
Theorem list_hint_naming_a_primitive_makes_a_List `{ExternalLibs}
  (backend : Backend) (dataMethod : DataMethod)
  (annotations : list (string * PyObject)) (returnType : PyObject)
  (typeStr : string) (w : World) :
  backend_data backend = Some dataMethod ->
  data_callable dataMethod = true ->
  data_annotations dataMethod = Some annotations ->
  PyDict_GetItemString annotations "return" = Some returnType ->
  PyObject_Str returnType = Some typeStr ->
  isListTypeHint (c_str typeStr) = true ->
  string_contains (c_str typeStr) "str"
  || string_contains (c_str typeStr) "int"
  || string_contains (c_str typeStr) "float" = true ->
  inferDataType (Some backend) w = (DataType_List, w).
Proof.
  intros Hd Hc Ha Hr Hs Hl Hp. unfold inferDataType. rewrite Hd, Hc. simpl.
  rewrite (bind_eq _ _ _ _ _ (hint_found backend dataMethod annotations w Hd Ha)).
  rewrite Hr. simpl. rewrite Hs, Hl. simpl.
  destruct (string_contains (c_str typeStr) "str"); simpl; [reflexivity|].
  destruct (string_contains (c_str typeStr) "int"); simpl; [reflexivity|].
  destruct (string_contains (c_str typeStr) "float"); simpl; [reflexivity|].
  discriminate Hp.
Qed.

Lemma list_hint_naming_a_primitive_makes_a_List_witness :
  isListTypeHint (c_str "list[Point]") = true
  /\ string_contains (c_str "list[Point]") "int" = true
  /\ fst (isDataClassList
            (Some (PyList [PyInstance 82 "Point"
                             [("__dataclass_fields__", PyDict [])]]))
            empty_world) = true
  /\ @inferDataType sample_libs (Some points) empty_world
     = (DataType_List, empty_world).
Proof.
  do 3 (split; [reflexivity|]).
  exact (@list_hint_naming_a_primitive_makes_a_List sample_libs points
           (mkDataMethod true (Some [("return", PyUnicode "list[Point]")])
              (PyReturn (PyList [PyInstance 82 "Point"
                                   [("__dataclass_fields__", PyDict [])]])))
           [("return", PyUnicode "list[Point]")] (PyUnicode "list[Point]")
           "list[Point]" empty_world eq_refl eq_refl eq_refl eq_refl eq_refl
           eq_refl eq_refl).
Defined.

(** X19. When the return annotation of a callable data() reads as a list
    hint whose text contains none of 'str', 'int' and 'float',
    inferDataType calls data() once and answers DataClassList whatever the
    call gives, even when it raises or returns no dataclass instances; no
    exception is left pending and nothing is logged. *)
Theorem list_hint_naming_no_primitive_is_trusted `{ExternalLibs}
  (backend : Backend) (dataMethod : DataMethod)
  (annotations : list (string * PyObject)) (returnType : PyObject)
  (typeStr : string) (w : World) :
  backend_data backend = Some dataMethod ->
  data_callable dataMethod = true ->
  data_annotations dataMethod = Some annotations ->
  PyDict_GetItemString annotations "return" = Some returnType ->
  PyObject_Str returnType = Some typeStr ->
  isListTypeHint (c_str typeStr) = true ->
  string_contains (c_str typeStr) "str" = false ->
  string_contains (c_str typeStr) "int" = false ->
  string_contains (c_str typeStr) "float" = false ->
  let r := inferDataType (Some backend) w in
  fst r = DataType_DataClassList
  /\ err (snd r) = None
  /\ trace (snd r) = trace w ++ [call_data (backend_addr backend)]
  /\ qt_log (snd r) = qt_log w.
Proof.
  intros Hd Hc Ha Hr Hs Hl H1 H2 H3 r. subst r. unfold inferDataType.
  rewrite Hd, Hc. simpl.
  rewrite (bind_eq _ _ _ _ _ (hint_found backend dataMethod annotations w Hd Ha)).
  rewrite Hr. simpl. rewrite Hs, Hl, H1, H2, H3. simpl.
  unfold PyObject_CallMethod_data, data_result. rewrite Hd.
  destruct w as [[e0|] l t ms ds bm tm th tmo qs qt]; run;
    destruct (data_call dataMethod) as [o|e|]; simpl; try done;
    unfold isDataClassList, isDataClassInstance;
    repeat case_match; run; simplify_eq/=; done.
Qed.

Lemma list_hint_naming_no_primitive_is_trusted_witness :
  let r := @inferDataType sample_libs (Some broken_flags) empty_world in
  fst r = DataType_DataClassList
  /\ err (snd r) = None
  /\ trace (snd r) = trace empty_world ++ [call_data 91]
  /\ qt_log (snd r) = qt_log empty_world.
Proof.
  exact (@list_hint_naming_no_primitive_is_trusted sample_libs broken_flags
           (mkDataMethod true (Some [("return", PyUnicode "list[bool]")])
              (PyRaise (mkPyErr PyExc_KeyError "'flags'")))
           [("return", PyUnicode "list[bool]")] (PyUnicode "list[bool]")
           "list[bool]" empty_world eq_refl eq_refl eq_refl eq_refl eq_refl
           eq_refl eq_refl eq_refl eq_refl).
Defined.

(** X20. When a callable data() has annotations but no return annotation,
    and no exception is pending, inferDataType calls data() once and
    classifies by the result: a list or tuple is a DataClassList when its
    first item is not None and has __dataclass_fields__, and a List
    otherwise (an empty one included); an object whose type is named
    DataFrame is a Table; any other instance that has __getitem__ is a
    List; everything else, a str included, is Unknown. An exception raised
    by data() gives Unknown, is logged and stays pending. *)
Theorem unannotated_data_is_classified_by_its_result `{ExternalLibs}
  (backend : Backend) (dataMethod : DataMethod)
  (annotations : list (string * PyObject)) (w : World) :
  backend_data backend = Some dataMethod ->
  data_callable dataMethod = true ->
  data_annotations dataMethod = Some annotations ->
  PyDict_GetItemString annotations "return" = None ->
  err w = None ->
  let r := inferDataType (Some backend) w in
  trace (snd r) = trace w ++ [call_data (backend_addr backend)]
  /\ match data_call dataMethod with
     | PyRaise e =>
         fst r = DataType_Unknown /\ err (snd r) = Some e
         /\ qt_log (snd r) =
            qt_log w ++
            [exception_record
               "helpers.cpp: error calling instance.data() in inferDataType" e]
     | PyNullNoError => fst r = DataType_Unknown /\ err (snd r) = None
     | PyReturn data =>
         err (snd r) = None /\ qt_log (snd r) = qt_log w
         /\ fst r =
            match data with
            | PyList [] | PyTuple [] => DataType_List
            | PyList (firstItem :: _) | PyTuple (firstItem :: _) =>
                if negb (is_Py_None firstItem)
                   && bool_decide (is_Some (getattr firstItem "__dataclass_fields__"))
                then DataType_DataClassList
                else DataType_List
            | PyInstance _ tp_name attrs =>
                if String.eqb tp_name "DataFrame" then DataType_Table
                else if bool_decide (is_Some (PyDict_GetItemString attrs "__getitem__"))
                then DataType_List
                else DataType_Unknown
            | _ => DataType_Unknown
            end
     end.
Proof.
  intros Hd Hc Ha Hr Herr r. subst r. unfold inferDataType.
  rewrite Hd, Hc. simpl.
  rewrite (bind_eq _ _ _ _ _ (hint_found backend dataMethod annotations w Hd Ha)).
  rewrite Hr. simpl.
  unfold PyObject_CallMethod_data, data_result. rewrite Hd.
  destruct w as [e0 l t ms ds bm tm th tmo qs qt]; simpl in Herr; subst e0; run.
  destruct (data_call dataMethod) as [data|e|]; simpl; try done.
  destruct data as [|s|b|z|d|[|first rest]|[|first rest]|d|a n attrs|a n attrs];
    simpl; try done.
  - unfold isDataClassInstance.
    destruct (is_Py_None first); simpl; [done|].
    destruct (getattr first "__dataclass_fields__"); run; done.
  - unfold isDataClassInstance.
    destruct (is_Py_None first); simpl; [done|].
    destruct (getattr first "__dataclass_fields__"); run; done.
  - destruct (String.eqb n "DataFrame"); simpl; [done|].
    rewrite andb_true_r.
    by destruct (bool_decide _).
Qed.

Lemma unannotated_data_is_classified_by_its_result_witness :
  let r := @inferDataType sample_libs (Some empty_people) empty_world in
  trace (snd r) = trace empty_world ++ [call_data 51]
  /\ err (snd r) = None /\ qt_log (snd r) = qt_log empty_world
  /\ fst r = DataType_List.
Proof.
  exact (@unannotated_data_is_classified_by_its_result sample_libs empty_people
           (mkDataMethod true (Some []) (PyReturn (PyList []))) []
           empty_world eq_refl eq_refl eq_refl eq_refl eq_refl).
Defined.

(** ** Frames *)

Lemma preserves_ret {A X} (f : World -> X) (a : A) : preserves f (mret a).
Proof. by intros w. Qed.

Lemma preserves_bind {A B X} (f : World -> X) (m : M A) (k : A -> M B) :
  preserves f m -> (forall a, preserves f (k a)) -> preserves f (m ≫= k).
Proof.
  intros Hm Hk w. unfold mbind, M_bind. specialize (Hm w).
  destruct (m w) as [a w1]. simpl in Hm. by rewrite Hk.
Qed.

Create HintDb frame.

Ltac frame_step :=
  match goal with
  | |- preserves _ (mret _) => apply preserves_ret
  | |- preserves _ (_ ≫= _) => apply preserves_bind; [|intros ?]
  | |- preserves _ (match ?x with _ => _ end) => destruct x
  | |- preserves _ (match ?x with _ => _ end _) => destruct x
  | |- preserves _ (if ?x then _ else _) => destruct x
  | |- preserves _ _ => intros ?; reflexivity
  end.

Ltac frame_auto := repeat first [ solve [auto with frame] | frame_step ].

Lemma frame_logPythonException c : preserves registries (logPythonException c).
Proof. unfold logPythonException, logPythonException_exc. frame_auto. Qed.
Lemma frame_returning r : preserves registries (returning r).
Proof. unfold returning. frame_auto. Qed.
#[local] Hint Resolve frame_logPythonException frame_returning : frame.
Lemma frame_call_data b : preserves registries (PyObject_CallMethod_data b).
Proof. unfold PyObject_CallMethod_data. frame_auto. Qed.
Lemma frame_GetAttrString o n : preserves registries (PyObject_GetAttrString o n).
Proof. unfold PyObject_GetAttrString. frame_auto. Qed.
Lemma frame_hint b : preserves registries (getDataMethodReturnTypeHint b).
Proof. unfold getDataMethodReturnTypeHint. frame_auto. Qed.
Lemma frame_fields_of o : preserves registries (getDataClassFieldNames_of o).
Proof. unfold getDataClassFieldNames_of. frame_auto. Qed.
Lemma frame_isDataClassInstance o : preserves registries (isDataClassInstance o).
Proof. unfold isDataClassInstance. frame_auto. Qed.
#[local] Hint Resolve frame_call_data frame_GetAttrString frame_hint
  frame_fields_of frame_isDataClassInstance : frame.
Lemma frame_isDataClassList o : preserves registries (isDataClassList o).
Proof. unfold isDataClassList. frame_auto. Qed.
#[local] Hint Resolve frame_isDataClassList : frame.
Lemma frame_inferDataType `{ExternalLibs} b : preserves registries (inferDataType b).
Proof. unfold inferDataType. frame_auto. Qed.
Lemma frame_getDataClassFieldNames this :
  preserves registries (AutoQmlBridgeModel_.getDataClassFieldNames this).
Proof. unfold AutoQmlBridgeModel_.getDataClassFieldNames. frame_auto. Qed.
#[local] Hint Resolve frame_inferDataType frame_getDataClassFieldNames : frame.
Lemma frame_construct b mo dt : preserves registries (construct b mo dt).
Proof. unfold construct, setupDataClassRoles. frame_auto. Qed.
Lemma frame_getReturnTypeName a n : preserves registries (getReturnTypeName a n).
Proof. unfold getReturnTypeName. frame_auto. Qed.
Lemma frame_setBackendInstance p b : preserves registries (setBackendInstance p b).
Proof. intros w. unfold setBackendInstance. by destruct (decorators w !! p). Qed.
Lemma frame_annotations v : preserves registries (annotations_return_of v).
Proof. unfold annotations_return_of, get_decorator. frame_auto. Qed.
#[local] Hint Resolve frame_construct frame_getReturnTypeName
  frame_setBackendInstance frame_annotations : frame.
Lemma frame_register_method this n v b : preserves registries (register_method this n v b).
Proof. unfold register_method, get_decorator. frame_auto. Qed.
#[local] Hint Resolve frame_register_method : frame.
Lemma frame_register_methods this dirList :
  forall b, preserves registries (register_methods this dirList b).
Proof.
  induction dirList as [|[n v] rest IH]; intros b; simpl; frame_auto.
Qed.
#[local] Hint Resolve frame_register_methods : frame.
Lemma frame_registerMethodsFromType this t :
  preserves registries (registerMethodsFromType this t).
Proof. unfold registerMethodsFromType. frame_auto. Qed.
Lemma frame_registerPropertiesFromType this t :
  preserves registries (registerPropertiesFromType this t).
Proof. unfold registerPropertiesFromType. frame_auto. Qed.
#[local] Hint Resolve frame_registerMethodsFromType
  frame_registerPropertiesFromType : frame.

(** ** Slots *)

Lemma register_method_returns this methodName value builder :
  returns (fun res => forall b', res = Some b' ->
             exists slot, b' = addSlot builder slot
                          /\ method_name slot = methodName)
    (register_method this methodName value builder).
Proof.
  unfold register_method.
  apply returns_bind; intros annotations.
  apply returns_bind; intros returnType.
  apply returns_bind; intros [[code|]|].
  - apply returns_ret. intros b' [= <-]. by eexists.
  - apply returns_bind; intros _. apply returns_ret. by intros b' [=].
  - apply returns_ret. by intros b' [=].
Qed.

Lemma register_methods_slots this dirList : forall builder w,
  exists new,
    fst (register_methods this dirList builder w) =
      mkBuilder (builder_className builder) (builder_info builder)
        (builder_signals builder) (builder_properties builder)
        (builder_slots builder ++ new)
    /\ Forall (fun slot =>
                 String.prefix "_" (method_name slot) = false
                 /\ method_name slot <> "data"
                 /\ exists nameObj value,
                      In (nameObj, Some value) dirList
                      /\ PyCallable_Check value = true
                      /\ method_name slot = c_str nameObj) new.
Proof.
  induction dirList as [|[nameObj value] rest IH]; intros builder w.
  - exists []. split; [|constructor]. simpl. rewrite app_nil_r. by destruct builder.
  - assert (Hskip :
      (exists new,
         fst (register_methods this rest builder w) =
           mkBuilder (builder_className builder) (builder_info builder)
             (builder_signals builder) (builder_properties builder)
             (builder_slots builder ++ new)
         /\ Forall (fun slot =>
                      String.prefix "_" (method_name slot) = false
                      /\ method_name slot <> "data"
                      /\ exists nameObj0 value0,
                           In (nameObj0, Some value0) ((nameObj, value) :: rest)
                           /\ PyCallable_Check value0 = true
                           /\ method_name slot = c_str nameObj0) new)).
    { destruct (IH builder w) as (new & E & Hall). exists new. split; [done|].
      eapply Forall_impl; [exact Hall|]. intros slot (H1 & H2 & n & v & Hin & Hc).
      repeat split; try done. exists n, v. split; [by right | done]. }
    simpl. destruct value as [value|]; [|exact Hskip].
    destruct (PyCallable_Check value) eqn:Hcall; simpl; [|exact Hskip].
    destruct (String.prefix "_" (c_str nameObj)) eqn:Hpriv; [exact Hskip|].
    destruct (qstrcmp_eq (c_str nameObj) "data") eqn:Hdata; [exact Hskip|].
    clear Hskip. unfold mbind, M_bind.
    pose proof (register_method_returns this (c_str nameObj) value builder w) as Hr.
    destruct (register_method this (c_str nameObj) value builder w) as [[b'|] w1];
      simpl in Hr.
    + destruct (Hr b' eq_refl) as (slot & -> & Hname).
      destruct (IH (addSlot builder slot) w1) as (new & E & Hall).
      exists (slot :: new). split.
      * rewrite E. simpl. by rewrite <- app_assoc.
      * constructor.
        -- rewrite Hname. split; [done|]. split.
           ++ intros Heq. unfold qstrcmp_eq in Hdata.
              rewrite c_str_idemp, Heq in Hdata. discriminate Hdata.
           ++ exists nameObj, value. split; [by left | done].
        -- eapply Forall_impl; [exact Hall|].
           intros s (H1 & H2 & n & v & Hin & Hc).
           repeat split; try done. exists n, v. split; [by right | done].
    + exists []. split; [|constructor]. simpl. rewrite app_nil_r. by destruct builder.
Qed.

(** X21. registerMethodsFromType only ever appends slots to the
    description and leaves the rest of it as it was; every slot it adds is
    named after a callable attribute of dir(type) whose name, read as a C
    string, does not start with an underscore and is not 'data'. *)
Theorem registered_slots_are_public_methods (this : AutoQmlBridgePrivate)
  (type : PyTypeObject) (builder : MetaObjectBuilder) (w : World) :
  m_metaObjectBuilder this = Some builder ->
  exists new,
    m_metaObjectBuilder (fst (registerMethodsFromType this (Some type) w)) =
      Some (mkBuilder (builder_className builder) (builder_info builder)
              (builder_signals builder) (builder_properties builder)
              (builder_slots builder ++ new))
    /\ Forall (fun slot =>
                 String.prefix "_" (method_name slot) = false
                 /\ method_name slot <> "data"
                 /\ exists nameObj value,
                      In (nameObj, Some value) (type_dir type)
                      /\ PyCallable_Check value = true
                      /\ method_name slot = c_str nameObj) new.
Proof.
  intros Hb. unfold registerMethodsFromType. rewrite Hb.
  destruct (register_methods_slots this (type_dir type) builder w)
    as (new & E & Hall).
  exists new. split; [|exact Hall].
  unfold mbind, M_bind.
  destruct (register_methods this (type_dir type) builder w) as [b' w1].
  simpl in *. by rewrite E.
Qed.

Lemma registered_slots_are_public_methods_witness :
  exists new,
    m_metaObjectBuilder
      (fst (registerMethodsFromType
              (mkBridge (Some (mkBuilder "Plain" [] [] [] [])) None
                 (Some plain_type) None BridgeMode_Type DataType_Unknown
                 EmptyString)
              (Some plain_type) empty_world)) =
      Some (mkBuilder "Plain" [] [] [] ([] ++ new))
    /\ Forall (fun slot =>
                 String.prefix "_" (method_name slot) = false
                 /\ method_name slot <> "data"
                 /\ exists nameObj value,
                      In (nameObj, Some value) (type_dir plain_type)
                      /\ PyCallable_Check value = true
                      /\ method_name slot = c_str nameObj) new.
Proof.
  exact (registered_slots_are_public_methods
           (mkBridge (Some (mkBuilder "Plain" [] [] [] [])) None
              (Some plain_type) None BridgeMode_Type DataType_Unknown EmptyString)
           plain_type (mkBuilder "Plain" [] [] [] []) empty_world eq_refl).
Defined.

(** ** Registration *)

Lemma registries_eq w w' :
  registries w' = registries w ->
  models w' = models w /\ s_bridgeMap w' = s_bridgeMap w
  /\ s_typeModelMap w' = s_typeModelMap w /\ type_handler w' = type_handler w
  /\ type_metaobject w' = type_metaobject w
  /\ qml_singletons w' = qml_singletons w /\ qml_types w' = qml_types w.
Proof. unfold registries. intros [=]. by repeat split. Qed.

(** The constructor for type mode builds the description and touches no
    registry. *)
Lemma construct_type_spec type defaultProperty w :
  let r := construct_type type defaultProperty w in
  is_Some (m_metaObjectBuilder (fst r)) /\ m_model (fst r) = None
  /\ registries (snd r) = registries w.
Proof.
  unfold construct_type, setupMetaObjectBuilder, registerPropertiesFromType,
    registerMethodsFromType. simpl. unfold mbind, M_bind, mret, M_ret. simpl.
  match goal with
  | |- context [register_methods ?t ?d ?b w] =>
      pose proof (frame_register_methods t d b w) as Hf;
      destruct (register_methods t d b w) as [b' w1]
  end.
  simpl in *. split; [by eexists|]. by split.
Qed.

(** What a first [bridge_type] of a type that takes attributes leaves
    behind. *)
Lemma bridge_type_outcome `{ExternalLibs}
  (a : bridge_type_args) (w : World) (major minor : Z) (rest : list Z) :
  type_handler w !! type_addr (arg_type a) = None ->
  QVersionNumber_fromString (QString_fromUtf8 (default "1.0" (arg_version a)))
    = major :: minor :: rest ->
  type_setattr_ok (arg_type a) = true ->
  let uri := default "backend" (arg_uri a) in
  let name := default (type_name (arg_type a)) (arg_qmlName a) in
  let r := bridge_type (Some a) w in
  is_Some (type_handler (snd r) !! type_addr (arg_type a))
  /\ is_Some (type_metaobject (snd r) !! type_addr (arg_type a))
  /\ (if qmlregister uri major minor name =? -1
      then fst r = None
           /\ err (snd r) =
              Some (mkPyErr PyExc_RuntimeError
                      "Failed to register type with QML engine")
           /\ qml_types (snd r) = qml_types w
      else fst r = Some Py_None
           /\ qml_types (snd r) =
              qml_types w ++
              [mkQmlType uri major minor name (type_addr (arg_type a))]).
Proof.
  intros Hnew Hver Hset uri name r.
  assert (Hr : exists bridge mo w1,
    registries w1 = registries w
    /\ r = (result ← registerQmlType (arg_type a) uri major minor name;
            if result =? -1 then
              PyErr_Set PyExc_RuntimeError "Failed to register type with QML engine" ;;
              mret None
            else mret (Some Py_None))
             (set_type_metaobject (<[type_addr (arg_type a) := mo]> (type_metaobject w1))
                (set_type_handler (<[type_addr (arg_type a) := bridge]> (type_handler w1))
                   w1))).
  { subst r. unfold bridge_type. rewrite Hver.
    unfold getAutoQmlBridgePrivateForType.
    unfold mbind at 1, M_bind at 1. rewrite Hnew. cbv iota beta.
    set (ctor := match arg_defaultProperty a with
                 | Some defaultProperty =>
                     if negb (String.eqb (c_str defaultProperty) EmptyString)
                     then construct_type (arg_type a) (QString_fromUtf8 defaultProperty)
                     else construct_type (arg_type a) EmptyString
                 | None => construct_type (arg_type a) EmptyString
                 end).
    assert (Hc : is_Some (m_metaObjectBuilder (fst (ctor w)))
                 /\ m_model (fst (ctor w)) = None
                 /\ registries (snd (ctor w)) = registries w).
    { subst ctor. destruct (arg_defaultProperty a) as [dp|];
        [destruct (negb _)|]; apply construct_type_spec. }
    unfold mbind at 1, M_bind at 1.
    destruct (ctor w) as [bridge w1]. simpl in Hc.
    destruct Hc as ([b Hb] & Hmodel & Hreg).
    exists bridge, (builder_update b), w1. split; [exact Hreg|].
    unfold finalizeMetaObject. rewrite Hb, Hmodel.
    unfold storeAutoQmlBridgePrivateForType, storeDynamicMetaObjectForType.
    rewrite Hset. reflexivity. }
  destruct Hr as (bridge & mo & w1 & Hreg & Hr).
  apply registries_eq in Hreg as (_ & _ & _ & _ & _ & _ & Hqt).
  rewrite Hr. unfold registerQmlType, mbind, M_bind.
  destruct (qmlregister uri major minor name =? -1) eqn:E; simpl;
    rewrite ?E; simpl; rewrite !lookup_insert_eq;
    (split; [by eexists|]); (split; [by eexists|]); by rewrite Hqt.
Qed.

(** X22. A first bridge_type of a type that takes attributes stores the
    handler on the type before it asks the QML engine: when the engine
    refuses the type, bridge_type returns NULL with the RuntimeError
    'Failed to register type with QML engine' and adds no QML type, and
    yet a second bridge_type of the same type then returns None with only
    the 'already registered' warning, so the type stays unregistered. *)
Theorem bridge_type_marks_the_type_before_registering_it `{ExternalLibs}
  (a : bridge_type_args) (w : World) (major minor : Z) (rest : list Z) :
  type_handler w !! type_addr (arg_type a) = None ->
  QVersionNumber_fromString (QString_fromUtf8 (default "1.0" (arg_version a)))
    = major :: minor :: rest ->
  type_setattr_ok (arg_type a) = true ->
  let uri := default "backend" (arg_uri a) in
  let name := default (type_name (arg_type a)) (arg_qmlName a) in
  let r := bridge_type (Some a) w in
  is_Some (type_handler (snd r) !! type_addr (arg_type a))
  /\ (if qmlregister uri major minor name =? -1
      then fst r = None
           /\ err (snd r) =
              Some (mkPyErr PyExc_RuntimeError
                      "Failed to register type with QML engine")
           /\ qml_types (snd r) = qml_types w
      else fst r = Some Py_None
           /\ qml_types (snd r) =
              qml_types w ++
              [mkQmlType uri major minor name (type_addr (arg_type a))])
  /\ bridge_type (Some a) (snd r) =
     (Some Py_None,
      add_log (mkLog QtWarningMsg ("Python type " +:+ name +:+ " is already registered"))
        (snd r)).
Proof.
  intros Hnew Hver Hset uri name r.
  destruct (bridge_type_outcome a w major minor rest Hnew Hver Hset)
    as ([b Hb] & _ & Hres).
  split; [by eexists|]. split; [exact Hres|].
  fold r in Hb. unfold bridge_type at 1. rewrite Hver.
  unfold getAutoQmlBridgePrivateForType, mbind, M_bind. by rewrite Hb.
Qed.

Lemma bridge_type_marks_the_type_before_registering_it_witness :
  let r := @bridge_type refusing_libs (Some (plain_args None)) empty_world in
  fst r = None
  /\ is_Some (type_handler (snd r) !! 60%nat)
  /\ qml_types (snd r) = []
  /\ fst (@bridge_type refusing_libs (Some (plain_args None)) (snd r))
     = Some Py_None
  /\ qml_types (snd (@bridge_type refusing_libs (Some (plain_args None)) (snd r)))
     = [].
Proof.
  intros r.
  destruct (@bridge_type_marks_the_type_before_registering_it refusing_libs
              (plain_args None) empty_world 1 0 [] eq_refl eq_refl eq_refl)
    as (H1 & H3 & H4).
  simpl in H3. destruct H3 as (Hf & _ & Hq).
  split; [exact Hf|]. split; [exact H1|]. split; [exact Hq|].
  fold r in H4. rewrite H4. split; [reflexivity|exact Hq].
Defined.

Lemma construct_backend b mo dt w :
  m_backend (fst (construct b mo dt w)) = b.
Proof.
  unfold construct, setupDataClassRoles, mbind, M_bind.
  destruct (DataType_eqb dt DataType_DataClassList); [|done].
  by destruct (getDataClassFieldNames _ w).
Qed.

(** The constructor for instance mode makes one new adapter over the
    backend and touches nothing else of the registries. *)
Lemma construct_instance_spec backend datatype w :
  let r := construct_instance backend datatype w in
  exists model adapter,
    m_model (fst r) = Some model
    /\ is_Some (m_metaObjectBuilder (fst r))
    /\ models w !! model = None
    /\ models (snd r) = <[model := adapter]> (models w)
    /\ m_backend adapter = Some backend
    /\ s_bridgeMap (snd r) = s_bridgeMap w
    /\ qml_singletons (snd r) = qml_singletons w.
Proof.
  unfold construct_instance, setupMetaObjectBuilder. simpl.
  unfold registerPropertiesFromType, registerMethodsFromType, new_model. simpl.
  unfold mbind, M_bind, mret, M_ret. simpl.
  pose proof (frame_construct (Some backend) None datatype w) as Hc.
  pose proof (construct_backend (Some backend) None datatype w) as Hb.
  destruct (construct (Some backend) None datatype w) as [adapter w1].
  simpl in Hc, Hb. apply registries_eq in Hc as (Hm & Hbm & _ & _ & _ & Hqs & _).
  match goal with
  | |- context [register_methods ?t ?d ?b ?w0] =>
      pose proof (frame_register_methods t d b w0) as Hf;
      destruct (register_methods t d b w0) as [b' w2]
  end.
  simpl in *. apply registries_eq in Hf as (Hm2 & Hbm2 & _ & _ & _ & Hqs2 & _).
  simpl in *.
  exists (fresh (dom (models w1))), adapter.
  split; [done|]. split; [by eexists|]. split.
  { rewrite <- Hm. apply not_elem_of_dom, is_fresh. }
  rewrite Hm2, Hbm2, Hqs2, Hm. by repeat split.
Qed.

(** X23. bridge_instance either returns NULL with an exception set and
    leaves every registry as it was (adapters, instance and type
    registries, capsules, QML singletons and types), or returns None after
    creating one new adapter over the instance, entering the instance in
    the instance registry and appending one singleton for that adapter.
    When the registry already held a handler for the instance, the
    assignment releases it and the adapter made by the earlier
    registration is destroyed, while the singleton registered for it
    stays.  Every decorator bound to the instance then resolves to the new
    adapter. *)
Theorem bridge_instance_registers_one_adapter_or_nothing `{ExternalLibs}
  (parsed : option bridge_instance_args) (w : World) :
  let r := bridge_instance parsed w in
  match fst r with
  | None =>
      is_Some (err (snd r)) /\ registries (snd r) = registries w
  | Some result =>
      result = Py_None
      /\ exists a bridge model adapter,
           parsed = Some a
           /\ m_model bridge = Some model
           /\ models w !! model = None
           /\ models (snd r) =
              match released_model (arg_instance a) w with
              | Some old => delete old (<[model := adapter]> (models w))
              | None => <[model := adapter]> (models w)
              end
           /\ (forall old,
                 released_model (arg_instance a) w = Some old ->
                 is_Some (models w !! old) ->
                 models (snd r) !! old = None
                 /\ models (snd r) !! model = Some adapter)
           /\ m_backend adapter = Some (arg_instance a)
           /\ s_bridgeMap (snd r) =
              <[backend_addr (arg_instance a) := Some bridge]> (s_bridgeMap w)
           /\ qml_singletons (snd r) =
              qml_singletons w ++
              [mkSingleton (default "backend" (arg_instance_uri a)) (arg_name a)
                 (Some model)]
           /\ forall wrapped,
                getModelForDecorator (mkDecorator wrapped (Some (arg_instance a)))
                  (snd r) = (Some model, snd r)
  end.
Proof.
  intros r. subst r. unfold bridge_instance.
  destruct parsed as [a|]; [|simpl; split; [by eexists|reflexivity]].
  destruct (backend_data (arg_instance a)) as [dm|] eqn:Hdata.
  2:{ destruct w as [e l t ms ds bm tm th tmo qs qt]. simpl.
      split; [by eexists|reflexivity]. }
  unfold mbind, M_bind.
  pose proof (frame_inferDataType (Some (arg_instance a)) w) as Hinf.
  destruct (inferDataType (Some (arg_instance a)) w) as [dataType w1].
  simpl in Hinf.
  destruct (DataType_eqb dataType DataType_Unknown).
  { destruct w1 as [e l t ms ds bm tm th tmo qs qt]. simpl.
    split; [by eexists|exact Hinf]. }
  apply registries_eq in Hinf as (Hm & Hbm & _ & _ & _ & Hqs & _).
  destruct (construct_instance_spec (arg_instance a) dataType w1)
    as (model & adapter & Hmodel & [b Hb] & Hfresh & Hmodels & Hback & Hbm2 & Hqs2).
  destruct (construct_instance (arg_instance a) dataType w1) as [data w2].
  simpl in Hmodel, Hb, Hmodels, Hbm2, Hqs2.
  unfold finalizeMetaObject. rewrite Hb, Hmodel.
  unfold qmlRegisterSingletonInstance, s_bridgeMap_store, mret, M_ret.
  rewrite Hmodels, lookup_insert_eq. simpl.
  set (adapter' := setDynamicMetaObject adapter (Some (builder_update b))).
  assert (Hrel : forall ms qs,
    released_model (arg_instance a)
      (set_qml_singletons qs (set_models ms w2))
    = released_model (arg_instance a) w).
  { intros ms qs. unfold released_model. simpl. by rewrite Hbm2, Hbm. }
  rewrite !Hrel, insert_insert_eq, Hm.
  split; [done|].
  exists a, data, model, adapter'.
  split; [done|]. split; [done|]. split; [by rewrite <- Hm|].
  split; [done|]. split.
  { intros old Hold [m0 Hm0]. rewrite Hold.
    assert (old <> model).
    { intros ->. rewrite Hm in Hfresh. by rewrite Hfresh in Hm0. }
    split; [apply lookup_delete_eq|].
    rewrite lookup_delete_ne by done. apply lookup_insert_eq. }
  split; [done|].
  split; [by rewrite Hbm2, Hbm|]. split; [by rewrite Hqs2, Hqs|].
  intros wrapped. unfold getModelForDecorator. run.
  rewrite lookup_insert_eq. by rewrite Hmodel.
Qed.

(** ** The decorators of a type-mode adapter *)

Lemma setBackendInstance_lookup p0 backend w p :
  decorators (snd (setBackendInstance p0 (Some backend) w)) !! p =
  if bool_decide (p = p0) then rebound backend <$> decorators w !! p
  else decorators w !! p.
Proof.
  unfold setBackendInstance.
  destruct (decorators w !! p0) as [d|] eqn:E; simpl; case_bool_decide; subst;
    rewrite ?lookup_insert_eq, ?E; try done.
  by rewrite lookup_insert_ne.
Qed.

Lemma bind_decorators_spec type dirList backend : forall w,
  registries (snd (bind_decorators type dirList backend w)) = registries w
  /\ trace (snd (bind_decorators type dirList backend w)) = trace w
  /\ forall p,
       decorators (snd (bind_decorators type dirList backend w)) !! p =
       if bool_decide (p ∈ decorator_addresses dirList)
       then rebound backend <$> decorators w !! p
       else decorators w !! p.
Proof.
  induction dirList as [|[nameObj value] rest IH]; intros w.
  - split; [done|]. split; [done|]. intros p. simpl decorator_addresses.
    rewrite bool_decide_eq_false_2; [done|]. apply not_elem_of_nil.
  - assert (Hskip : forall w0,
      registries w0 = registries w -> trace w0 = trace w ->
      decorators w0 = decorators w ->
      registries (snd (bind_decorators type rest backend w0)) = registries w
      /\ trace (snd (bind_decorators type rest backend w0)) = trace w
      /\ forall p,
           decorators (snd (bind_decorators type rest backend w0)) !! p =
           if bool_decide (p ∈ decorator_addresses rest)
           then rebound backend <$> decorators w !! p
           else decorators w !! p).
    { intros w0 Hr Ht Hd. destruct (IH w0) as (H1 & H2 & H3).
      rewrite H1, H2, Hr, Ht. repeat split. intros p. by rewrite H3, Hd. }
    destruct value as [[f|kind [pData|]|fr|ar wr|ar|o]|]; simpl;
      try (apply Hskip; reflexivity).
    + unfold mbind, M_bind.
      pose proof (frame_setBackendInstance pData (Some backend) w) as Hf.
      pose proof (setBackendInstance_lookup pData backend w) as Hl.
      assert (Ht : trace (snd (setBackendInstance pData (Some backend) w)) = trace w).
      { unfold setBackendInstance. by destruct (decorators w !! pData). }
      destruct (setBackendInstance pData (Some backend) w) as [u w1].
      simpl in *. destruct (IH w1) as (H1 & H2 & H3).
      rewrite H1, H2, Hf, Ht. repeat split. intros p. rewrite H3, !Hl.
      destruct (decide (p = pData)) as [->|Hne].
      * rewrite (bool_decide_eq_true_2 (pData = pData)) by done.
        rewrite (bool_decide_eq_true_2 (pData ∈ pData :: _))
          by (apply elem_of_cons; by left).
        case_bool_decide; [|done].
        by destruct (decorators w !! pData).
      * rewrite (bool_decide_eq_false_2 (p = pData)) by done.
        case_bool_decide as Hr; case_bool_decide as Hc; try done.
        -- destruct Hc. apply elem_of_cons. by right.
        -- apply elem_of_cons in Hc as [?|?]; done.
Qed.

(** X24. bindDecoratorsToBackend rebinds every decorator object among the
    attributes of the type to the backend it is given and changes no other
    decorator. The decorator objects belong to the type, so after two
    instances of the type were bound, first one then another, each
    decorator is bound to the second only, and a call through it resolves
    to the adapter of the second instance. *)
Theorem decorators_of_a_type_follow_the_last_instance (type : PyTypeObject)
  (first last : Backend) (w : World) :
  let bind b := bindDecoratorsToBackend (Some type) (Some b) in
  (forall p,
     decorators (snd (bind last w)) !! p =
     if bool_decide (p ∈ decorator_addresses (type_dir type))
     then rebound last <$> decorators w !! p
     else decorators w !! p)
  /\ decorators (snd ((bind first ;; bind last) w)) = decorators (snd (bind last w))
  /\ (forall p d model,
        p ∈ decorator_addresses (type_dir type) ->
        decorators w !! p = Some d ->
        s_bridgeMap w !! backend_addr last = None ->
        s_typeModelMap w !! backend_addr last = Some (Some model) ->
        decorators (snd ((bind first ;; bind last) w)) !! p = Some (rebound last d)
        /\ fst (getModelForDecorator (rebound last d)
                  (snd ((bind first ;; bind last) w))) = Some model).
Proof.
  intros bind. subst bind. unfold bindDecoratorsToBackend.
  destruct (bind_decorators_spec type (type_dir type) last w) as (_ & _ & Hlast).
  assert (Hboth : forall p,
    decorators (snd ((bind_decorators type (type_dir type) first ;;
                      bind_decorators type (type_dir type) last) w)) !! p =
    if bool_decide (p ∈ decorator_addresses (type_dir type))
    then rebound last <$> decorators w !! p
    else decorators w !! p).
  { intros p. unfold mbind, M_bind.
    destruct (bind_decorators_spec type (type_dir type) first w) as (_ & _ & H1).
    destruct (bind_decorators type (type_dir type) first w) as [u w1]. simpl in H1.
    destruct (bind_decorators_spec type (type_dir type) last w1) as (_ & _ & H2).
    rewrite H2, H1. case_bool_decide; [|done].
    by destruct (decorators w !! p). }
  split; [exact Hlast|]. split.
  - apply map_eq. intros p. by rewrite Hboth, Hlast.
  - intros p d model Hin Hd Hbm Htm. split.
    + by rewrite Hboth, bool_decide_eq_true_2, Hd.
    + assert (Hreg : registries (snd ((bind_decorators type (type_dir type) first ;;
                                        bind_decorators type (type_dir type) last) w))
                     = registries w).
      { unfold mbind, M_bind.
        destruct (bind_decorators_spec type (type_dir type) first w) as (H1 & _).
        destruct (bind_decorators type (type_dir type) first w) as [u w1]. simpl in H1.
        destruct (bind_decorators_spec type (type_dir type) last w1) as (H2 & _).
        by rewrite H2. }
      apply registries_eq in Hreg as (_ & Hb & Ht & _).
      unfold getModelForDecorator. run. by rewrite Hb, Hbm, Ht, Htm.
Qed.

Lemma decorators_of_a_type_follow_the_last_instance_witness :
  let w := snd ((bindDecoratorsToBackend (Some shelf_type) (Some shelf) ;;
                 bindDecoratorsToBackend (Some shelf_type) (Some second_shelf))
                  two_shelves) in
  9%nat ∈ decorator_addresses (type_dir shelf_type)
  /\ decorators w !! 9%nat = Some (mkDecorator (Some shelf_add) (Some second_shelf))
  /\ fst (getModelForDecorator (mkDecorator (Some shelf_add) (Some second_shelf)) w)
     = Some 4%nat.
Proof.
  intros w.
  assert (Hin : 9%nat ∈ decorator_addresses (type_dir shelf_type))
    by (simpl; apply elem_of_cons; by left).
  split; [exact Hin|].
  exact (proj2 (proj2 (decorators_of_a_type_follow_the_last_instance shelf_type
                         shelf second_shelf two_shelves))
           9%nat (mkDecorator (Some shelf_add) None) 4%nat Hin eq_refl eq_refl
           eq_refl).
Defined.

(** ** The type of a property *)

(** X25. For a property whose getter's return annotation reads as a list
    hint and has a type as its first argument, determinePropertyType
    answers QQmlListProperty<QObject> when that type carries a stored
    meta-object and QVariantList when it does not, and changes nothing; so
    the answer depends on the order of registration: after a first
    bridge_type of the element type (one that takes attributes) it is
    QQmlListProperty<QObject>. *)
Theorem list_property_type_follows_registration `{ExternalLibs}
  (descriptor getter returnType : PyObject) (entries : list (PyObject * PyObject))
  (typeStr : string) (addr : nat) (name : string)
  (attrs : list (string * PyObject)) (more : list PyObject) (w : World) :
  getattr descriptor "fget" = Some getter ->
  is_Py_None getter = false ->
  getattr getter "__annotations__" = Some (PyDict entries) ->
  PyDict_GetItemString_object entries "return" = Some returnType ->
  PyObject_Str returnType = Some typeStr ->
  isListTypeHint (c_str typeStr) = true ->
  getattr returnType "__args__" = Some (PyTuple (PyType addr name attrs :: more)) ->
  determinePropertyType (Some descriptor) w =
    (if bool_decide (is_Some (type_metaobject w !! addr))
     then "QQmlListProperty<QObject>" else "QVariantList", w)
  /\ forall (a : bridge_type_args) (w0 : World) (major minor : Z) (rest : list Z),
       type_addr (arg_type a) = addr ->
       type_handler w0 !! addr = None ->
       QVersionNumber_fromString (QString_fromUtf8 (default "1.0" (arg_version a)))
         = major :: minor :: rest ->
       type_setattr_ok (arg_type a) = true ->
       fst (determinePropertyType (Some descriptor) (snd (bridge_type (Some a) w0)))
         = "QQmlListProperty<QObject>".
Proof.
  intros Hg Hn Ha Hr Hs Hl Hargs.
  assert (Hdet : forall w',
    determinePropertyType (Some descriptor) w' =
      (if bool_decide (is_Some (type_metaobject w' !! addr))
       then "QQmlListProperty<QObject>" else "QVariantList", w')).
  { intros w'. unfold determinePropertyType, PyObject_GetAttrString.
    rewrite Hg. run. rewrite Hn, Ha. run. rewrite Hr, Hs, Hl.
    unfold isQmlRegisteredType, PyObject_GetAttrString. rewrite Hargs.
    unfold getDynamicMetaObjectForType. run.
    by destruct (bool_decide _). }
  split; [apply Hdet|].
  intros a w0 major minor rest Haddr Hnew Hver Hset. rewrite Hdet. subst addr.
  destruct (bridge_type_outcome a w0 major minor rest Hnew Hver Hset)
    as (_ & Hmo & _).
  by rewrite bool_decide_eq_true_2.
Qed.

Lemma list_property_type_follows_registration_witness :
  @determinePropertyType alias_libs (Some children_property) empty_world
    = ("QVariantList", empty_world)
  /\ fst (@determinePropertyType alias_libs (Some children_property)
            (snd (@bridge_type alias_libs (Some (plain_args None)) empty_world)))
     = "QQmlListProperty<QObject>".
Proof.
  destruct (@list_property_type_follows_registration alias_libs children_property
              children_getter list_of_Plain [(PyUnicode "return", list_of_Plain)]
              "list[Plain]" 60 "Plain" [] [] empty_world eq_refl eq_refl eq_refl
              eq_refl eq_refl eq_refl eq_refl)
    as [H1 H2].
  split; [exact H1|].
  exact (H2 (plain_args None) empty_world 1 0 [] eq_refl eq_refl eq_refl eq_refl).
Defined.

(** ** List properties *)

Import PyQmlListProperty_.

(** X26. Appending an adapter to a list property appends the adapter's
    Python instance to the Python list and leaves the state of the bridge
    as it was. Every holder of the same Python list then counts one item
    more, finds the earlier items where they were, and, when the type
    registry maps the instance back to the adapter, finds the adapter at
    the last index. *)
Theorem appended_object_is_counted_and_found_again
  (property : QQmlListProperty) (data : PyQmlListPropertyData) (value : nat)
  (adapter : AutoQmlBridgeModel) (backend : Backend) (items : list nat)
  (lw : ListWorld) :
  list_data property = Some data ->
  models (lw_world lw) !! value = Some adapter ->
  m_backend adapter = Some backend ->
  py_lists lw !! pythonList data = Some items ->
  let lw' := appendFunction (Some property) (Some value) lw in
  lw_world lw' = lw_world lw
  /\ py_lists lw' = <[pythonList data := items ++ [backend_addr backend]]> (py_lists lw)
  /\ forall (alias : QQmlListProperty) (data' : PyQmlListPropertyData),
       list_data alias = Some data' ->
       pythonList data' = pythonList data ->
       fst (countFunction (Some alias) lw') = Z.of_nat (length items) + 1
       /\ (forall i : nat,
             (i < length items)%nat ->
             fst (atFunction (Some alias) (Z.of_nat i) lw')
               = fst (atFunction (Some alias) (Z.of_nat i) lw))
       /\ (s_typeModelMap (lw_world lw) !! backend_addr backend = Some (Some value) ->
           fst (atFunction (Some alias) (Z.of_nat (length items)) lw') = Some value).
Proof.
  intros Hdata Hvalue Hbackend Hlist lw'.
  assert (Hlw : lw_world lw' = lw_world lw
                /\ py_lists lw' =
                   <[pythonList data := items ++ [backend_addr backend]]> (py_lists lw)).
  { subst lw'. unfold appendFunction. simpl. rewrite Hdata, Hvalue. simpl.
    rewrite Hbackend, Hlist. unfold emitListPropertyChanged.
    destruct (owner data); [destruct (propertyIndex data <? 0)|]; done. }
  destruct Hlw as [Hw Hl]. split; [exact Hw|]. split; [exact Hl|].
  intros alias data' Halias Hsame.
  assert (Hnew : py_lists lw' !! pythonList data'
                 = Some (items ++ [backend_addr backend]))
    by (by rewrite Hl, Hsame, lookup_insert_eq).
  assert (Hold : py_lists lw !! pythonList data' = Some items)
    by (by rewrite Hsame).
  split; [|split].
  - unfold countFunction. simpl. rewrite Halias, Hnew. simpl.
    rewrite length_app. simpl. lia.
  - intros i Hi. unfold atFunction. simpl. rewrite Halias, Hnew, Hold, Hw.
    rewrite length_app. simpl.
    replace (Z.of_nat i <? 0) with false by (symmetry; apply Z.ltb_ge; lia).
    replace (Z.of_nat (length items + 1) <=? Z.of_nat i) with false
      by (symmetry; apply Z.leb_gt; lia).
    replace (Z.of_nat (length items) <=? Z.of_nat i) with false
      by (symmetry; apply Z.leb_gt; lia).
    simpl. rewrite Nat2Z.id. rewrite lookup_app_l by done.
    destruct (items !! i) as [item|]; [|done].
    by destruct (s_typeModelMap (lw_world lw) !! item) as [[q|]|].
  - intros Hmap. unfold atFunction. simpl. rewrite Halias, Hnew, Hw.
    rewrite length_app. simpl.
    replace (Z.of_nat (length items) <? 0) with false
      by (symmetry; apply Z.ltb_ge; lia).
    replace (Z.of_nat (length items + 1) <=? Z.of_nat (length items)) with false
      by (symmetry; apply Z.leb_gt; lia).
    simpl. rewrite Nat2Z.id.
    rewrite lookup_app_r by done. rewrite Nat.sub_diag. simpl. by rewrite Hmap.
Qed.

Lemma appended_object_is_counted_and_found_again_witness :
  let lw' := appendFunction (Some children) (Some 4%nat) children_world in
  fst (countFunction (Some children_again) lw') = 2
  /\ fst (atFunction (Some children_again) 1 lw') = Some 4%nat
  /\ fst (atFunction (Some children_again) 0 lw') = Some 3%nat.
Proof.
  intros lw'.
  destruct (appended_object_is_counted_and_found_again children
              (mkListData 100 (Some 7%nat) 0 "children") 4
              (mkModel (Some second_shelf)
                 None DataType_List ∅ [] true)
              second_shelf
              [21%nat] children_world eq_refl eq_refl eq_refl eq_refl)
    as (_ & _ & H).
  destruct (H children_again (mkListData 100 (Some 7%nat) 0 "children")
              eq_refl eq_refl) as (Hc & Hat & Hnew).
  split; [exact Hc|]. split; [exact (Hnew eq_refl)|].
  transitivity (fst (atFunction (Some children_again) 0 children_world));
    [|reflexivity].
  apply (Hat 0%nat). simpl. lia.
Defined.

(** X27. atFunction on a Python list with a negative index, or one not
    below the length of the list, returns the null pointer, logs the
    warning 'Index <i> out of range' and changes nothing else;
    countFunction gives the length of the list. *)
Theorem list_property_index_out_of_range_is_null (property : QQmlListProperty)
  (data : PyQmlListPropertyData) (items : list nat) (index : Z) (lw : ListWorld) :
  list_data property = Some data ->
  py_lists lw !! pythonList data = Some items ->
  index < 0 \/ Z.of_nat (length items) <= index ->
  atFunction (Some property) index lw =
    (None,
     list_warning
       ("PyQmlListProperty::atFunction: Index " +:+ pretty index +:+ " out of range")
       lw)
  /\ fst (countFunction (Some property) lw) = Z.of_nat (length items).
Proof.
  intros Hdata Hlist Hout. split.
  - unfold atFunction. simpl. rewrite Hdata, Hlist.
    destruct Hout as [Hneg|Hbig].
    + by rewrite (proj2 (Z.ltb_lt index 0) Hneg).
    + rewrite (proj2 (Z.leb_le _ index) Hbig). by rewrite orb_true_r.
  - unfold countFunction. simpl. by rewrite Hdata, Hlist.
Qed.

Lemma list_property_index_out_of_range_is_null_witness :
  atFunction (Some children) 1 children_world =
    (None,
     list_warning "PyQmlListProperty::atFunction: Index 1 out of range"
       children_world)
  /\ fst (countFunction (Some children) children_world) = 1.
Proof.
  apply (list_property_index_out_of_range_is_null children
           (mkListData 100 (Some 7%nat) 0 "children") [21%nat] 1 children_world
           eq_refl eq_refl).
  right. simpl. lia.
Defined.

(** X28. clearFunction on a Python list empties the list in place and
    reports the change once to the owner, when there is an owner and the
    property index is not negative; afterwards every holder of the same
    list counts 0 items without a warning and gets the null pointer at
    every index. *)
Theorem cleared_list_property_is_empty_for_all_holders
  (property : QQmlListProperty) (data : PyQmlListPropertyData) (items : list nat)
  (lw : ListWorld) :
  list_data property = Some data ->
  py_lists lw !! pythonList data = Some items ->
  let lw' := clearFunction (Some property) lw in
  lw_world lw' = lw_world lw
  /\ py_lists lw' = <[pythonList data := []]> (py_lists lw)
  /\ emitPropertyChanged_calls lw' =
     emitPropertyChanged_calls lw ++
     match owner data with
     | Some owner => if propertyIndex data <? 0 then [] else [(owner, propertyIndex data)]
     | None => []
     end
  /\ forall (alias : QQmlListProperty) (data' : PyQmlListPropertyData),
       list_data alias = Some data' ->
       pythonList data' = pythonList data ->
       countFunction (Some alias) lw' = (0, lw')
       /\ forall index, fst (atFunction (Some alias) index lw') = None.
Proof.
  intros Hdata Hlist lw'.
  assert (Hlw : lw_world lw' = lw_world lw
                /\ py_lists lw' = <[pythonList data := []]> (py_lists lw)
                /\ emitPropertyChanged_calls lw' =
                   emitPropertyChanged_calls lw ++
                   match owner data with
                   | Some owner =>
                       if propertyIndex data <? 0 then []
                       else [(owner, propertyIndex data)]
                   | None => []
                   end).
  { subst lw'. unfold clearFunction. simpl. rewrite Hdata, Hlist.
    unfold emitListPropertyChanged.
    destruct (owner data); [destruct (propertyIndex data <? 0)|]; simpl;
      by rewrite ?app_nil_r. }
  destruct Hlw as (Hw & Hl & He).
  split; [exact Hw|]. split; [exact Hl|]. split; [exact He|].
  intros alias data' Halias Hsame.
  assert (Hnew : py_lists lw' !! pythonList data' = Some [])
    by (by rewrite Hl, Hsame, lookup_insert_eq).
  split.
  - unfold countFunction. simpl. by rewrite Halias, Hnew.
  - intros index. unfold atFunction. simpl. rewrite Halias, Hnew.
    change (Z.of_nat (length (@nil nat))) with 0.
    destruct (index <? 0) eqn:E1; [done|].
    destruct (0 <=? index) eqn:E2; [done|].
    apply Z.ltb_ge in E1. apply Z.leb_gt in E2. lia.
Qed.

Lemma cleared_list_property_is_empty_for_all_holders_witness :
  let lw' := clearFunction (Some children) children_world in
  emitPropertyChanged_calls lw' = [(7%nat, 0)]
  /\ countFunction (Some children_again) lw' = (0, lw')
  /\ fst (atFunction (Some children_again) 0 lw') = None.
Proof.
  intros lw'.
  destruct (cleared_list_property_is_empty_for_all_holders children
              (mkListData 100 (Some 7%nat) 0 "children") [21%nat] children_world
              eq_refl eq_refl) as (_ & _ & He & H).
  split; [exact He|].
  destruct (H children_again (mkListData 100 (Some 7%nat) 0 "children")
              eq_refl eq_refl) as [Hc Hat].
  split; [exact Hc | exact (Hat 0)].
Defined.
